(** * HydroBuddy fertilizer installer: the DBF writer, verified

    A shallow embedding of [src/add-fertilizers.py] (class [DBFWriter] and
    [add_fertilizers_to_db]) and of [src/docs/add-fertilizers.py] (the CSV
    variant working on the raw file image), followed by theorems about the
    binary record codec and the read / check / append / rewrite protocol.

    Conventions.
    - [bytes] is [list byte]; a Python [str] is the list of its code points.
    - A Python exception is a value of [exn]; fallible code returns
      [result A].  A [try: ... except:] is a [match] on that result.
    - The file system is a finite map from path to file content, the clock
      is passed in by the caller. *)

From Stdlib Require Import ZArith NArith List Lia String Ascii.
From Stdlib.Strings Require Import Byte.
From Stdlib Require Import DecimalString.
From stdpp Require Import gmap strings list.

Local Open Scope N_scope.

(** ** Python values and exceptions *)

Module Py.

Abbreviation bytes := (list byte).

(** A [str]: its code points, in order. *)
Abbreviation pystr := (list N).

Inductive exn :=
  | IndexError | StructError | ValueError | TypeError | OverflowError
  | KeyError | AttributeError | UnicodeDecodeError | UnicodeEncodeError
  | FileNotFoundError.

Inductive result (A : Type) :=
  | Ok (a : A)
  | Raise (e : exn).
Arguments Ok {A} a.
Arguments Raise {A} e.

#[global] Instance result_ret : MRet result := fun _ a => Ok a.
#[global] Instance result_bind : MBind result := fun _ _ f r =>
  match r with Ok a => f a | Raise e => Raise e end.
#[global] Instance result_fmap : FMap result := fun _ _ f r =>
  match r with Ok a => Ok (f a) | Raise e => Raise e end.

(** A double is a dyadic rational, an infinity or a NaN:
    [FFinite neg m e] is [(-1)^neg * m * 2^e]. *)
Inductive pyfloat :=
  | FFinite (neg : bool) (m : N) (e : Z)
  | FInf (neg : bool)
  | FNaN.

Inductive Value :=
  | VNone
  | VBool (b : bool)
  | VInt (z : Z)
  | VFloat (f : pyfloat)
  | VStr (s : pystr).

(** What the model takes from the Python runtime rather than from this
    repository: case mapping of text that is not pure ASCII, parsing a
    string as a float ([None] is [ValueError]), [str] of a float, and the
    interpreter's cap on the decimal digits of an [int] that [str] converts
    ([sys.get_int_max_str_digits()]: 4300 by default from Python 3.11 on,
    [0] where the cap is switched off or absent; the interpreter accepts no
    cap below 640, so the at most 309 digits of [int(float(value))] never
    reach it). *)
Class PyRuntime := {
  lower_unicode : pystr -> pystr;
  float_of_str : pystr -> option pyfloat;
  repr_float : pyfloat -> pystr;
  int_max_str_digits : N
}.

(** *** Sequences *)

(** [l[a:b]] for non-negative [a], [b]. *)
Definition slice {A} (a b : nat) (l : list A) : list A :=
  take (b - a)%nat (drop a l).

(** [l[i]]: [IndexError] past the end. *)
Definition index {A} (l : list A) (i : nat) : result A :=
  match l !! i with Some x => Ok x | None => Raise IndexError end.

(** [l[a:b] = v] on a [bytearray]: both bounds are clipped to the length,
    an empty or inverted range inserts at [a]; the length may change. *)
Definition slice_assign {A} (l : list A) (a b : nat) (v : list A) : list A :=
  let a' := Nat.min a (length l) in
  let b' := Nat.max a' (Nat.min b (length l)) in
  take a' l ++ v ++ drop b' l.

(** [bytearray(n)] *)
Definition bytearray (n : nat) : bytes := replicate n x00.

(** [l[i] = v] on a [bytearray]: [ValueError] unless [0 <= v < 256],
    [IndexError] past the end. *)
Definition set_byte (l : bytes) (i : nat) (v : Z) : result bytes :=
  if (0 <=? v)%Z && (v <? 256)%Z then
    match Byte.of_N (Z.to_N v) with
    | Some b => if (i <? length l)%nat then Ok (<[i:=b]> l) else Raise IndexError
    | None => Raise ValueError
    end
  else Raise ValueError.

(** [s.ljust(n)] and [s.rjust(n)], on [bytes] (fill [b' ']) and on [str]. *)
Definition ljust {A} (fill : A) (n : nat) (s : list A) : list A :=
  s ++ replicate (n - length s)%nat fill.
Definition rjust {A} (fill : A) (n : nat) (s : list A) : list A :=
  replicate (n - length s)%nat fill ++ s.

(** *** struct *)

(** Little-endian value of a byte string. *)
Fixpoint le_decode (bs : bytes) : N :=
  match bs with
  | [] => 0
  | b :: bs' => Byte.to_N b + 256 * le_decode bs'
  end.

Definition byte_of_N (n : N) : byte :=
  match Byte.of_N (n mod 256) with Some b => b | None => x00 end.

(** The [w] low bytes of [n], little-endian. *)
Fixpoint le_encode (w : nat) (n : N) : bytes :=
  match w with
  | O => []
  | S w' => byte_of_N n :: le_encode w' (n / 256)
  end.

(** [struct.unpack('<I', b)[0]] and [struct.unpack('<H', b)[0]]:
    [struct.error] unless the buffer has exactly 4 (2) bytes. *)
Definition unpack_I (b : bytes) : result N :=
  if (length b =? 4)%nat then Ok (le_decode b) else Raise StructError.
Definition unpack_H (b : bytes) : result N :=
  if (length b =? 2)%nat then Ok (le_decode b) else Raise StructError.

(** [struct.pack('<I', n)] and [struct.pack('<H', n)] for [n >= 0]:
    [struct.error] when [n] does not fit. *)
Definition pack_I (n : N) : result bytes :=
  if n <? 2 ^ 32 then Ok (le_encode 4 n) else Raise StructError.
Definition pack_H (n : N) : result bytes :=
  if n <? 2 ^ 16 then Ok (le_encode 2 n) else Raise StructError.

(** *** Text *)

Definition str_of (s : string) : pystr :=
  map N_of_ascii (list_ascii_of_string s).

Definition is_ascii (c : N) : bool := c <? 128.

(** Text that [encode('ascii')] accepts. *)
Definition ascii_text (s : pystr) : Prop := Forall (fun c => is_ascii c = true) s.

(** [b.decode('ascii')]: [UnicodeDecodeError] on a byte above 127. *)
Fixpoint decode_ascii (b : bytes) : result pystr :=
  match b with
  | [] => Ok []
  | x :: b' =>
      if is_ascii (Byte.to_N x)
      then s ← decode_ascii b'; Ok (Byte.to_N x :: s)
      else Raise UnicodeDecodeError
  end.

(** [b.decode('ascii', errors='ignore')]: bytes above 127 are dropped. *)
Definition decode_ascii_ignore (b : bytes) : pystr :=
  filter (fun c => is_ascii c = true) (map Byte.to_N b).

(** [s.encode('ascii')]: [UnicodeEncodeError] on a code point above 127. *)
Fixpoint encode_ascii (s : pystr) : result bytes :=
  match s with
  | [] => Ok []
  | c :: s' =>
      if is_ascii c
      then b ← encode_ascii s'; Ok (byte_of_N c :: b)
      else Raise UnicodeEncodeError
  end.

(** [s.encode('ascii', errors='ignore')] *)
Definition encode_ascii_ignore (s : pystr) : bytes :=
  map byte_of_N (filter (fun c => is_ascii c = true) s).

(** [s.encode('ascii', errors='replace')]: [?] for a code point above 127. *)
Definition encode_ascii_replace (s : pystr) : bytes :=
  map (fun c => if is_ascii c then byte_of_N c else x3f) s.

(** [str.isspace] of one code point. *)
Definition is_space (c : N) : bool :=
  ((9 <=? c) && (c <=? 13)) || ((28 <=? c) && (c <=? 32))
  || (c =? 133) || (c =? 160) || (c =? 5760)
  || ((8192 <=? c) && (c <=? 8202))
  || (c =? 8232) || (c =? 8233) || (c =? 8239) || (c =? 8287) || (c =? 12288).

Fixpoint lstrip (p : N -> bool) (s : pystr) : pystr :=
  match s with
  | [] => []
  | c :: s' => if p c then lstrip p s' else s
  end.

Definition rstrip (p : N -> bool) (s : pystr) : pystr :=
  rev (lstrip p (rev s)).

(** [s.strip()] and [s.strip('\x00')] *)
Definition strip (s : pystr) : pystr := rstrip is_space (lstrip is_space s).
Definition strip_nul (s : pystr) : pystr :=
  rstrip (N.eqb 0) (lstrip (N.eqb 0) s).

Definition ascii_lower (c : N) : N :=
  if (65 <=? c) && (c <=? 90) then c + 32 else c.

(** [s.lower()]: on pure ASCII text only [A]..[Z] change. *)
Definition lower `{PyRuntime} (s : pystr) : pystr :=
  if forallb is_ascii s then map ascii_lower s else lower_unicode s.

End Py.

(** ** Numbers and their text *)

Module PyNum.
Import Py.

(** Decimal digits of a natural number. *)
Definition digits (n : N) : pystr :=
  str_of (NilZero.string_of_uint (N.to_uint n)).

(** The integer nearest to [m * 2^e], ties to even. *)
Definition round_half_even (m : N) (e : Z) : N :=
  match e with
  | Zneg p =>
      let d := 2 ^ Npos p in
      let q := m / d in
      let r := m mod d in
      if 2 * r <? d then q
      else if d <? 2 * r then q + 1
      else if N.even q then q else q + 1
  | _ => m * 2 ^ Z.to_N e
  end.

Definition sign_text (neg : bool) : pystr :=
  if neg then str_of "-" else [].

(** [format(x, '.<prec>f')]: correctly rounded fixed-point text with exactly
    [prec] fractional digits, never an exponent. *)
Definition format_fixed (x : pyfloat) (prec : nat) : pystr :=
  match x with
  | FNaN => str_of "nan"
  | FInf neg => sign_text neg ++ str_of "inf"
  | FFinite neg m e =>
      let q := round_half_even (m * 10 ^ N.of_nat prec) e in
      let ds := rjust 48 (S prec) (digits q) in
      let ip := take (length ds - prec)%nat ds in
      let fp := drop (length ds - prec)%nat ds in
      sign_text neg ++ ip ++ (if prec is O then [] else 46 :: fp)
  end.

(** [f"{x:{width}.{prec}f}"]: right-justified in [width] columns.  For
    [width = 0] the specification reads [0.<prec>f], the zero flag with no
    width, which pads nothing either. *)
Definition format_f (x : pyfloat) (width prec : nat) : pystr :=
  rjust 32 width (format_fixed x prec).

Definition int_text (z : Z) : pystr :=
  sign_text (z <? 0)%Z ++ digits (Z.abs_N z).

(** [f"{z:{width}d}"] *)
Definition format_d (z : Z) (width : nat) : pystr :=
  rjust 32 width (int_text z).

(** [float(z)] for an [int]: the nearest double, ties to even;
    [OverflowError] beyond the largest double. *)
Definition float_of_int (z : Z) : result pyfloat :=
  let n := Z.abs_N z in
  let bits := N.size n in
  if bits <=? 53 then Ok (FFinite (z <? 0)%Z n 0)
  else
    let sh := bits - 53 in
    let q := round_half_even n (- Z.of_N sh) in
    if 2 ^ 1024 <=? q * 2 ^ sh then Raise OverflowError
    else Ok (FFinite (z <? 0)%Z q (Z.of_N sh)).

(** [float(v)] *)
Definition to_float `{PyRuntime} (v : Value) : result pyfloat :=
  match v with
  | VNone => Raise TypeError
  | VBool b => Ok (FFinite false (if b then 1 else 0) 0)
  | VInt z => float_of_int z
  | VFloat f => Ok f
  | VStr s =>
      match float_of_str s with
      | Some f => Ok f
      | None => Raise ValueError
      end
  end.

(** [int(x)] for a float: truncation toward zero. *)
Definition int_of_float (x : pyfloat) : result Z :=
  match x with
  | FNaN => Raise ValueError
  | FInf _ => Raise OverflowError
  | FFinite neg m e =>
      let a := match e with
               | Zneg p => m / 2 ^ Npos p
               | _ => m * 2 ^ Z.to_N e
               end in
      Ok (if neg then (- Z.of_N a)%Z else Z.of_N a)
  end.

(** [bool(v)] *)
Definition truthy (v : Value) : bool :=
  match v with
  | VNone => false
  | VBool b => b
  | VInt z => negb (z =? 0)%Z
  | VFloat (FFinite _ m _) => negb (m =? 0)
  | VFloat _ => true
  | VStr s => negb (bool_decide (s = []))
  end.

(** [v is None] and [v == ''] *)
Definition is_None (v : Value) : bool :=
  match v with VNone => true | _ => false end.
Definition eq_empty_str (v : Value) : bool :=
  match v with VStr [] => true | _ => false end.

(** An [int] with more decimal digits (the sign apart) than the
    interpreter's cap, when there is one. *)
Definition over_digit_cap `{PyRuntime} (z : Z) : bool :=
  (0 <? int_max_str_digits)
  && (int_max_str_digits <? N.of_nat (length (digits (Z.abs_N z)))).

(** [str(v)]: [ValueError] for an [int] over the digit cap. *)
Definition py_str `{PyRuntime} (v : Value) : result pystr :=
  match v with
  | VNone => Ok (str_of "None")
  | VBool b => Ok (str_of (if b then "True" else "False"))
  | VInt z => if over_digit_cap z then Raise ValueError else Ok (int_text z)
  | VFloat f => Ok (repr_float f)
  | VStr s => Ok s
  end.

(** A value [str] accepts: anything but an [int] over the digit cap. *)
Definition printable `{PyRuntime} (v : Value) : Prop :=
  match v with
  | VInt z => over_digit_cap z = false
  | _ => True
  end.

End PyNum.

(** ** src/add-fertilizers.py *)

Module Header.
(** The [self.header] dict of [DBFWriter]. *)
Record t := mk {
  version : N;
  year : N;
  month : N;
  day : N;
  num_records : N;
  header_length : N;
  record_length : N
}.
End Header.

Module Field.
(** One entry of [self.field_descriptors]; [type] is the code point of
    [chr(field_data[11])]. *)
Record t := mk {
  name : Py.pystr;
  type : N;
  length : N;
  decimal : N
}.
End Field.

Module Date.
(** What [datetime.now()] is read for. *)
Record t := mk { year : Z; month : Z; day : Z }.
End Date.

#[global] Instance byte_eq_dec : EqDecision byte.
Proof.
  intros x y. destruct (Byte.eqb x y) eqn:E.
  - left. now apply Byte.byte_dec_bl.
  - right. intros ->. rewrite (Byte.byte_dec_lb eq_refl) in E. discriminate.
Defined.

Module OS.
Import Py.

(** The file system: path to content.  [os.rename] moves an entry,
    [open(p, 'wb')] creates or empties one. *)
Abbreviation FS := (gmap string bytes).

(** What the program does to the outside. *)
Inductive Event :=
  | EvRename (src dst : string)
  | EvOpenWrite (path : string).

Record World := mkWorld { files : FS; events : list Event }.

(** [f"{dbf_path}.backup-{datetime.now().strftime('%Y%m%d-%H%M%S')}"],
    [stamp] being the formatted time. *)
Definition backup_path_of (dbf_path stamp : string) : string :=
  (dbf_path +:+ ".backup-" +:+ stamp)%string.

End OS.

Module AddFertilizers.
Import Py PyNum OS.

(** A [dict] with [str] keys. *)
Abbreviation dict := (gmap pystr Value).

(** An instance of class [DBFWriter]. *)
Record DBFWriter := mkDBF {
  dbf_path : string;
  header : Header.t;
  records : list bytes;
  field_descriptors : list Field.t
}.

(** The [while True] loop of [read_dbf] over the open file [f] (its unread
    bytes).  Every turn reads a block and an empty read makes
    [field_data[0]] raise, so the loop turns at most once per unread byte
    and once more.  [fuel] is a bound above the unread length; it is never
    what ends the loop ([read_fields_fuel]). *)
Fixpoint read_fields (fuel : nat) (f : bytes) (acc : list Field.t)
  : result (list Field.t * bytes) :=
  match fuel with
  | O => Raise IndexError
  | S fuel' =>
      let field_data := take 32 f in
      let f' := drop 32 f in
      b0 ← index field_data 0;
      if decide (b0 = x0d) then Ok (acc, f')
      else
        field_name ← strip_nul <$> decode_ascii (slice 0 11 field_data);
        field_type ← index field_data 11;
        field_length ← index field_data 16;
        field_decimal ← index field_data 17;
        read_fields fuel' f'
          (acc ++ [Field.mk field_name (Byte.to_N field_type)
                     (Byte.to_N field_length) (Byte.to_N field_decimal)])
  end.

(** [for _ in range(n): self.records.append(f.read(record_length))] *)
Fixpoint read_records (n : nat) (record_length : nat) (f : bytes) : list bytes :=
  match n with
  | O => []
  | S n' => take record_length f :: read_records n' record_length (drop record_length f)
  end.

(** The [self.header = {...}] literal of [read_dbf], entries in order. *)
Definition read_header (header_data : bytes) : result Header.t :=
  version ← index header_data 0;
  year ← index header_data 1;
  month ← index header_data 2;
  day ← index header_data 3;
  num_records ← unpack_I (slice 4 8 header_data);
  header_length ← unpack_H (slice 8 10 header_data);
  record_length ← unpack_H (slice 10 12 header_data);
  Ok (Header.mk (Byte.to_N version) (Byte.to_N year) (Byte.to_N month)
        (Byte.to_N day) num_records header_length record_length).

(** [DBFWriter(dbf_path).read_dbf()] on a file holding [data]. *)
Definition read_dbf (dbf_path : string) (data : bytes) : result DBFWriter :=
  h ← read_header (take 32 data);
  '(fields, f) ← read_fields (S (length (drop 32 data))) (drop 32 data) [];
  Ok (mkDBF dbf_path h
        (read_records (N.to_nat (Header.num_records h))
           (N.to_nat (Header.record_length h)) f)
        fields).

(** [record[1:81].decode('ascii', errors='ignore').strip()] *)
Definition record_name (record : bytes) : pystr :=
  strip (decode_ascii_ignore (slice 1 81 record)).

Fixpoint record_exists `{PyRuntime} (records : list bytes) (name : pystr) : bool :=
  match records with
  | [] => false
  | record :: rest =>
      if decide (slice 0 1 record = [x2a]) then record_exists rest name
      else if decide (lower (record_name record) = lower name) then true
      else record_exists rest name
  end.

Definition spaces (n : nat) : bytes := replicate n x20.

(** [format_value].  The numeric branch runs inside [try: ... except:], the
    character branch does not: an exception of [str(value)] leaves the
    function.  [field_length] and [field_decimal] are what a descriptor
    holds, one byte each; widths and precisions beyond that (which Python
    can refuse) are outside the statements made about this function. *)
Definition format_value `{PyRuntime}
    (value : Value) (field_type field_length field_decimal : N) : result bytes :=
  let width := N.to_nat field_length in
  if decide (field_type = 78) then                       (* 'N' *)
    if is_None value || eq_empty_str value then
      Ok (spaces width)
    else
      let attempt :=
        formatted ←
          (if 0 <? field_decimal
           then x ← to_float value; Ok (format_f x width (N.to_nat field_decimal))
           else x ← to_float value; z ← int_of_float x; Ok (format_d z width));
        b ← encode_ascii formatted;
        Ok (rjust x20 width (take width b)) in
      match attempt with
      | Ok b => Ok b
      | Raise _ => Ok (spaces width)
      end
  else if decide (field_type = 67) then                  (* 'C' *)
    let value := if is_None value then VStr [] else value in
    text ← py_str value;
    Ok (ljust x20 width (take width (encode_ascii_ignore text)))
  else if decide (field_type = 76) then                  (* 'L' *)
    if truthy value then Ok [x54] else Ok [x46]
  else Ok (spaces width).

(** The loop of [add_record]: each field's text is stored at the running
    offset by a slice assignment, which can shorten or lengthen [record]
    when the text is not [field['length']] bytes long. *)
Fixpoint fill_fields `{PyRuntime} (fields : list Field.t) (field_values : dict)
    (record : bytes) (offset : nat) : result bytes :=
  match fields with
  | [] => Ok record
  | field :: rest =>
      let value := default VNone (field_values !! Field.name field) in
      formatted ← format_value value (Field.type field) (Field.length field)
                    (Field.decimal field);
      let stop := (offset + N.to_nat (Field.length field))%nat in
      fill_fields rest field_values (slice_assign record offset stop formatted) stop
  end.

(** A schema whose logical fields are one byte wide, as the format has
    them, and the bytes its fields take in a record. *)
Definition logical_fields_are_bytes (fields : list Field.t) : Prop :=
  Forall (fun field => Field.type field = 76 -> Field.length field = 1) fields.

Definition fields_width (fields : list Field.t) : nat :=
  foldr (fun field n => (N.to_nat (Field.length field) + n)%nat) 0%nat fields.

(** A mapping none of whose values [str] rejects. *)
Definition printable_values `{PyRuntime} (field_values : dict) : Prop :=
  forall key value, field_values !! key = Some value -> printable value.

(** The record [add_record] builds: [record[0] = 0x20] raises [IndexError]
    on an empty buffer. *)
Definition new_record `{PyRuntime} (db : DBFWriter) (field_values : dict)
  : result bytes :=
  let record := bytearray (N.to_nat (Header.record_length (header db))) in
  record ← set_byte record 0 32;
  fill_fields (field_descriptors db) field_values record 1.

Definition add_record `{PyRuntime} (db : DBFWriter) (field_values : dict)
  : result DBFWriter :=
  record ← new_record db field_values;
  let h := header db in
  Ok (mkDBF (dbf_path db)
        (Header.mk (Header.version h) (Header.year h) (Header.month h)
           (Header.day h) (Header.num_records h + 1) (Header.header_length h)
           (Header.record_length h))
        (records db ++ [record])
        (field_descriptors db)).

(** The 32 header bytes [write_dbf] builds before [f.write(header)]. *)
Definition build_header (h : Header.t) (today : Date.t) : result bytes :=
  let header := bytearray 32 in
  header ← set_byte header 0 (Z.of_N (Header.version h));
  header ← set_byte header 1 (Date.year today - 1900);
  header ← set_byte header 2 (Date.month today);
  header ← set_byte header 3 (Date.day today);
  count ← pack_I (Header.num_records h);
  let header := slice_assign header 4 8 count in
  hl ← pack_H (Header.header_length h);
  let header := slice_assign header 8 10 hl in
  rl ← pack_H (Header.record_length h);
  let header := slice_assign header 10 12 rl in
  Ok header.

(** The descriptor copy of [write_dbf], from the backup positioned at 32:
    what was written, and how the loop ended.  [fuel] as in [read_fields]
    ([copy_fields_fuel]). *)
Fixpoint copy_fields (fuel : nat) (orig : bytes) (written : bytes)
  : bytes * result unit :=
  match fuel with
  | O => (written, Raise IndexError)
  | S fuel' =>
      let field_data := take 32 orig in
      match index field_data 0 with
      | Raise e => (written, Raise e)
      | Ok b0 =>
          if decide (b0 = x0d) then (written ++ [x0d], Ok ())
          else copy_fields fuel' (drop 32 orig) (written ++ field_data)
      end
  end.

(** [write_dbf]: [stamp] is the first reading of the clock, [today] the
    second.  A file opened for writing keeps what was written before an
    exception left the [with] block. *)
Definition write_dbf (db : DBFWriter) (stamp : string) (today : Date.t)
    (w : World) : World * result unit :=
  let path := dbf_path db in
  let backup_path := backup_path_of path stamp in
  let w :=
    match files w !! path with
    | Some content =>
        mkWorld (<[backup_path := content]> (delete path (files w)))
                (events w ++ [EvRename path backup_path])
    | None => w
    end in
  let w := mkWorld (<[path := []]> (files w)) (events w ++ [EvOpenWrite path]) in
  let close (content : bytes) := mkWorld (<[path := content]> (files w)) (events w) in
  match build_header (header db) today with
  | Raise e => (w, Raise e)
  | Ok header =>
      match files w !! backup_path with
      | None => (close header, Raise FileNotFoundError)
      | Some orig =>
          match copy_fields (S (length (drop 32 orig))) (drop 32 orig) header with
          | (written, Raise e) => (close written, Raise e)
          | (written, Ok _) =>
              (close (written ++ concat (records db) ++ [x1a]), Ok ())
          end
      end
  end.

(** A float literal: [dbl m k] is the double [m / 2^k]. *)
Definition dbl (m : N) (k : N) : pyfloat := FFinite false m (- Z.of_N k).

(** [m / 2^k] is the double nearest to the decimal literal
    [digits / 10^places]: [m] fits 53 bits, and the two differ by at most
    half a unit in the last place of a 53-bit mantissa, which is
    [2^(size m - 54 - k)]. *)
Definition denotes (m k digits places : N) : bool :=
  let half_ulps := 2 ^ (54 - N.size m) in
  (N.size m <=? 53)
  && (half_ulps * (m * 10 ^ places - digits * 2 ^ k) <=? 10 ^ places)
  && (half_ulps * (digits * 2 ^ k - m * 10 ^ places) <=? 10 ^ places).

(** The [fertilizers] literal of [add_fertilizers_to_db].  The doubles are
    those the decimal literals denote: 5.24 is 2949857755927675 / 2^49,
    21.58 is 1518557499353989 / 2^46, 6.3 is 7093169413108531 / 2^50,
    0.05 is 3602879701896397 / 2^56, 0.3 is 5404319552844595 / 2^54,
    0.015 is 1080863910568919 / 2^56, 0.019 is 5476377146882523 / 2^58,
    0.0009 is 4150517416584649 / 2^62; 8.5 is 17 / 2 and 15.5 is 31 / 2. *)
Definition jacks_5_12_26_part_a : dict := list_to_map [
    (str_of "Name", VStr (str_of "Jacks 5-12-26 Part A"));
    (str_of "Formula", VStr (str_of "NPK blend"));
    (str_of "Source", VStr (str_of "Jack's Nutrients"));
    (str_of "Purity", VFloat (dbl 1 0));
    (str_of "N (NO3-)", VFloat (dbl 5 0));
    (str_of "N (NH4+)", VFloat (dbl 0 0));
    (str_of "P", VFloat (dbl 2949857755927675 49));
    (str_of "K", VFloat (dbl 1518557499353989 46));
    (str_of "Mg", VFloat (dbl 7093169413108531 50));
    (str_of "Ca", VFloat (dbl 0 0));
    (str_of "S", VFloat (dbl 17 1));
    (str_of "B", VFloat (dbl 3602879701896397 56));
    (str_of "Fe", VFloat (dbl 5404319552844595 54));
    (str_of "Zn", VFloat (dbl 1080863910568919 56));
    (str_of "Mn", VFloat (dbl 3602879701896397 56));
    (str_of "Cu", VFloat (dbl 1080863910568919 56));
    (str_of "Mo", VFloat (dbl 5476377146882523 58));
    (str_of "Na", VFloat (dbl 0 0));
    (str_of "Si", VFloat (dbl 0 0));
    (str_of "Cl", VFloat (dbl 0 0));
    (str_of "isLiquid", VInt 0);
    (str_of "Density", VFloat (dbl 0 0));
    (str_of "Cost", VFloat (dbl 0 0));
    (str_of "ConcType", VStr (str_of "0"))
  ].

Definition jacks_0_12_26_part_a : dict := list_to_map [
    (str_of "Name", VStr (str_of "Jacks 0-12-26 Part A"));
    (str_of "Formula", VStr (str_of "PK blend"));
    (str_of "Source", VStr (str_of "Jack's Nutrients"));
    (str_of "Purity", VFloat (dbl 1 0));
    (str_of "N (NO3-)", VFloat (dbl 0 0));
    (str_of "N (NH4+)", VFloat (dbl 0 0));
    (str_of "P", VFloat (dbl 2949857755927675 49));
    (str_of "K", VFloat (dbl 1518557499353989 46));
    (str_of "Mg", VFloat (dbl 6 0));
    (str_of "Ca", VFloat (dbl 0 0));
    (str_of "S", VFloat (dbl 13 0));
    (str_of "B", VFloat (dbl 3602879701896397 56));
    (str_of "Fe", VFloat (dbl 5404319552844595 54));
    (str_of "Zn", VFloat (dbl 1080863910568919 56));
    (str_of "Mn", VFloat (dbl 3602879701896397 56));
    (str_of "Cu", VFloat (dbl 1080863910568919 56));
    (str_of "Mo", VFloat (dbl 4150517416584649 62));
    (str_of "Na", VFloat (dbl 0 0));
    (str_of "Si", VFloat (dbl 0 0));
    (str_of "Cl", VFloat (dbl 0 0));
    (str_of "isLiquid", VInt 0);
    (str_of "Density", VFloat (dbl 0 0));
    (str_of "Cost", VFloat (dbl 0 0));
    (str_of "ConcType", VStr (str_of "0"))
  ].

Definition jacks_calcium_nitrate : dict := list_to_map [
    (str_of "Name", VStr (str_of "Jacks Calcium Nitrate"));
    (str_of "Formula", VStr (str_of "Ca(NO3)2"));
    (str_of "Source", VStr (str_of "Jack's Nutrients"));
    (str_of "Purity", VFloat (dbl 1 0));
    (str_of "N (NO3-)", VFloat (dbl 31 1));
    (str_of "N (NH4+)", VFloat (dbl 0 0));
    (str_of "P", VFloat (dbl 0 0));
    (str_of "K", VFloat (dbl 0 0));
    (str_of "Mg", VFloat (dbl 0 0));
    (str_of "Ca", VFloat (dbl 19 0));
    (str_of "S", VFloat (dbl 0 0));
    (str_of "B", VFloat (dbl 0 0));
    (str_of "Fe", VFloat (dbl 0 0));
    (str_of "Zn", VFloat (dbl 0 0));
    (str_of "Mn", VFloat (dbl 0 0));
    (str_of "Cu", VFloat (dbl 0 0));
    (str_of "Mo", VFloat (dbl 0 0));
    (str_of "Na", VFloat (dbl 0 0));
    (str_of "Si", VFloat (dbl 0 0));
    (str_of "Cl", VFloat (dbl 0 0));
    (str_of "isLiquid", VInt 0);
    (str_of "Density", VFloat (dbl 0 0));
    (str_of "Cost", VFloat (dbl 0 0));
    (str_of "ConcType", VStr (str_of "1"))
  ].

Definition calcium_sulfate : dict := list_to_map [
    (str_of "Name", VStr (str_of "Calcium Sulfate"));
    (str_of "Formula", VStr (str_of "CaSO4" ++ [183] ++ str_of "2H2O"));
    (str_of "Source", VStr (str_of "Generic"));
    (str_of "Purity", VFloat (dbl 1 0));
    (str_of "N (NO3-)", VFloat (dbl 0 0));
    (str_of "N (NH4+)", VFloat (dbl 0 0));
    (str_of "P", VFloat (dbl 0 0));
    (str_of "K", VFloat (dbl 0 0));
    (str_of "Mg", VFloat (dbl 0 0));
    (str_of "Ca", VFloat (dbl 22 0));
    (str_of "S", VFloat (dbl 17 0));
    (str_of "B", VFloat (dbl 0 0));
    (str_of "Fe", VFloat (dbl 0 0));
    (str_of "Zn", VFloat (dbl 0 0));
    (str_of "Mn", VFloat (dbl 0 0));
    (str_of "Cu", VFloat (dbl 0 0));
    (str_of "Mo", VFloat (dbl 0 0));
    (str_of "Na", VFloat (dbl 0 0));
    (str_of "Si", VFloat (dbl 0 0));
    (str_of "Cl", VFloat (dbl 0 0));
    (str_of "isLiquid", VInt 0);
    (str_of "Density", VFloat (dbl 0 0));
    (str_of "Cost", VFloat (dbl 0 0));
    (str_of "ConcType", VStr ([]))
  ].

Definition fertilizers : list dict :=
  [jacks_5_12_26_part_a; jacks_0_12_26_part_a; jacks_calcium_nitrate; calcium_sulfate].

(** [db.record_exists(fert['Name'])] for whatever the entry holds: a name
    that is not a [str] has no [lower], which the first record that is not
    skipped finds out. *)
Definition record_exists_value `{PyRuntime} (records : list bytes) (name : Value)
  : result bool :=
  match name with
  | VStr s => Ok (record_exists records s)
  | _ =>
      if forallb (fun record => bool_decide (slice 0 1 record = [x2a])) records
      then Ok false else Raise AttributeError
  end.

(** The [for fert in fertilizers] loop. *)
Fixpoint add_new `{PyRuntime} (fertilizers : list dict) (db : DBFWriter)
    (added_count : nat) : result (DBFWriter * nat) :=
  match fertilizers with
  | [] => Ok (db, added_count)
  | fert :: rest =>
      name ← match fert !! str_of "Name" with
             | Some v => Ok v
             | None => Raise KeyError
             end;
      present ← record_exists_value (records db) name;
      if (present : bool) then add_new rest db added_count
      else db' ← add_record db fert; add_new rest db' (S added_count)
  end.

(** A candidate the duplicate check can find again: its [Name] is ASCII
    text of at most 80 characters without surrounding whitespace. *)
Definition findable (fert : dict) : Prop :=
  exists s, fert !! str_of "Name" = Some (VStr s)
            /\ ascii_text s /\ (length s <= 80)%nat /\ strip s = s.

(** [add_fertilizers_to_db] with its list of candidates as a parameter. *)
Definition add_fertilizers `{PyRuntime} (fertilizers : list dict)
    (db_path stamp : string) (today : Date.t) (w : World) : World * result bool :=
  match files w !! db_path with
  | None => (w, Ok false)
  | Some data =>
      match db ← read_dbf db_path data; add_new fertilizers db 0 with
      | Raise e => (w, Raise e)
      | Ok (db, added_count) =>
          if (0 <? added_count)%nat then
            match write_dbf db stamp today w with
            | (w', Ok _) => (w', Ok true)
            | (w', Raise e) => (w', Raise e)
            end
          else (w, Ok false)
      end
  end.

Definition add_fertilizers_to_db `{PyRuntime} (db_path stamp : string)
    (today : Date.t) (w : World) : World * result bool :=
  add_fertilizers fertilizers db_path stamp today w.

End AddFertilizers.

(** ** src/docs/add-fertilizers.py *)

Module DocsAddFertilizers.
Import Py PyNum OS.

Definition format_string_field (value : pystr) (length : nat) : bytes :=
  encode_ascii_replace (ljust 32 length (take length value)).

Definition format_numeric_field `{PyRuntime} (value : Value) : result bytes :=
  x ← to_float value;
  encode_ascii (format_f x 18 8).

(** The keys read by [nutrients.get(key, 0)], in the order of the record. *)
Definition nutrient_keys : list pystr :=
  map str_of ["N_NO3"; "N_NH4"; "P"; "K"; "Mg"; "Ca"; "S"; "B"; "Fe"; "Zn";
              "Mn"; "Cu"; "Mo"; "Na"; "Si"; "Cl"]%string.

(** The run of
    [record[offset:offset+18] = format_numeric_field(v); offset += 18]. *)
Fixpoint put_numeric `{PyRuntime} (values : list Value) (record : bytes)
    (offset : nat) : result (bytes * nat) :=
  match values with
  | [] => Ok (record, offset)
  | v :: rest =>
      b ← format_numeric_field v;
      put_numeric rest (slice_assign record offset (offset + 18) b) (offset + 18)%nat
  end.

Definition create_fertilizer_record `{PyRuntime}
    (name formula source : pystr) (purity : Value) (nutrients : gmap pystr Value)
    (isliquid density cost : Value) (conctype : pystr) : result bytes :=
  let record := bytearray 681 in
  let offset := 0%nat in
  record ← set_byte record offset 32;
  let offset := (offset + 1)%nat in
  let record := slice_assign record offset (offset + 80) (format_string_field name 80) in
  let offset := (offset + 80)%nat in
  let record := slice_assign record offset (offset + 80) (format_string_field formula 80) in
  let offset := (offset + 80)%nat in
  let record := slice_assign record offset (offset + 80) (format_string_field source 80) in
  let offset := (offset + 80)%nat in
  '(record, offset) ←
    put_numeric
      ([purity]
       ++ map (fun key => default (VInt 0) (nutrients !! key)) nutrient_keys
       ++ [isliquid; density; cost])
      record offset;
  let remaining := (681 - offset)%nat in
  Ok (slice_assign record offset (offset + remaining)
        (format_string_field conctype remaining)).

(** The scan of [fertilizer_exists] over [range(num_records)]. *)
Fixpoint scan_records `{PyRuntime} (data : bytes) (header_length record_length : nat)
    (name : pystr) (indices : list nat) : result bool :=
  match indices with
  | [] => Ok false
  | i :: rest =>
      let offset := (header_length + i * record_length)%nat in
      let record := slice offset (offset + record_length) data in
      status ← index record 0;
      if decide (status = x2a)
      then scan_records data header_length record_length name rest
      else if decide (lower (strip (decode_ascii_ignore (slice 1 81 record)))
                      = lower name)
      then Ok true
      else scan_records data header_length record_length name rest
  end.

Definition fertilizer_exists `{PyRuntime} (fs : FS) (dbf_path : string)
    (name : pystr) : result bool :=
  match fs !! dbf_path with
  | None => Raise FileNotFoundError
  | Some data =>
      header_length ← unpack_H (slice 8 10 data);
      record_length ← unpack_H (slice 10 12 data);
      num_records ← unpack_I (slice 4 8 data);
      scan_records data (N.to_nat header_length) (N.to_nat record_length) name
        (seq 0 (N.to_nat num_records))
  end.

(** A row as [load_fertilizers_from_csv] builds it. *)
Record Fertilizer := mkFertilizer {
  name : pystr;
  formula : pystr;
  source : pystr;
  purity : Value;
  nutrients : gmap pystr Value;
  isliquid : Value;
  density : Value;
  cost : Value;
  conctype : pystr
}.

(** A value whose 18.8 rendering fits the 18 bytes of a numeric field. *)
Definition fits_numeric `{PyRuntime} (value : Value) : Prop :=
  exists x, to_float value = Ok x /\ (length (format_fixed x 8) <= 18)%nat.

(** The numeric arguments of [create_fertilizer_record], in record order. *)
Definition numeric_values (purity : Value) (nutrients : gmap pystr Value)
    (isliquid density cost : Value) : list Value :=
  [purity] ++ map (fun key => default (VInt 0) (nutrients !! key)) nutrient_keys
  ++ [isliquid; density; cost].

(** The records [fertilizer_exists] looks at:
    [data[offset:offset + record_length]] with
    [offset = header_length + i * record_length] for [i] in
    [range(num_records)]. *)
Definition located_records (data : bytes)
    (header_length record_length num_records : nat) : list bytes :=
  map (fun i => slice (header_length + i * record_length)
                  (header_length + i * record_length + record_length) data)
    (seq 0 num_records).

(** [fertilizer_exists] answers [False] for the row's name. *)
Definition absent `{PyRuntime} (fs : FS) (dbf_path : string) (fert : Fertilizer)
  : bool :=
  match fertilizer_exists fs dbf_path (name fert) with
  | Ok false => true
  | _ => false
  end.

(** A row that [create_fertilizer_record] stores in 681 bytes and that
    [fertilizer_exists] finds again: numbers that fit their 18 bytes, an
    ASCII name of at most 80 characters without surrounding whitespace, and
    a classification text without the character [0x1A]. *)
Definition storable `{PyRuntime} (fert : Fertilizer) : Prop :=
  Forall fits_numeric
    (numeric_values (purity fert) (nutrients fert) (isliquid fert)
       (density fert) (cost fert))
  /\ ascii_text (name fert) /\ (length (name fert) <= 80)%nat
  /\ strip (name fert) = name fert
  /\ 26 ∉ conctype fert.

(** A table image of the size its header declares: [header_length] bytes,
    then [num_records] records of 681 bytes, then possibly the end-of-file
    marker [0x1A]. *)
Definition sized (data : bytes) : Prop :=
  let header_length := N.to_nat (le_decode (slice 8 10 data)) in
  let num_records := N.to_nat (le_decode (slice 4 8 data)) in
  (12 <= header_length)%nat
  /\ le_decode (slice 10 12 data) = 681
  /\ (length data = (header_length + num_records * 681)%nat
        /\ last data <> Some x1a
      \/ length data = (header_length + num_records * 681 + 1)%nat
         /\ last data = Some x1a).

(** The [for fert in fertilizers] loop on the file image [data]. *)
Fixpoint append_new `{PyRuntime} (fs : FS) (dbf_path : string)
    (fertilizers : list Fertilizer) (data : bytes) (num_records : N)
    (added_count : nat) : result (bytes * N * nat) :=
  match fertilizers with
  | [] => Ok (data, num_records, added_count)
  | fert :: rest =>
      present ← fertilizer_exists fs dbf_path (name fert);
      if (present : bool)
      then append_new fs dbf_path rest data num_records added_count
      else
        new_record ← create_fertilizer_record (name fert) (formula fert)
                       (source fert) (purity fert) (nutrients fert)
                       (isliquid fert) (density fert) (cost fert) (conctype fert);
        last ← index data (length data - 1);
        let data := if decide (last = x1a) then take (length data - 1) data else data in
        append_new fs dbf_path rest (data ++ new_record) (num_records + 1)
          (S added_count)
  end.

(** The body of the [try] up to the rename: the image to write, if any. *)
Definition updated_image `{PyRuntime} (fs : FS) (dbf_path : string)
    (fertilizers : list Fertilizer) (today : Date.t) (data : bytes)
  : result (option bytes) :=
  num_records ← unpack_I (slice 4 8 data);
  header_length ← unpack_H (slice 8 10 data);
  record_length ← unpack_H (slice 10 12 data);
  '(data, num_records, added_count) ←
    append_new fs dbf_path fertilizers data num_records 0;
  if (0 <? added_count)%nat then
    count ← pack_I num_records;
    let data := slice_assign data 4 8 count in
    data ← set_byte data 1 (Date.year today - 1900);
    data ← set_byte data 2 (Date.month today);
    data ← set_byte data 3 (Date.day today);
    Ok (Some (data ++ [x1a]))
  else Ok None.

(** [add_fertilizers_to_db] of the docs script.  The file system is a map,
    on which [os.rename], [open] and [write] succeed; what the [except]
    handler does when one of them fails after the rename is not modelled,
    so the [False] outcomes here are those decided before the rename. *)
Definition add_fertilizers_to_db `{PyRuntime} (dbf_path : string)
    (fertilizers : list Fertilizer) (stamp : string) (today : Date.t)
    (w : World) : World * bool :=
  match files w !! dbf_path with
  | None => (w, false)
  | Some data =>
      if bool_decide (fertilizers = []) then (w, false)
      else
        match updated_image (files w) dbf_path fertilizers today data with
        | Ok (Some image) =>
            let backup_path := backup_path_of dbf_path stamp in
            (mkWorld
               (<[dbf_path := image]>
                  (<[backup_path := data]> (delete dbf_path (files w))))
               (events w ++ [EvRename dbf_path backup_path; EvOpenWrite dbf_path]),
             true)
        | Ok None => (w, false)
        | Raise _ => (w, false)
        end
  end.

End DocsAddFertilizers.

(** ** Table files for closed examples *)

Module Fixture.
Import Py PyNum OS.

(** A runtime for closed examples.  Their text is ASCII and their numbers
    are floats or ints already; the one string offered to [float] is [n/a],
    which Python rejects as this parser does.  The digit cap of [str] is the
    interpreter's default, 4300. *)
Definition example_runtime : PyRuntime :=
  {| lower_unicode := map ascii_lower;
     float_of_str := fun _ => None;
     repr_float := fun _ => [];
     int_max_str_digits := 4300 |}.

(** A 32-byte field descriptor block. *)
Definition field_block (name : string) (type : byte) (length decimal : N) : bytes :=
  ljust x00 11 (map byte_of_N (str_of name)) ++ [type] ++ replicate 4 x00
  ++ [byte_of_N length; byte_of_N decimal] ++ replicate 14 x00.

(** A 32-byte header whose bytes 12..31 are [reserved]. *)
Definition header_block (version year month day : byte)
    (num_records header_length record_length : N) (reserved : bytes) : bytes :=
  [version; year; month; day] ++ le_encode 4 num_records
  ++ le_encode 2 header_length ++ le_encode 2 record_length ++ reserved.

(** Reserved bytes of a dBASE IV table: zero but for the language driver
    id at offset 29. *)
Definition reserved_bytes : bytes :=
  replicate 17 x00 ++ [x57] ++ replicate 2 x00.

Definition numeric_names : list string :=
  ["Purity"; "N (NO3-)"; "N (NH4+)"; "P"; "K"; "Mg"; "Ca"; "S"; "B"; "Fe";
   "Zn"; "Mn"; "Cu"; "Mo"; "Na"; "Si"; "Cl"; "isLiquid"; "Density"; "Cost"]%string.

(** The schema the candidates are written for: three 80-byte character
    fields, twenty 18.8 numeric fields, one 80-byte character field;
    681 bytes per record with the status byte. *)
Definition substances_schema : bytes :=
  field_block "Name" x43 80 0 ++ field_block "Formula" x43 80 0
  ++ field_block "Source" x43 80 0
  ++ concat (map (fun n => field_block n x4e 18 8) numeric_names)
  ++ field_block "ConcType" x43 80 0.

(** An empty substances table: header, 24 descriptors, terminator, end
    mark.  [header_length] is 32 + 24 * 32 + 1. *)
Definition empty_substances : bytes :=
  header_block x03 x7d x01 x01 0 801 681 reserved_bytes
  ++ substances_schema ++ [x0d] ++ [x1a].

(** A one-column table whose terminator is padded to a full block
    ([header_length] 96), holding one active record, [calcium sulfate]. *)
Definition padded_names : bytes :=
  header_block x03 x7d x01 x01 1 96 81 reserved_bytes
  ++ field_block "Name" x43 80 0 ++ [x0d] ++ replicate 31 x00
  ++ [x20] ++ ljust x20 80 (map byte_of_N (str_of "calcium sulfate"))
  ++ [x1a].

(** A one-column table in the usual layout, the records right after the
    one-byte terminator ([header_length] 65 = 32 + 32 + 1), holding one
    active record, [Calcium Sulfate]: 147 bytes. *)
Definition standard_names : bytes :=
  header_block x03 x7d x01 x01 1 65 81 reserved_bytes
  ++ field_block "Name" x43 80 0 ++ [x0d]
  ++ [x20] ++ ljust x20 80 (map byte_of_N (str_of "Calcium Sulfate"))
  ++ [x1a].


(** The double 123456.0 and the double 1e9. *)
Definition f_123456 : pyfloat := FFinite false 123456 0.
Definition f_1e9 : pyfloat := FFinite false 1000000000 0.

(** A CSV row for the docs variant: calcium sulfate at a cost of 1e9. *)
Definition costly_row : DocsAddFertilizers.Fertilizer :=
  DocsAddFertilizers.mkFertilizer
    (str_of "Calcium Sulfate") (str_of "CaSO4") (str_of "Generic")
    (VFloat (FFinite false 1 0))
    (list_to_map [(str_of "Ca", VFloat (FFinite false 22 0));
                  (str_of "S", VFloat (FFinite false 17 0))])
    (VInt 0) (VFloat (FFinite false 0 0)) (VFloat f_1e9) [].

(** The same row at no cost. *)
Definition plain_row : DocsAddFertilizers.Fertilizer :=
  DocsAddFertilizers.mkFertilizer
    (str_of "Calcium Sulfate") (str_of "CaSO4") (str_of "Generic")
    (VFloat (FFinite false 1 0))
    (list_to_map [(str_of "Ca", VFloat (FFinite false 22 0));
                  (str_of "S", VFloat (FFinite false 17 0))])
    (VInt 0) (VFloat (FFinite false 0 0)) (VFloat (FFinite false 0 0)) [].

Definition db_path : string := "substances_unix.dbf".

Definition world_of (data : bytes) : World :=
  mkWorld {[ db_path := data ]} [].

Definition a_day : Date.t := Date.mk 2025 6 15.

End Fixture.

(** * Properties *)

Import Py PyNum OS.

(** ** Sequences, bytes and [struct] *)

Section Sequences.
Context {A : Type}.
Implicit Types l v : list A.

Lemma slice_app_l a b l v :
  (b <= length l)%nat -> slice a b (l ++ v) = slice a b l.
Proof.
  intros Hb. unfold slice.
  destruct (decide (a <= length l)%nat) as [Ha|Ha].
  - rewrite drop_app_le by lia. rewrite take_app_le; [done|].
    rewrite length_drop. lia.
  - replace (b - a)%nat with 0%nat by lia. done.
Qed.

Lemma slice_take a b n l :
  (b <= n)%nat -> slice a b (take n l) = slice a b l.
Proof.
  intros Hb. unfold slice. rewrite skipn_firstn_comm.
  rewrite take_take. f_equal. lia.
Qed.

Lemma length_slice_le a b l : (length (slice a b l) <= b - a)%nat.
Proof. unfold slice. rewrite length_take. lia. Qed.

Lemma length_ljust (fill : A) n l :
  length (ljust fill n l) = Nat.max n (length l).
Proof. unfold ljust. rewrite length_app, length_replicate. lia. Qed.

Lemma length_rjust (fill : A) n l :
  length (rjust fill n l) = Nat.max n (length l).
Proof. unfold rjust. rewrite length_app, length_replicate. lia. Qed.

Lemma rjust_id (fill : A) n l : (n <= length l)%nat -> rjust fill n l = l.
Proof. intros H. unfold rjust. by replace (n - length l)%nat with 0%nat by lia. Qed.

Lemma length_slice_assign l a b v :
  (a <= b)%nat ->
  length (slice_assign l a b v)
  = (Nat.min a (length l) + length v + (length l - b))%nat.
Proof.
  intros Hab. unfold slice_assign.
  rewrite !length_app, length_take, length_drop. lia.
Qed.

End Sequences.

Lemma to_N_byte_of_N n : Byte.to_N (byte_of_N n) = n mod 256.
Proof.
  unfold byte_of_N. destruct (Byte.of_N (n mod 256)) as [b|] eqn:E.
  - by apply Byte.to_of_N.
  - apply Byte.of_N_None_iff in E.
    pose proof (N.mod_upper_bound n 256). lia.
Qed.

Lemma byte_of_N_to_N b : byte_of_N (Byte.to_N b) = b.
Proof.
  unfold byte_of_N. pose proof (Byte.to_N_bounded b).
  rewrite N.mod_small by lia. by rewrite Byte.of_to_N.
Qed.

Lemma length_le_encode w n : length (le_encode w n) = w.
Proof. revert n. induction w; intros; simpl; [done|]. by rewrite IHw. Qed.

Lemma le_decode_encode w n : le_decode (le_encode w n) = n mod 256 ^ N.of_nat w.
Proof.
  revert n. induction w as [|w IH]; intros n.
  - simpl. by rewrite N.mod_1_r.
  - cbn [le_encode le_decode]. rewrite IH, to_N_byte_of_N.
    replace (N.of_nat (S w)) with (N.succ (N.of_nat w)) by lia.
    rewrite N.pow_succ_r'.
    rewrite (N.Div0.mod_mul_r n 256 (256 ^ N.of_nat w)). lia.
Qed.

Lemma unpack_pack_I n b : pack_I n = Ok b -> unpack_I b = Ok n.
Proof.
  unfold pack_I. destruct (n <? 2 ^ 32) eqn:E; [|done].
  intros [= <-]. change (unpack_I (le_encode 4 n) = Ok n).
  unfold unpack_I. rewrite length_le_encode. simpl Nat.eqb. cbv iota.
  rewrite le_decode_encode. apply N.ltb_lt in E.
  f_equal. apply N.mod_small. exact E.
Qed.

Lemma unpack_pack_H n b : pack_H n = Ok b -> unpack_H b = Ok n.
Proof.
  unfold pack_H. destruct (n <? 2 ^ 16) eqn:E; [|done].
  intros [= <-]. change (unpack_H (le_encode 2 n) = Ok n).
  unfold unpack_H. rewrite length_le_encode. simpl Nat.eqb. cbv iota.
  rewrite le_decode_encode. apply N.ltb_lt in E.
  f_equal. apply N.mod_small. exact E.
Qed.

Lemma length_pack_I n b : pack_I n = Ok b -> length b = 4%nat.
Proof.
  unfold pack_I. destruct (n <? 2 ^ 32); [|done].
  intros [= <-]. reflexivity.
Qed.

Lemma length_pack_H n b : pack_H n = Ok b -> length b = 2%nat.
Proof.
  unfold pack_H. destruct (n <? 2 ^ 16); [|done].
  intros [= <-]. reflexivity.
Qed.

Lemma set_byte_Ok l i v l' :
  set_byte l i v = Ok l' ->
  (0 <= v < 256)%Z /\ (i < length l)%nat /\ l' = <[i := byte_of_N (Z.to_N v)]> l.
Proof.
  unfold set_byte. destruct (_ && _) eqn:E; [|done].
  apply andb_true_iff in E as [E1 E2].
  apply Z.leb_le in E1. apply Z.ltb_lt in E2.
  destruct (Byte.of_N (Z.to_N v)) as [b|] eqn:Eb; [|done].
  destruct (i <? length l)%nat eqn:Ei; [|done].
  apply Nat.ltb_lt in Ei. intros [= <-]. repeat split; try lia.
  f_equal. apply Byte.to_of_N in Eb. rewrite <- Eb. by rewrite byte_of_N_to_N.
Qed.

Lemma set_byte_out_of_range l i v :
  ~ (0 <= v < 256)%Z -> set_byte l i v = Raise ValueError.
Proof.
  intros Hv. unfold set_byte.
  destruct (_ && _) eqn:E; [|done].
  apply andb_true_iff in E as [E1 E2].
  apply Z.leb_le in E1. apply Z.ltb_lt in E2. lia.
Qed.

(** ** The duplicate check *)

Section RecordExists.
Import AddFertilizers.
Context `{rt : PyRuntime}.

Lemma tombstone_slice (record : bytes) :
  slice 0 1 record = [x2a] <-> head record = Some x2a.
Proof.
  unfold slice. destruct record as [|b record]; simpl.
  - split; discriminate.
  - rewrite take_0. split; intros [= ->]; reflexivity.
Qed.

Lemma record_exists_cons record rest name :
  record_exists (record :: rest) name
  = (bool_decide (head record <> Some x2a
                  /\ lower (record_name record) = lower name)
     || record_exists rest name).
Proof.
  cbn [record_exists].
  destruct (decide (slice 0 1 record = [x2a])) as [Hd|Hd].
  - apply tombstone_slice in Hd.
    rewrite bool_decide_eq_false_2; [done|]. intros [Hn _]. by apply Hn.
  - destruct (decide (lower (record_name record) = lower name)) as [Hl|Hl].
    + rewrite bool_decide_eq_true_2; [done|]. split; [|done].
      intros Hh. by apply Hd, tombstone_slice.
    + rewrite bool_decide_eq_false_2; [done|]. by intros [_ ?].
Qed.

Lemma record_exists_app before after name :
  record_exists (before ++ after) name
  = record_exists before name || record_exists after name.
Proof.
  induction before as [|r before IH]; [done|].
  rewrite <- app_comm_cons, !record_exists_cons, IH. by rewrite orb_assoc.
Qed.

(** C2.  [record_exists] answers [True] exactly when some record whose
    status byte is not [0x2A] has a name field (bytes 1..81, decoded as ASCII
    with other bytes ignored, stripped) that equals the queried name after
    both are lower-cased; a record whose status byte is [0x2A] never
    contributes to the answer, whatever its name field. *)
Theorem record_exists_iff (records : list bytes) (name : pystr) :
  (record_exists records name = true <->
   exists record,
     record ∈ records /\ head record <> Some x2a
     /\ lower (strip (decode_ascii_ignore (slice 1 81 record))) = lower name)
  /\ (forall before record after,
        records = before ++ record :: after ->
        head record = Some x2a ->
        record_exists records name = record_exists (before ++ after) name).
Proof.
  split.
  - induction records as [|r records IH].
    + split; [discriminate|]. intros (r & Hin & _). by apply elem_of_nil in Hin.
    + rewrite record_exists_cons, orb_true_iff, bool_decide_eq_true, IH.
      split.
      * intros [[Hs Hn]|(r' & Hin & Hs & Hn)].
        -- exists r. split; [left|done].
        -- exists r'. split; [by right|done].
      * intros (r' & Hin & Hs & Hn). apply elem_of_cons in Hin as [->|Hin].
        -- by left.
        -- right. by exists r'.
  - intros before r after -> Hr.
    rewrite !record_exists_app, record_exists_cons.
    rewrite bool_decide_eq_false_2; [done|]. intros [Hn _]. by apply Hn.
Qed.

End RecordExists.

(** ** Field encoding *)

Section FormatValue.
Import AddFertilizers.
Context `{rt : PyRuntime}.

Lemma py_str_printable (value : Value) :
  printable value -> exists text, py_str value = Ok text.
Proof.
  destruct value as [| | z | |]; cbn; try by eexists.
  intros ->. by eexists.
Qed.

Lemma py_str_Raise (value : Value) e :
  py_str value = Raise e ->
  e = ValueError /\ exists z, value = VInt z /\ over_digit_cap z = true.
Proof.
  destruct value as [| | z | |]; cbn; try done.
  destruct (over_digit_cap z) eqn:E; [|done].
  intros [= <-]. split; [done|]. by exists z.
Qed.

Lemma printable_default (field_values : dict) (key : pystr) :
  printable_values field_values ->
  printable (default VNone (field_values !! key)).
Proof.
  intros H. destruct (field_values !! key) as [v|] eqn:E; [|done].
  by apply (H key).
Qed.

(** The bare [except] and the branches that call nothing that can raise:
    a call returns unless [str] fails in the character branch. *)
Lemma format_value_returns (value : Value) (field_type field_length field_decimal : N) :
  (field_type = 67 -> printable value) ->
  exists b, format_value value field_type field_length field_decimal = Ok b.
Proof.
  intros Hp. unfold format_value.
  destruct (decide (field_type = 78)).
  - repeat match goal with
           | |- context [if ?c then _ else _] => destruct c
           | |- context [match ?a with Ok _ => _ | Raise _ => _ end] => destruct a
           end; by eexists.
  - destruct (decide (field_type = 67)) as [E|].
    + destruct (py_str_printable (if is_None value then VStr [] else value))
        as [text ->]; [|by eexists].
      destruct value; cbn; try done. by apply Hp.
    + destruct (decide (field_type = 76)); [destruct (truthy value)|];
        by eexists.
Qed.

(** C10 (amended).  For a length and a decimal count that a descriptor byte
    can hold, [format_value] raises in one case only: a character field
    given an [int] with more digits than the interpreter's cap on [str],
    which ends in [ValueError].  In every other case it returns a byte
    string; for a numeric field, [None], the empty string, a value [float]
    rejects and, with no decimals, a float [int] rejects (an infinity or a
    NaN) all encode as [field_length] spaces. *)
Theorem format_value_raises_only_in_str
    (value : Value) (field_type field_length field_decimal : N) :
  field_length < 256 -> field_decimal < 256 ->
  (forall e,
     format_value value field_type field_length field_decimal = Raise e ->
     e = ValueError /\ field_type = 67
     /\ exists z, value = VInt z /\ over_digit_cap z = true)
  /\ (forall z, field_type = 67 -> value = VInt z -> over_digit_cap z = true ->
      format_value value field_type field_length field_decimal
      = Raise ValueError)
  /\ ((field_type = 67 -> printable value) ->
      exists b,
        format_value value field_type field_length field_decimal = Ok b
        /\ (field_type = 78 ->
            value = VNone \/ value = VStr []
            \/ (exists e, to_float value = Raise e)
            \/ (field_decimal = 0
                /\ exists x e, to_float value = Ok x /\ int_of_float x = Raise e) ->
            b = spaces (N.to_nat field_length))).
Proof.
  intros _ _. split; [|split].
  - intros e. unfold format_value.
    destruct (decide (field_type = 78)).
    { repeat match goal with
             | |- context [if ?c then _ else _] => destruct c
             | |- context [match ?a with Ok _ => _ | Raise _ => _ end] => destruct a
             end; discriminate. }
    destruct (decide (field_type = 67)) as [E|].
    + destruct (py_str _) as [text|e'] eqn:Hs; [discriminate|].
      cbn [mbind result_bind]. intros [= <-].
      apply py_str_Raise in Hs as (-> & z & Hz & Hcap).
      split; [done|]. split; [done|]. exists z. split; [|done].
      by destruct value.
    + destruct (decide (field_type = 76)); [destruct (truthy value)|];
        discriminate.
  - intros z -> -> Hcap. unfold format_value.
    destruct (decide (67 = 78)); [done|]. destruct (decide (67 = 67)); [|done].
    cbn [is_None py_str mbind result_bind]. by rewrite Hcap.
  - intros Hp. unfold format_value.
    destruct (decide (field_type = 78)) as [HN|HN].
    + destruct (is_None value || eq_empty_str value) eqn:Hblank.
      { eexists. split; [reflexivity|]. done. }
      match goal with |- context [match ?a with Ok _ => _ | Raise _ => _ end] =>
        destruct a as [b|e] eqn:Hattempt end.
      2:{ eexists. split; [reflexivity|]. done. }
      exists b. split; [reflexivity|]. intros _ Hcase. exfalso.
      destruct Hcase as [->|[->|[(e & He)|(-> & x & e & Hx & He)]]].
      * discriminate Hblank.
      * discriminate Hblank.
      * rewrite He in Hattempt. by destruct (0 <? field_decimal).
      * rewrite Hx in Hattempt. cbn in Hattempt. rewrite He in Hattempt.
        discriminate Hattempt.
    + destruct (format_value_returns value field_type field_length
                  field_decimal Hp) as [b Hb].
      unfold format_value in Hb.
      destruct (decide (field_type = 78)); [done|].
      exists b. split; [exact Hb|]. done.
Qed.

End FormatValue.

(** ** Reading, appending, rewriting *)

Section Protocol.
Import AddFertilizers.
Context `{rt : PyRuntime}.

Ltac bind_inv H :=
  match type of H with
  | mbind _ ?m = Ok _ =>
      let E := fresh "E" in
      destruct m eqn:E; [cbn [mbind result_bind] in H | discriminate H]
  | (match ?m with Ok _ => _ | Raise _ => _ end) = Ok _ =>
      let E := fresh "E" in
      destruct m eqn:E; [|discriminate H]
  end.

Lemma read_header_fields header_data h :
  read_header header_data = Ok h ->
  unpack_I (slice 4 8 header_data) = Ok (Header.num_records h)
  /\ unpack_H (slice 8 10 header_data) = Ok (Header.header_length h)
  /\ unpack_H (slice 10 12 header_data) = Ok (Header.record_length h).
Proof.
  unfold read_header. intros H.
  repeat bind_inv H. injection H as <-. done.
Qed.

Lemma read_dbf_Ok path data db :
  read_dbf path data = Ok db ->
  dbf_path db = path
  /\ read_header (take 32 data) = Ok (header db)
  /\ exists f,
       read_fields (S (length (drop 32 data))) (drop 32 data) []
       = Ok (field_descriptors db, f)
       /\ records db
          = read_records (N.to_nat (Header.num_records (header db)))
              (N.to_nat (Header.record_length (header db))) f.
Proof.
  unfold read_dbf. intros H.
  bind_inv H. bind_inv H. destruct a0 as [fields f].
  injection H as <-. cbn. eauto.
Qed.

Lemma add_record_Ok db field_values db' :
  add_record db field_values = Ok db' ->
  dbf_path db' = dbf_path db
  /\ field_descriptors db' = field_descriptors db
  /\ Header.header_length (header db') = Header.header_length (header db)
  /\ Header.record_length (header db') = Header.record_length (header db)
  /\ Header.num_records (header db') = Header.num_records (header db) + 1
  /\ exists record,
       new_record db field_values = Ok record
       /\ records db' = records db ++ [record].
Proof.
  unfold add_record. intros H. bind_inv H. injection H as <-. cbn. eauto 10.
Qed.

Lemma add_new_Ok fertilizers db added db' added' :
  add_new fertilizers db added = Ok (db', added') ->
  dbf_path db' = dbf_path db
  /\ field_descriptors db' = field_descriptors db
  /\ Header.header_length (header db') = Header.header_length (header db)
  /\ Header.record_length (header db') = Header.record_length (header db)
  /\ (added <= added')%nat
  /\ Header.num_records (header db')
     = Header.num_records (header db) + N.of_nat (added' - added)
  /\ length (records db') = (length (records db) + (added' - added))%nat.
Proof.
  revert db added. induction fertilizers as [|fert rest IH]; intros db added H.
  - injection H as <- <-.
    replace (added - added)%nat with 0%nat by lia.
    repeat split; cbn; lia.
  - cbn [add_new] in H. bind_inv H. bind_inv H. destruct a0.
    + by apply IH in H.
    + bind_inv H. apply IH in H as (-> & -> & -> & -> & Hle & -> & ->).
      apply add_record_Ok in E1 as (-> & -> & -> & -> & -> & r & _ & ->).
      rewrite length_app. cbn. repeat split; lia.
Qed.

(** Candidates that are all present leave the instance as it was. *)
Lemma add_new_all_present fertilizers db added :
  Forall (fun fert : dict =>
            exists s, fert !! str_of "Name" = Some (VStr s)
                      /\ record_exists (records db) s = true) fertilizers ->
  add_new fertilizers db added = Ok (db, added).
Proof.
  induction 1 as [|fert rest (s & Hname & Hs) _ IH]; [done|].
  cbn [add_new]. rewrite Hname. cbn. by rewrite Hs.
Qed.

Lemma copy_fields_extends fuel orig written written' r :
  copy_fields fuel orig written = (written', r) ->
  exists suffix, written' = written ++ suffix.
Proof.
  revert orig written. induction fuel as [|fuel IH]; intros orig written H.
  - injection H as <- _. exists []. by rewrite app_nil_r.
  - cbn [copy_fields] in H. destruct (index (take 32 orig) 0) as [b0|e].
    + destruct (decide (b0 = x0d)).
      * injection H as <- _. eauto.
      * apply IH in H as [suffix ->]. rewrite <- app_assoc. eauto.
    + injection H as <- _. exists []. by rewrite app_nil_r.
Qed.

(** The header [write_dbf] emits, byte by byte. *)
Lemma build_header_Ok h today header :
  build_header h today = Ok header ->
  exists count hl rl,
    pack_I (Header.num_records h) = Ok count
    /\ pack_H (Header.header_length h) = Ok hl
    /\ pack_H (Header.record_length h) = Ok rl
    /\ (0 <= Date.year today - 1900 < 256)%Z
    /\ header
       = [byte_of_N (Header.version h);
          byte_of_N (Z.to_N (Date.year today - 1900));
          byte_of_N (Z.to_N (Date.month today));
          byte_of_N (Z.to_N (Date.day today))]
         ++ count ++ hl ++ rl ++ replicate 20 x00.
Proof.
  unfold build_header. intros H.
  bind_inv H. apply set_byte_Ok in E as (_ & _ & ->).
  bind_inv H. apply set_byte_Ok in E as (Hy & _ & ->).
  bind_inv H. apply set_byte_Ok in E as (_ & _ & ->).
  bind_inv H. apply set_byte_Ok in E as (_ & _ & ->).
  bind_inv H. bind_inv H. bind_inv H. injection H as <-.
  exists a, a0, a1. repeat split; try done; try lia.
  pose proof (length_pack_I _ _ E) as L1.
  pose proof (length_pack_H _ _ E0) as L2.
  pose proof (length_pack_H _ _ E1) as L3.
  destruct a as [|c0 [|c1 [|c2 [|c3 [|]]]]]; try discriminate L1.
  destruct a0 as [|h0 [|h1 [|]]]; try discriminate L2.
  destruct a1 as [|r0 [|r1 [|]]]; try discriminate L3.
  rewrite N2Z.id. reflexivity.
Qed.

Lemma build_header_slices h today header rest :
  build_header h today = Ok header ->
  length header = 32%nat
  /\ unpack_I (slice 4 8 (header ++ rest)) = Ok (Header.num_records h)
  /\ unpack_H (slice 8 10 (header ++ rest)) = Ok (Header.header_length h)
  /\ unpack_H (slice 10 12 (header ++ rest)) = Ok (Header.record_length h)
  /\ slice 12 32 (header ++ rest) = replicate 20 x00
  /\ (header ++ rest) !! 1%nat
     = Some (byte_of_N (Z.to_N (Date.year today - 1900))).
Proof.
  intros H. apply build_header_Ok in H
    as (count & hl & rl & Hc & Hh & Hr & _ & ->).
  pose proof (length_pack_I _ _ Hc) as L1.
  pose proof (length_pack_H _ _ Hh) as L2.
  pose proof (length_pack_H _ _ Hr) as L3.
  apply unpack_pack_I in Hc. apply unpack_pack_H in Hh. apply unpack_pack_H in Hr.
  destruct count as [|c0 [|c1 [|c2 [|c3 [|]]]]]; try discriminate L1.
  destruct hl as [|h0 [|h1 [|]]]; try discriminate L2.
  destruct rl as [|r0 [|r1 [|]]]; try discriminate L3.
  repeat split; done.
Qed.

Lemma string_length_app (s1 s2 : string) :
  String.length (s1 +:+ s2) = (String.length s1 + String.length s2)%nat.
Proof.
  induction s1 as [|c s1 IH]; [reflexivity|].
  change (S (String.length (s1 +:+ s2))
          = S (String.length s1 + String.length s2)).
  by rewrite IH.
Qed.

Lemma backup_path_fresh path stamp : backup_path_of path stamp <> path.
Proof.
  unfold backup_path_of. intros H.
  assert (String.length (path +:+ ".backup-" +:+ stamp)%string
          = String.length path) as L by (by rewrite H).
  rewrite !string_length_app in L. cbn in L. lia.
Qed.

(** [write_dbf] when the table file exists: one rename, one file opened
    for writing, and three ways to end. *)
Lemma write_dbf_existing db stamp today w content :
  files w !! dbf_path db = Some content ->
  let path := dbf_path db in
  let backup_path := backup_path_of path stamp in
  let fs := <[path := []]> (<[backup_path := content]> (delete path (files w))) in
  let evs := (events w ++ [EvRename path backup_path]) ++ [EvOpenWrite path] in
  write_dbf db stamp today w
  = match build_header (header db) today with
    | Raise e => (mkWorld fs evs, Raise e)
    | Ok hdr =>
        match copy_fields (S (length (drop 32 content))) (drop 32 content) hdr with
        | (written, Raise e) => (mkWorld (<[path := written]> fs) evs, Raise e)
        | (written, Ok _) =>
            (mkWorld (<[path := written ++ concat (records db) ++ [x1a]]> fs) evs,
             Ok ())
        end
    end.
Proof.
  intros Hfile path backup_path fs evs. subst path backup_path fs evs.
  unfold write_dbf. cbv zeta. rewrite Hfile. cbn [files events].
  destruct (build_header (header db) today) as [hdr|e]; [|done].
  rewrite lookup_insert_ne by (symmetry; apply backup_path_fresh).
  by rewrite lookup_insert_eq.
Qed.

Lemma write_dbf_Ok db stamp today w w' content :
  files w !! dbf_path db = Some content ->
  write_dbf db stamp today w = (w', Ok ()) ->
  exists hdr rest,
    build_header (header db) today = Ok hdr
    /\ files w' !! dbf_path db = Some (hdr ++ rest)
    /\ files w' !! backup_path_of (dbf_path db) stamp = Some content.
Proof.
  intros Hfile H. rewrite (write_dbf_existing _ _ _ _ _ Hfile) in H.
  destruct (build_header (header db) today) as [hdr|e]; [|discriminate H].
  destruct (copy_fields _ _ hdr) as [written [[]|e]] eqn:Hcopy;
    [|discriminate H].
  apply copy_fields_extends in Hcopy as [suffix ->].
  injection H as <-. exists hdr, (suffix ++ concat (records db) ++ [x1a]).
  cbn [files]. split; [done|]. split.
  - rewrite lookup_insert_eq. by rewrite <- app_assoc.
  - rewrite !lookup_insert_ne by (symmetry; apply backup_path_fresh).
    apply lookup_insert_eq.
Qed.

(** When [record_exists] answers [True] on the loaded instance for every
    candidate's name, the batch operation leaves the world as it found it:
    the table file keeps its bytes, no backup appears, nothing is renamed or
    opened for writing.  And whatever the batch and the table, one
    invocation renames and rewrites at most once. *)
Theorem batch_without_new_names_writes_nothing :
  (forall (fertilizers : list dict) db_path stamp today w data db,
      files w !! db_path = Some data ->
      read_dbf db_path data = Ok db ->
      Forall (fun fert : dict =>
                exists s, fert !! str_of "Name" = Some (VStr s)
                          /\ record_exists (records db) s = true) fertilizers ->
      add_fertilizers fertilizers db_path stamp today w = (w, Ok false))
  /\ (forall (fertilizers : list dict) db_path stamp today w,
        let w' := fst (add_fertilizers fertilizers db_path stamp today w) in
        w' = w
        \/ events w'
           = events w ++ [EvRename db_path (backup_path_of db_path stamp);
                          EvOpenWrite db_path]).
Proof.
  split.
  - intros fertilizers db_path stamp today w data db Hfile Hread Hall.
    unfold add_fertilizers. rewrite Hfile, Hread. cbn [mbind result_bind].
    by rewrite (add_new_all_present _ _ _ Hall).
  - intros fertilizers db_path stamp today w. unfold add_fertilizers.
    destruct (files w !! db_path) as [data|] eqn:Hfile; [|by left].
    destruct (read_dbf db_path data) as [db|e] eqn:Hread; [|by left].
    cbn [mbind result_bind].
    destruct (add_new fertilizers db 0) as [[db' added]|e] eqn:Hadd; [|by left].
    destruct (0 <? added)%nat; [|by left]. right.
    apply read_dbf_Ok in Hread as (Hpath & _).
    apply add_new_Ok in Hadd as (Hpath' & _).
    rewrite Hpath in Hpath'. rewrite <- Hpath' in Hfile.
    rewrite (write_dbf_existing _ _ _ _ _ Hfile), Hpath'.
    destruct (build_header (header db') today) as [hdr|e].
    + destruct (copy_fields _ _ hdr) as [written [[]|e]]; cbn;
        by rewrite <- app_assoc.
    + cbn. by rewrite <- app_assoc.
Qed.

Lemma set_byte_Raise l i v e :
  set_byte l i v = Raise e -> (i < length l)%nat -> e = ValueError.
Proof.
  unfold set_byte. intros H Hi.
  destruct (_ && _); [|by injection H].
  destruct (Byte.of_N (Z.to_N v)); [|by injection H].
  apply Nat.ltb_lt in Hi. rewrite Hi in H. discriminate H.
Qed.

(** A year that does not fit a byte stops the header at its second store. *)
Lemma build_header_bad_year h today :
  ~ (0 <= Date.year today - 1900 < 256)%Z ->
  build_header h today = Raise ValueError.
Proof.
  intros Hy. unfold build_header.
  destruct (set_byte (bytearray 32) 0 (Z.of_N (Header.version h)))
    as [hdr|e] eqn:E.
  - cbn [mbind result_bind]. by rewrite set_byte_out_of_range.
  - cbn [mbind result_bind]. f_equal. apply (set_byte_Raise _ _ _ _ E).
    cbn. lia.
Qed.

(** Whatever was on disk, a [write_dbf] that returns has written a header
    first. *)
Lemma write_dbf_returns db stamp today w w' :
  write_dbf db stamp today w = (w', Ok ()) ->
  exists hdr rest,
    build_header (header db) today = Ok hdr
    /\ files w' !! dbf_path db = Some (hdr ++ rest).
Proof.
  unfold write_dbf. cbv zeta.
  set (w1 := match files w !! dbf_path db with Some _ => _ | None => _ end).
  destruct (build_header (header db) today) as [hdr|e]; [|discriminate].
  destruct (_ !! backup_path_of (dbf_path db) stamp) as [orig|]; [|discriminate].
  destruct (copy_fields _ _ hdr) as [written [[]|e]] eqn:Hcopy; [|discriminate].
  apply copy_fields_extends in Hcopy as [suffix ->].
  intros [= <-]. exists hdr, (suffix ++ concat (records db) ++ [x1a]).
  split; [done|]. cbn [files]. rewrite lookup_insert_eq. by rewrite <- app_assoc.
Qed.

(** C9 (amended).  [write_dbf] stores [year - 1900] in header byte 1 only
    when it is a byte, that is for the years 1900 to 2155.  From 2156 on
    (and before 1900) the store raises [ValueError]: nothing wraps modulo
    256; the table, if there was one, has been renamed to its backup and
    the new table file, already opened for writing, is left empty. *)
Theorem write_dbf_year_byte db stamp today w :
  (forall w',
      write_dbf db stamp today w = (w', Ok ()) ->
      (1900 <= Date.year today <= 2155)%Z
      /\ exists out,
           files w' !! dbf_path db = Some out
           /\ out !! 1%nat = Some (byte_of_N (Z.to_N (Date.year today - 1900))))
  /\ ((Date.year today < 1900 \/ 2156 <= Date.year today)%Z ->
      exists w',
        write_dbf db stamp today w = (w', Raise ValueError)
        /\ files w' !! dbf_path db = Some []
        /\ forall content,
             files w !! dbf_path db = Some content ->
             files w' !! backup_path_of (dbf_path db) stamp = Some content).
Proof.
  split.
  - intros w' H. apply write_dbf_returns in H as (hdr & rest & Hb & Hout).
    pose proof (build_header_Ok _ _ _ Hb) as (_ & _ & _ & _ & _ & _ & Hy & _).
    apply (build_header_slices _ _ _ rest) in Hb as (_ & _ & _ & _ & _ & H1).
    split; [lia|]. eauto.
  - intros Hy. unfold write_dbf. cbv zeta.
    rewrite build_header_bad_year by lia.
    eexists. split; [reflexivity|]. cbn [files].
    split; [apply lookup_insert_eq|].
    intros content ->. cbn [files].
    rewrite lookup_insert_ne by (symmetry; apply backup_path_fresh).
    apply lookup_insert_eq.
Qed.

(** The header [write_dbf] emits is zero from byte 12 on, whatever the
    original held there. *)
Lemma write_dbf_reserved_zero db stamp today w w' :
  write_dbf db stamp today w = (w', Ok ()) ->
  exists out,
    files w' !! dbf_path db = Some out /\ slice 12 32 out = replicate 20 x00.
Proof.
  intros H. apply write_dbf_returns in H as (hdr & rest & Hb & Hout).
  apply (build_header_slices _ _ _ rest) in Hb as (_ & _ & _ & _ & Hz & _).
  eauto.
Qed.

End Protocol.

(** ** Loading short files *)

Section Load.
Import AddFertilizers.

Lemma slice_drop {A} n a b (l : list A) :
  slice a b (drop n l) = slice (n + a) (n + b) l.
Proof.
  unfold slice. rewrite drop_drop. f_equal. lia.
Qed.



(** The bound on the descriptor loops is never what ends them: any bound
    above the unread length gives the same result. *)
Lemma read_fields_fuel fuel fuel' f acc :
  (length f < fuel)%nat -> (length f < fuel')%nat ->
  read_fields fuel f acc = read_fields fuel' f acc.
Proof.
  revert fuel' f acc. induction fuel as [|fuel IH]; intros fuel' f acc H H';
    [lia|].
  destruct fuel' as [|fuel']; [lia|]. cbn [read_fields].
  destruct f as [|b f]; [done|].
  destruct (index (take 32 (b :: f)) 0); [|done]. cbn [mbind result_bind].
  destruct (decide (a = x0d)); [done|].
  destruct (strip_nul <$> decode_ascii (slice 0 11 (take 32 (b :: f)))); [|done].
  cbn [mbind result_bind].
  destruct (index (take 32 (b :: f)) 11); [|done]. cbn [mbind result_bind].
  destruct (index (take 32 (b :: f)) 16); [|done]. cbn [mbind result_bind].
  destruct (index (take 32 (b :: f)) 17); [|done]. cbn [mbind result_bind].
  apply IH; rewrite length_drop; cbn [length] in *; lia.
Qed.

Lemma copy_fields_fuel fuel fuel' orig written :
  (length orig < fuel)%nat -> (length orig < fuel')%nat ->
  copy_fields fuel orig written = copy_fields fuel' orig written.
Proof.
  revert fuel' orig written. induction fuel as [|fuel IH];
    intros fuel' orig written H H'; [lia|].
  destruct fuel' as [|fuel']; [lia|]. cbn [copy_fields].
  destruct orig as [|b orig]; [done|].
  destruct (index (take 32 (b :: orig)) 0); [|done].
  destruct (decide (a = x0d)); [done|].
  apply IH; rewrite length_drop; cbn [length] in *; lia.
Qed.

(** What a successful descriptor loop consumed: a block per descriptor and
    one more for the terminator. *)
Lemma read_fields_Ok fuel f acc fields rest :
  read_fields fuel f acc = Ok (fields, rest) ->
  exists k,
    length fields = (length acc + k)%nat
    /\ rest = drop (32 * (k + 1)) f
    /\ (32 * k < length f)%nat.
Proof.
  revert f acc. induction fuel as [|fuel IH]; intros f acc H; [discriminate|].
  cbn [read_fields] in H.
  destruct (index (take 32 f) 0) as [b0|e] eqn:E0; [|discriminate].
  cbn [mbind result_bind] in H.
  assert (0 < length f)%nat as Hf.
  { destruct f; [discriminate E0|cbn; lia]. }
  destruct (decide (b0 = x0d)).
  - injection H as <- <-. exists 0%nat. repeat split; [lia|lia].
  - destruct (strip_nul <$> decode_ascii (slice 0 11 (take 32 f))); [|discriminate].
    cbn [mbind result_bind] in H.
    destruct (index (take 32 f) 11); [|discriminate]. cbn [mbind result_bind] in H.
    destruct (index (take 32 f) 16); [|discriminate]. cbn [mbind result_bind] in H.
    destruct (index (take 32 f) 17); [|discriminate]. cbn [mbind result_bind] in H.
    apply IH in H as (k & Hlen & -> & Hk).
    rewrite length_app in Hlen. cbn in Hlen. rewrite length_drop in Hk.
    exists (S k). rewrite drop_drop. repeat split; [lia| |lia].
    f_equal. lia.
Qed.





End Load.

(** ** Numeric text wider than its field *)

Section NumericOverflow.
Import AddFertilizers.
Context `{rt : PyRuntime}.

Lemma ascii_text_str_of (s : string) :
  Forall (fun a => is_ascii (N_of_ascii a) = true) (list_ascii_of_string s) ->
  ascii_text (str_of s).
Proof. unfold ascii_text, str_of. by rewrite Forall_map. Qed.

Lemma ascii_text_digits n : ascii_text (digits n).
Proof.
  unfold digits, NilZero.string_of_uint.
  assert (forall d, ascii_text (str_of (NilEmpty.string_of_uint d))) as Hd.
  { induction d; cbn; constructor; done. }
  destruct (N.to_uint n); try apply Hd. by repeat constructor.
Qed.

Lemma ascii_text_sign neg : ascii_text (sign_text neg).
Proof. destruct neg; by repeat constructor. Qed.

Lemma ascii_text_format_fixed x prec : ascii_text (format_fixed x prec).
Proof.
  unfold ascii_text. destruct x as [neg m e|neg|]; cbn [format_fixed].
  - rewrite !Forall_app. split; [apply ascii_text_sign|].
    assert (ascii_text (rjust 48 (S prec) (digits (round_half_even (m * 10 ^ N.of_nat prec) e))))
      as Hds.
    { unfold ascii_text, rjust. rewrite Forall_app. split.
      - by apply Forall_replicate.
      - apply ascii_text_digits. }
    split; [by apply Forall_take|].
    destruct prec; [constructor|]. constructor; [done|]. by apply Forall_drop.
  - apply Forall_app. split; [apply ascii_text_sign|]. by repeat constructor.
  - by repeat constructor.
Qed.

Lemma ascii_text_int_text z : ascii_text (int_text z).
Proof.
  unfold int_text, ascii_text. rewrite Forall_app.
  split; [apply ascii_text_sign|apply ascii_text_digits].
Qed.

Lemma encode_ascii_Ok s : ascii_text s -> encode_ascii s = Ok (map byte_of_N s).
Proof.
  induction 1 as [|c s Hc _ IH]; [done|].
  cbn [encode_ascii]. rewrite Hc, IH. done.
Qed.

(** The tail of the numeric branch on a text wider than the field. *)
Lemma cut_wide_text width (text : pystr) :
  ascii_text text ->
  (width < length text)%nat ->
  (b ← encode_ascii (rjust 32 width text); Ok (rjust x20 width (take width b)))
  = Ok (take width (map byte_of_N text)).
Proof.
  intros Ha Hw. rewrite rjust_id by lia. rewrite (encode_ascii_Ok _ Ha).
  cbn [mbind result_bind]. rewrite rjust_id; [done|].
  rewrite length_take, length_map. lia.
Qed.

(** C7 (amended).  When the text of a numeric value is wider than the
    field, [format_value] keeps its first [field_length] characters, the
    high-order ones, drops the rest and returns without error.  The text is
    the fixed-point rendering with [field_decimal] fractional digits when
    [field_decimal > 0], and the decimal rendering of [int(float(value))]
    when it is zero. *)
Theorem numeric_overflow_keeps_leading_text
    (value : Value) (x : pyfloat) (field_length field_decimal : N) :
  to_float value = Ok x ->
  value <> VStr [] ->
  (0 < field_decimal ->
   (N.to_nat field_length < length (format_fixed x (N.to_nat field_decimal)))%nat ->
   format_value value 78 field_length field_decimal
   = Ok (take (N.to_nat field_length)
           (map byte_of_N (format_fixed x (N.to_nat field_decimal)))))
  /\ (field_decimal = 0 ->
      forall z, int_of_float x = Ok z ->
      (N.to_nat field_length < length (int_text z))%nat ->
      format_value value 78 field_length field_decimal
      = Ok (take (N.to_nat field_length) (map byte_of_N (int_text z)))).
Proof.
  intros Hx Hne.
  assert (is_None value || eq_empty_str value = false) as Hblank.
  { destruct value as [| | | |[|]]; done. }
  split.
  - intros HD Hw. unfold format_value.
    destruct (decide (78 = 78)); [|done]. rewrite Hblank, Hx.
    apply N.ltb_lt in HD. rewrite HD. cbn [mbind result_bind]. unfold format_f.
    rewrite cut_wide_text; [done|apply ascii_text_format_fixed|done].
  - intros -> z Hz Hw. unfold format_value.
    destruct (decide (78 = 78)); [|done]. rewrite Hblank, Hx.
    cbn [N.ltb N.compare mbind result_bind]. rewrite Hz.
    cbn [mbind result_bind]. unfold format_d.
    rewrite cut_wide_text; [done|apply ascii_text_int_text|done].
Qed.

End NumericOverflow.

(** ** The length of a new record *)

Section RecordLength.
Import AddFertilizers.
Context `{rt : PyRuntime}.

Lemma format_value_length value field_type field_length field_decimal b :
  format_value value field_type field_length field_decimal = Ok b ->
  (field_type = 76 -> field_length = 1) ->
  length b = N.to_nat field_length.
Proof.
  unfold format_value, spaces. intros H HL.
  destruct (decide (field_type = 78)).
  - destruct (is_None value || eq_empty_str value).
    { injection H as <-. apply length_replicate. }
    match type of H with context [mbind _ ?m] => destruct m as [text|] end;
      cbn [mbind result_bind] in H.
    2:{ injection H as <-. apply length_replicate. }
    destruct (encode_ascii text) as [b0|]; cbn [mbind result_bind] in H;
      injection H as <-.
    + rewrite length_rjust, length_take. lia.
    + apply length_replicate.
  - destruct (decide (field_type = 67)).
    { destruct (py_str _) as [text|]; [|discriminate].
      cbn [mbind result_bind] in H.
      injection H as <-. rewrite length_ljust, length_take. lia. }
    destruct (decide (field_type = 76)) as [E|].
    + rewrite (HL E). by destruct (truthy value); injection H as <-.
    + injection H as <-. apply length_replicate.
Qed.

Lemma fill_fields_Ok fields field_values record offset :
  logical_fields_are_bytes fields ->
  printable_values field_values ->
  (offset <= length record)%nat ->
  exists record',
    fill_fields fields field_values record offset = Ok record'
    /\ length record'
       = Nat.max (length record) (offset + fields_width fields)
    /\ take offset record' = take offset record.
Proof.
  intros Hfields Hprint. revert record offset.
  induction Hfields as [|field rest HL _ IH]; intros record offset Hoff.
  - exists record. cbn. repeat split. lia.
  - cbn [fill_fields fields_width foldr].
    destruct (format_value_returns
                (default VNone (field_values !! Field.name field))
                (Field.type field) (Field.length field) (Field.decimal field))
      as (b & Hb); [intros _; by apply printable_default|].
    rewrite Hb. cbn [mbind result_bind].
    pose proof (format_value_length _ _ _ _ _ Hb HL) as Lb.
    set (stop := (offset + N.to_nat (Field.length field))%nat).
    assert (length (slice_assign record offset stop b)
            = Nat.max (length record) stop) as Lsa.
    { rewrite length_slice_assign by (unfold stop; lia). unfold stop. lia. }
    destruct (IH (slice_assign record offset stop b) stop) as (r & -> & Lr & Tr);
      [lia|].
    exists r. split; [done|]. split.
    + rewrite Lr, Lsa. unfold stop. fold (fields_width rest). lia.
    + assert (take offset r = take offset (take stop r)) as ->.
      { rewrite take_take. f_equal. unfold stop. lia. }
      rewrite Tr, take_take. unfold slice_assign.
      replace (Nat.min offset stop) with offset by (unfold stop; lia).
      replace (offset `min` length record)%nat with offset by lia.
      rewrite take_app_le by (rewrite length_take; lia).
      rewrite take_take. f_equal. lia.
Qed.

(** On a table whose descriptors fit the record ([1] plus their widths is at
    most [record_length]) and whose logical fields are one byte wide,
    [add_record] builds a record of exactly [record_length] bytes that
    starts with [0x20], for every mapping of values that [str] accepts (no
    [int] over the interpreter's digit cap). *)
Theorem new_record_length (db : DBFWriter) (field_values : dict) :
  logical_fields_are_bytes (field_descriptors db) ->
  (1 + fields_width (field_descriptors db)
   <= N.to_nat (Header.record_length (header db)))%nat ->
  printable_values field_values ->
  exists record,
    new_record db field_values = Ok record
    /\ length record = N.to_nat (Header.record_length (header db))
    /\ head record = Some x20.
Proof.
  intros HL Hfit Hprint. unfold new_record, bytearray.
  destruct (N.to_nat (Header.record_length (header db))) as [|n] eqn:En; [lia|].
  cbn [replicate set_byte Z.leb Z.ltb Z.compare andb Byte.of_N Z.to_N
       Nat.ltb Nat.leb length mbind result_bind].
  cbn.
  destruct (fill_fields_Ok (field_descriptors db) field_values
              (x20 :: replicate n x00) 1 HL Hprint) as (r & Hr & Lr & Tr).
  { cbn. lia. }
  exists r. split; [exact Hr|]. split.
  - rewrite Lr. cbn. rewrite length_replicate. lia.
  - destruct r; [discriminate Tr|]. by injection Tr as ->.
Qed.

End RecordLength.

(** ** A record just added is found *)

Section AddedIsFound.
Import AddFertilizers.
Context `{rt : PyRuntime}.

Lemma length_lstrip p s : (length (lstrip p s) <= length s)%nat.
Proof. induction s as [|c s IH]; cbn; [lia|]. destruct (p c); cbn; lia. Qed.

Lemma lstrip_same_length p s : length (lstrip p s) = length s -> lstrip p s = s.
Proof.
  destruct s as [|c s]; [done|]. cbn. destruct (p c); [|done].
  pose proof (length_lstrip p s). lia.
Qed.

Lemma lstrip_replicate_app p c k s : p c = true -> lstrip p (replicate k c ++ s) = lstrip p s.
Proof. intros Hc. induction k as [|k IH]; cbn; [done|]. by rewrite Hc. Qed.

Lemma rev_replicate {A} k (c : A) : rev (replicate k c) = replicate k c.
Proof.
  induction k as [|k IH]; [done|].
  cbn [replicate rev]. rewrite IH. symmetry. apply replicate_S_end.
Qed.

Lemma map_replicate {A B} (f : A -> B) k (c : A) :
  map f (replicate k c) = replicate k (f c).
Proof. induction k as [|k IH]; cbn; [done|]. by rewrite IH. Qed.

Lemma length_rstrip p s : (length (rstrip p s) <= length s)%nat.
Proof.
  unfold rstrip. rewrite length_rev.
  pose proof (length_lstrip p (rev s)). rewrite length_rev in *. lia.
Qed.

Lemma strip_fixed s :
  strip s = s -> lstrip is_space s = s /\ rstrip is_space s = s.
Proof.
  unfold strip. intros H.
  assert (lstrip is_space s = s) as Hl.
  { apply lstrip_same_length.
    pose proof (length_lstrip is_space s).
    pose proof (length_rstrip is_space (lstrip is_space s)).
    rewrite H in *. lia. }
  rewrite Hl in H. done.
Qed.

(** Padding with spaces on the right is undone by [strip]. *)
Lemma strip_padded s k : strip s = s -> strip (s ++ replicate k 32) = s.
Proof.
  intros H. apply strip_fixed in H as [Hl Hr]. unfold strip.
  assert (rstrip is_space (s ++ replicate k 32) = s) as Hpad.
  { unfold rstrip. rewrite rev_app_distr, rev_replicate.
    rewrite lstrip_replicate_app by done. exact Hr. }
  destruct s as [|c s].
  - cbn [app]. rewrite <- (app_nil_r (replicate k 32)).
    rewrite lstrip_replicate_app by done. done.
  - cbn [app lstrip] in *. destruct (is_space c) eqn:Ec.
    + pose proof (length_lstrip is_space s) as L.
      rewrite Hl in L. cbn in L. lia.
    + exact Hpad.
Qed.

Lemma decode_encode_ascii s :
  ascii_text s -> decode_ascii_ignore (map byte_of_N s) = s.
Proof.
  unfold decode_ascii_ignore. induction 1 as [|c s Hc _ IH]; [done|].
  cbn [map]. rewrite to_N_byte_of_N.
  assert (c < 128) as Hlt by (by apply N.ltb_lt).
  rewrite N.mod_small by lia. rewrite filter_cons_True by done.
  by rewrite IH.
Qed.

Lemma encode_ascii_ignore_ascii s :
  ascii_text s -> encode_ascii_ignore s = map byte_of_N s.
Proof.
  unfold encode_ascii_ignore. intros H. f_equal.
  induction H as [|c s Hc _ IH]; [done|].
  rewrite filter_cons_True by done. by rewrite IH.
Qed.

Lemma set_byte_first (b : byte) (l : bytes) :
  set_byte (b :: l) 0 32 = Ok (x20 :: l).
Proof. reflexivity. Qed.

(** Filling the fields with values [str] accepts cannot fail. *)
Lemma fill_fields_Ok_any (fields : list Field.t) (field_values : dict)
    (record : bytes) (offset : nat) :
  printable_values field_values ->
  exists record', fill_fields fields field_values record offset = Ok record'.
Proof.
  intros Hprint.
  revert record offset. induction fields as [|field rest IH]; intros record offset.
  - by eexists.
  - cbn [fill_fields].
    destruct (format_value_returns
                (default VNone (field_values !! Field.name field))
                (Field.type field) (Field.length field) (Field.decimal field))
      as (b & ->); [intros _; by apply printable_default|].
    cbn [mbind result_bind]. apply IH.
Qed.

(** Stores past an offset leave the bytes before it alone. *)
Lemma fill_fields_prefix (fields : list Field.t) (field_values : dict)
    (record : bytes) (offset : nat) (record' : bytes) (k : nat) :
  fill_fields fields field_values record offset = Ok record' ->
  (k <= offset)%nat -> (k <= length record)%nat ->
  take k record' = take k record.
Proof.
  revert record offset. induction fields as [|field rest IH];
    intros record offset H Hk Hlen.
  - by injection H as <-.
  - cbn [fill_fields] in H.
    destruct (format_value _ _ _ _) as [b|]; [|discriminate].
    cbn [mbind result_bind] in H.
    apply IH in H.
    + rewrite H. unfold slice_assign.
      rewrite take_app_le by (rewrite length_take; lia).
      rewrite take_take. f_equal. lia.
    + lia.
    + unfold slice_assign. rewrite !length_app, length_take. lia.
Qed.

(** On a table whose first field is the 80-byte character field [Name],
    adding a candidate whose values [str] accepts and whose name is ASCII,
    at most 80 characters long and free of surrounding whitespace succeeds,
    and the duplicate check then finds that name on the instance, in any
    letter case. *)
Theorem added_record_is_found (db : DBFWriter) (fert : dict) (s : pystr)
    (dec : N) (others : list Field.t) :
  field_descriptors db = Field.mk (str_of "Name") 67 80 dec :: others ->
  0 < Header.record_length (header db) ->
  printable_values fert ->
  fert !! str_of "Name" = Some (VStr s) ->
  ascii_text s -> (length s <= 80)%nat -> strip s = s ->
  exists db',
    add_record db fert = Ok db'
    /\ forall query, lower query = lower s ->
                     record_exists (records db') query = true.
Proof.
  intros Hfields Hrl Hprint Hname Hascii Hlen Hstrip.
  unfold add_record, new_record. rewrite Hfields.
  destruct (N.to_nat (Header.record_length (header db))) as [|n] eqn:En; [lia|].
  cbn [bytearray replicate]. rewrite set_byte_first. cbn [mbind result_bind].
  cbn [fill_fields Field.name Field.type Field.length Field.decimal].
  rewrite Hname. cbn [default from_option id].
  set (padded := ljust x20 80 (take 80 (encode_ascii_ignore s))).
  assert (format_value (VStr s) 67 80 dec = Ok padded) as ->.
  { unfold format_value. destruct (decide (67 = 78)); [done|].
    destruct (decide (67 = 67)); done. }
  cbn [mbind result_bind].
  assert (length padded = 80%nat) as Lp.
  { unfold padded. rewrite length_ljust, length_take. lia. }
  set (first := slice_assign (x20 :: replicate n x00) 1
                  (1 + N.to_nat 80) padded).
  assert (take 81 first = x20 :: padded) as Hfirst.
  { unfold first, slice_assign. cbn [length Nat.min take app].
    rewrite take_0. cbn [app take]. f_equal.
    rewrite take_app_le by lia. rewrite take_ge by lia. done. }
  assert (81 <= length first)%nat as Lfirst.
  { rewrite <- (take_drop 81 first), length_app, Hfirst. cbn. lia. }
  destruct (fill_fields_Ok_any others fert first (1 + N.to_nat 80) Hprint)
    as [r Hr].
  rewrite Hr. cbn [mbind result_bind]. eexists. split; [reflexivity|].
  intros query Hq. cbn [records].
  assert (take 81 r = x20 :: padded) as Hpre.
  { rewrite <- Hfirst. apply (fill_fields_prefix _ _ _ _ _ _ Hr); [cbn; lia|lia]. }
  assert (head r = Some x20) as Hhead.
  { destruct r; [discriminate Hpre|]. by injection Hpre as ->. }
  assert (record_name r = s) as Hrn.
  { unfold record_name. rewrite <- (slice_take 1 81 81) by lia. rewrite Hpre.
    change (slice 1 81 (x20 :: padded)) with (take 80 padded).
    rewrite take_ge by lia. unfold padded. rewrite encode_ascii_ignore_ascii by done.
    rewrite take_ge by (rewrite length_map; lia).
    unfold ljust. rewrite length_map.
    replace (replicate (80 - length s) x20)
      with (map byte_of_N (replicate (80 - length s) 32))
      by (by rewrite map_replicate).
    rewrite <- map_app. rewrite decode_encode_ascii.
    - by apply strip_padded.
    - apply Forall_app. split; [done|]. by apply Forall_replicate. }
  rewrite record_exists_app. apply orb_true_iff. right.
  rewrite record_exists_cons. apply orb_true_iff. left.
  apply bool_decide_eq_true. split.
  - rewrite Hhead. discriminate.
  - by rewrite Hrn.
Qed.

End AddedIsFound.

(** ** Closed instances *)

Section Instances.
Import AddFertilizers Fixture.

(** The doubles written out in [fertilizers] are the ones its decimal
    literals denote. *)
Lemma fertilizers_literals :
  denotes 2949857755927675 49 524 2 = true          (* 5.24 *)
  /\ denotes 1518557499353989 46 2158 2 = true      (* 21.58 *)
  /\ denotes 7093169413108531 50 63 1 = true        (* 6.3 *)
  /\ denotes 3602879701896397 56 5 2 = true         (* 0.05 *)
  /\ denotes 5404319552844595 54 3 1 = true         (* 0.3 *)
  /\ denotes 1080863910568919 56 15 3 = true        (* 0.015 *)
  /\ denotes 5476377146882523 58 19 3 = true        (* 0.019 *)
  /\ denotes 4150517416584649 62 9 4 = true.        (* 0.0009 *)
Proof. vm_compute. repeat split. Qed.

(** Encoding 21.58 into a numeric field of 18 bytes with 2 decimals:
    thirteen spaces and [21.58]. *)
Lemma encode_21_58 :
  @format_value example_runtime (VFloat (dbl 1518557499353989 46)) 78 18 2
  = Ok (map byte_of_N (str_of "             21.58")).
Proof. reflexivity. Qed.

(** C2, at a table of three records: a tombstone named like the query
    does not count, an active record in another case does. *)
Lemma record_exists_iff_witness :
  let tombstone := x2a :: map byte_of_N (str_of "Calcium Sulfate") in
  let active := x20 :: map byte_of_N (str_of "calcium sulfate  ") in
  @record_exists example_runtime [tombstone] (str_of "Calcium Sulfate") = false
  /\ @record_exists example_runtime [tombstone; active] (str_of "Calcium Sulfate")
     = @record_exists example_runtime [active] (str_of "Calcium Sulfate")
  /\ @record_exists example_runtime [active] (str_of "Calcium Sulfate") = true.
Proof.
  intros tombstone active. split; [reflexivity|]. split; [|reflexivity].
  exact (proj2 (@record_exists_iff example_runtime [tombstone; active]
                  (str_of "Calcium Sulfate"))
           [] tombstone [active] eq_refl eq_refl).
Defined.

(** [batch_without_new_names_writes_nothing], at the padded one-column
    table, where the loaded record is the one on file, and a batch holding
    only [Calcium Sulfate]. *)
Lemma batch_without_new_names_writes_nothing_witness :
  @add_fertilizers example_runtime [calcium_sulfate] db_path "20250615-120000"
    a_day (world_of padded_names)
  = (world_of padded_names, Ok false).
Proof.
  eapply (proj1 (@batch_without_new_names_writes_nothing example_runtime)
            [calcium_sulfate] db_path "20250615-120000" a_day
            (world_of padded_names) padded_names).
  - reflexivity.
  - vm_compute. reflexivity.
  - constructor; [|constructor].
    exists (str_of "Calcium Sulfate"). split; vm_compute; reflexivity.
Defined.

(** C7: 123456.0 in a numeric field of 5 bytes with 2 decimals.  The text
    is [123456.00]; the field receives [12345], not [56.00]. *)
Lemma numeric_overflow_drops_low_order_text :
  format_fixed f_123456 2 = str_of "123456.00"
  /\ @format_value example_runtime (VFloat f_123456) 78 5 2
     = Ok (map byte_of_N (str_of "12345"))
  /\ @format_value example_runtime (VFloat f_123456) 78 5 2
     <> Ok (map byte_of_N (drop (9 - 5) (format_fixed f_123456 2))).
Proof. split; [reflexivity|]. split; [reflexivity|]. vm_compute. discriminate. Qed.

Lemma numeric_overflow_keeps_leading_text_witness :
  @format_value example_runtime (VFloat f_123456) 78 5 2
  = Ok (take 5 (map byte_of_N (format_fixed f_123456 2))).
Proof.
  refine (proj1 (@numeric_overflow_keeps_leading_text example_runtime
                   (VFloat f_123456) f_123456 5 2 eq_refl _) _ _).
  - discriminate.
  - reflexivity.
  - vm_compute. lia.
Defined.



(** C9: in the year 2156 the update ends in [ValueError] after the table
    was renamed; the new table file is empty, no byte 0 was stored. *)
Lemma year_2156_raises :
  let r := @add_fertilizers_to_db example_runtime db_path "21560101-000000"
             (Date.mk 2156 1 1) (world_of padded_names) in
  snd r = Raise ValueError
  /\ files (fst r) !! db_path = Some []
  /\ files (fst r) !! backup_path_of db_path "21560101-000000" = Some padded_names.
Proof. vm_compute. repeat split. Qed.

(** C9 (amended), at the padded table in 2025: byte 1 of the rewritten
    header is 125. *)
Lemma write_dbf_year_byte_witness :
  exists db out,
    read_dbf db_path padded_names = Ok db
    /\ files (fst (write_dbf db "20250615-120000" a_day (world_of padded_names)))
       !! db_path = Some out
    /\ out !! 1%nat = Some x7d.
Proof.
  eassert (read_dbf db_path padded_names = Ok _) as Hdb
    by (vm_compute; reflexivity).
  match type of Hdb with _ = Ok ?db =>
    exists db;
    destruct (proj1 (write_dbf_year_byte db "20250615-120000" a_day
                       (world_of padded_names))
                (fst (write_dbf db "20250615-120000" a_day (world_of padded_names))))
      as (_ & out & Hout & Hy)
  end.
  - vm_compute. reflexivity.
  - exists out. split; [exact Hdb|]. split; [exact Hout|exact Hy].
Defined.

(** C10: [str] of an [int] of 4301 digits raises under the default digit
    cap, and the character branch of [format_value] lets the [ValueError]
    through. *)
Lemma format_value_long_int_raises :
  @format_value example_runtime (VInt (10 ^ 4300)) 67 10 0 = Raise ValueError.
Proof. vm_compute. reflexivity. Qed.

(** C10 (amended), at a numeric field of 6 bytes: text that is no number,
    [None] and an infinity without decimals all give six spaces. *)
Lemma format_value_raises_only_in_str_witness :
  @format_value example_runtime (VStr (str_of "n/a")) 78 6 2 = Ok (spaces 6)
  /\ @format_value example_runtime VNone 78 6 2 = Ok (spaces 6)
  /\ @format_value example_runtime (VFloat (FInf false)) 78 6 0 = Ok (spaces 6).
Proof.
  split; [|split].
  - destruct (proj2 (proj2 (@format_value_raises_only_in_str example_runtime
                              (VStr (str_of "n/a")) 78 6 2 eq_refl eq_refl)))
      as (b & -> & Hb); [discriminate|].
    f_equal. apply Hb; [reflexivity|]. right. right. left. by eexists.
  - destruct (proj2 (proj2 (@format_value_raises_only_in_str example_runtime
                              VNone 78 6 2 eq_refl eq_refl)))
      as (b & -> & Hb); [discriminate|].
    f_equal. apply Hb; [reflexivity|]. by left.
  - destruct (proj2 (proj2 (@format_value_raises_only_in_str example_runtime
                              (VFloat (FInf false)) 78 6 0 eq_refl eq_refl)))
      as (b & -> & Hb); [discriminate|].
    f_equal. apply Hb; [reflexivity|]. right. right. right.
    split; [reflexivity|]. by eexists _, _.
Defined.

(** C1: on a table whose header holds a language driver id at byte 29,
    [write_dbf] emits twenty zero bytes for bytes 12..31, while the docs
    variant, which patches the file image, keeps them. *)
Theorem write_dbf_loses_reserved_bytes (rt : PyRuntime) :
  let w := world_of empty_substances in
  let r := add_fertilizers_to_db db_path "20250615-120000" a_day w in
  let r' := DocsAddFertilizers.add_fertilizers_to_db db_path [plain_row]
              "20250615-120000" a_day w in
  slice 12 32 empty_substances = reserved_bytes
  /\ reserved_bytes <> replicate 20 x00
  /\ snd r = Ok true
  /\ slice 12 32 <$> files (fst r) !! db_path = Some (replicate 20 x00)
  /\ snd r' = true
  /\ slice 12 32 <$> files (fst r') !! db_path = Some reserved_bytes.
Proof. vm_compute. repeat split. discriminate. Qed.

(** C4: the update run twice on an empty substances table.  The first run
    writes four records after a one-byte terminator; the second run reads a
    32-byte block at the terminator, so each loaded record starts 31 bytes
    late and its name field shows the formula.  No candidate is found, the
    four are added again and the file is renamed and rewritten. *)
Theorem second_run_adds_the_batch_again (rt : PyRuntime) :
  let w1 := fst (add_fertilizers_to_db db_path "20250615-120000" a_day
                   (world_of empty_substances)) in
  let r2 := add_fertilizers_to_db db_path "20250615-120001" a_day w1 in
  let count (w : World) := (fun out => le_decode (slice 4 8 out)) <$> files w !! db_path in
  let loaded := (fun out => records <$> read_dbf db_path out) <$> files w1 !! db_path in
  count w1 = Some 4
  /\ (fun r => (fun rs => record_name <$> rs !! 0%nat) <$> r) <$> loaded
     = Some (Ok (Some (str_of "NPK blend")))
  /\ snd r2 = Ok true
  /\ count (fst r2) = Some 8
  /\ events (fst r2)
     = events w1 ++ [EvRename db_path (backup_path_of db_path "20250615-120001");
                     EvOpenWrite db_path].
Proof. vm_compute. repeat split. Qed.

(** C5: a batch whose only candidate is already in the table.  The table
    is in the usual layout and holds [Calcium Sulfate] as an active record
    at [header_length], where the docs check finds it.  [read_dbf] reads a
    32-byte block at the terminator, so the one record it loads is the last
    51 bytes of the file and its name field is blank; [record_exists] does
    not find the name, the candidate is added again, and the table is
    renamed and rewritten with a count of 2. *)
Theorem present_name_is_added_again (rt : PyRuntime) :
  let w := world_of standard_names in
  let r := add_fertilizers [calcium_sulfate] db_path "20250615-120000" a_day w in
  let loaded := records <$> read_dbf db_path standard_names in
  slice 65 146 standard_names
  = x20 :: map byte_of_N (str_of "Calcium Sulfate") ++ replicate 65 x20
  /\ DocsAddFertilizers.fertilizer_exists (files w) db_path
       (str_of "Calcium Sulfate") = Ok true
  /\ map length <$> loaded = Ok [51%nat]
  /\ (fun rs => record_exists rs (str_of "Calcium Sulfate")) <$> loaded
     = Ok false
  /\ snd r = Ok true
  /\ events (fst r)
     = [EvRename db_path (backup_path_of db_path "20250615-120000");
        EvOpenWrite db_path]
  /\ files (fst r) !! backup_path_of db_path "20250615-120000"
     = Some standard_names
  /\ (fun out => le_decode (slice 4 8 out)) <$> files (fst r) !! db_path
     = Some 2.
Proof. vm_compute. repeat split. Qed.

(** C6: records of other lengths.  In the docs variant a cost of 1e9
    renders as 19 characters, the slice assignment of 18 lengthens the
    buffer and the record comes out 682 bytes long.  In the main script a
    logical field two bytes wide still receives one byte, and the table the
    script itself wrote loads with a last record of 651 bytes. *)
Theorem records_of_other_lengths (rt : PyRuntime) :
  let w1 := fst (add_fertilizers_to_db db_path "20250615-120000" a_day
                   (world_of empty_substances)) in
  let loaded := (fun out => map length <$> (records <$> read_dbf db_path out))
                  <$> files w1 !! db_path in
  DocsAddFertilizers.format_numeric_field (VFloat f_1e9)
  = Ok (map byte_of_N (str_of "1000000000.00000000"))
  /\ length <$> DocsAddFertilizers.create_fertilizer_record
                  (str_of "Calcium Sulfate") (str_of "CaSO4") (str_of "Generic")
                  (VFloat (FFinite false 1 0)) ∅ (VInt 0)
                  (VFloat (FFinite false 0 0)) (VFloat f_1e9) []
     = Ok 682%nat
  /\ format_value (VBool true) 76 2 0 = Ok [x54]
  /\ loaded = Some (Ok [681; 681; 681; 651]%nat).
Proof. vm_compute. repeat split. Qed.

Lemma printable_values_list `{rt : PyRuntime} (l : list (pystr * Value)) :
  Forall (fun kv => printable kv.2) l -> printable_values (list_to_map l).
Proof.
  intros HF key value Hl. apply elem_of_list_to_map_2 in Hl.
  rewrite Forall_forall in HF. exact (HF (key, value) Hl).
Qed.

Lemma jacks_5_12_26_part_a_printable :
  @printable_values example_runtime jacks_5_12_26_part_a.
Proof. apply printable_values_list. repeat constructor. Qed.

Lemma calcium_sulfate_printable :
  @printable_values example_runtime calcium_sulfate.
Proof. apply printable_values_list. repeat constructor. Qed.

(** [new_record_length], at the substances schema and the first candidate. *)
Lemma new_record_length_witness :
  exists db record,
    read_dbf db_path empty_substances = Ok db
    /\ @new_record example_runtime db jacks_5_12_26_part_a = Ok record
    /\ length record = 681%nat
    /\ head record = Some x20.
Proof.
  eassert (read_dbf db_path empty_substances = Ok _) as Hdb
    by (vm_compute; reflexivity).
  match type of Hdb with _ = Ok ?db =>
    exists db;
    destruct (@new_record_length example_runtime db jacks_5_12_26_part_a)
      as (record & Hr & Hl & Hh)
  end.
  - cbn [field_descriptors]. unfold logical_fields_are_bytes.
    repeat constructor; discriminate.
  - vm_compute. lia.
  - exact jacks_5_12_26_part_a_printable.
  - exists record. split; [exact Hdb|]. split; [exact Hr|]. split; [exact Hl|exact Hh].
Defined.

(** [added_record_is_found], at the substances schema: once added,
    [Calcium Sulfate] is found under [calcium sulfate]. *)
Lemma added_record_is_found_witness :
  exists db db',
    read_dbf db_path empty_substances = Ok db
    /\ @add_record example_runtime db calcium_sulfate = Ok db'
    /\ @record_exists example_runtime (records db') (str_of "calcium sulfate")
       = true.
Proof.
  eassert (read_dbf db_path empty_substances = Ok _) as Hdb
    by (vm_compute; reflexivity).
  match type of Hdb with _ = Ok ?db =>
    exists db;
    edestruct (@added_record_is_found example_runtime db calcium_sulfate
                 (str_of "Calcium Sulfate")) as (db' & Hadd & Hfound)
  end.
  - reflexivity.
  - reflexivity.
  - exact calcium_sulfate_printable.
  - vm_compute. reflexivity.
  - repeat constructor.
  - cbn. lia.
  - reflexivity.
  - exists db'. split; [exact Hdb|]. split; [exact Hadd|].
    apply Hfound. reflexivity.
Defined.

(** [write_dbf_reserved_zero], at the padded one-column table. *)
Lemma write_dbf_reserved_zero_witness :
  exists db out,
    read_dbf db_path padded_names = Ok db
    /\ files (fst (write_dbf db "20250615-120000" a_day (world_of padded_names)))
       !! db_path = Some out
    /\ slice 12 32 out = replicate 20 x00.
Proof.
  eassert (read_dbf db_path padded_names = Ok _) as Hdb
    by (vm_compute; reflexivity).
  match type of Hdb with _ = Ok ?db =>
    exists db;
    destruct (write_dbf_reserved_zero db "20250615-120000" a_day
                (world_of padded_names)
                (fst (write_dbf db "20250615-120000" a_day (world_of padded_names))))
      as (out & Hout & Hz)
  end.
  - vm_compute. reflexivity.
  - exists out. split; [exact Hdb|]. split; [exact Hout|exact Hz].
Defined.

End Instances.

(** ** What a loaded table says about its file *)

Section Layout.
Import AddFertilizers.

(** The descriptors a successful loop returns, against the bytes it read:
    block [j] does not start with the terminator and carries the type,
    length and decimal count at offsets 11, 16 and 17 and the name in its
    first 11 bytes; the block after the last one starts with [0x0D]. *)
Lemma read_fields_layout fuel f acc fields rest :
  read_fields fuel f acc = Ok (fields, rest) ->
  exists new,
    fields = acc ++ new
    /\ f !! (32 * length new)%nat = Some x0d
    /\ forall j field, new !! j = Some field ->
         (exists b, f !! (32 * j)%nat = Some b /\ b <> x0d)
         /\ Byte.to_N <$> f !! (32 * j + 11)%nat = Some (Field.type field)
         /\ Byte.to_N <$> f !! (32 * j + 16)%nat = Some (Field.length field)
         /\ Byte.to_N <$> f !! (32 * j + 17)%nat = Some (Field.decimal field)
         /\ strip_nul <$> decode_ascii (slice (32 * j) (32 * j + 11) f)
            = Ok (Field.name field).
Proof.
  revert f acc. induction fuel as [|fuel IH]; intros f acc H; [discriminate|].
  cbn [read_fields] in H.
  destruct (index (take 32 f) 0) as [b0|] eqn:E0; [|discriminate].
  cbn [mbind result_bind] in H.
  assert (f !! 0%nat = Some b0) as H0.
  { destruct f; [discriminate E0|]. by injection E0 as ->. }
  destruct (decide (b0 = x0d)) as [->|Hb0].
  { injection H as <- <-. exists []. rewrite app_nil_r.
    split; [done|]. split; [done|]. intros j field Hj. discriminate Hj. }
  destruct (strip_nul <$> decode_ascii (slice 0 11 (take 32 f))) as [nm|] eqn:En;
    [|discriminate].
  cbn [mbind result_bind] in H.
  destruct (index (take 32 f) 11) as [ty|] eqn:E11; [|discriminate].
  cbn [mbind result_bind] in H.
  destruct (index (take 32 f) 16) as [ln|] eqn:E16; [|discriminate].
  cbn [mbind result_bind] in H.
  destruct (index (take 32 f) 17) as [dc|] eqn:E17; [|discriminate].
  cbn [mbind result_bind] in H.
  apply IH in H as (new & -> & Hterm & Hnew).
  assert (forall i b, (i < 32)%nat -> index (take 32 f) i = Ok b -> f !! i = Some b)
    as Hidx.
  { intros i b Hi. unfold index. rewrite lookup_take_lt by done.
    destruct (f !! i); [by intros [= ->]|discriminate]. }
  apply Hidx in E11, E16, E17; try lia.
  rewrite slice_take in En by lia.
  eexists (_ :: new). split; [by rewrite <- app_assoc|]. split.
  - rewrite lookup_drop in Hterm. rewrite <- Hterm. f_equal. cbn [length]. lia.
  - intros [|j] field Hj.
    + injection Hj as <-. cbn [Field.type Field.length Field.decimal Field.name].
      rewrite Nat.mul_0_r, !Nat.add_0_l, E11, E16, E17. split; [eauto|]. done.
    + cbn [lookup list_lookup] in Hj. apply Hnew in Hj
        as ((b & Hb & Hnb) & Ht & Hl & Hd & Hn).
      rewrite !lookup_drop in Hb, Ht, Hl, Hd. rewrite slice_drop in Hn.
      replace (32 * S j)%nat with (32 + 32 * j)%nat by lia.
      replace (32 + 32 * j + 11)%nat with (32 + (32 * j + 11))%nat by lia.
      replace (32 + 32 * j + 16)%nat with (32 + (32 * j + 16))%nat by lia.
      replace (32 + 32 * j + 17)%nat with (32 + (32 * j + 17))%nat by lia.
      split; [eauto|]. done.
Qed.

Lemma le_decode_bound (bs : bytes) : le_decode bs < 256 ^ N.of_nat (length bs).
Proof.
  induction bs as [|b bs IH]; [done|].
  cbn [le_decode length]. pose proof (Byte.to_N_bounded b).
  replace (N.of_nat (S (length bs))) with (N.succ (N.of_nat (length bs))) by lia.
  rewrite N.pow_succ_r'. lia.
Qed.

(** What [read_header] can return is what a header can hold. *)
Lemma read_header_bounds header_data h :
  read_header header_data = Ok h ->
  Header.version h < 256 /\ Header.num_records h < 2 ^ 32
  /\ Header.header_length h < 2 ^ 16 /\ Header.record_length h < 2 ^ 16
  /\ Byte.to_N <$> header_data !! 0%nat = Some (Header.version h).
Proof.
  unfold read_header, index. intros H.
  destruct (header_data !! 0%nat) as [v|]; [|discriminate].
  destruct (header_data !! 1%nat); [|discriminate].
  destruct (header_data !! 2%nat); [|discriminate].
  destruct (header_data !! 3%nat); [|discriminate].
  cbn [mbind result_bind] in H. unfold unpack_I, unpack_H in H.
  destruct (length (slice 4 8 header_data) =? 4)%nat eqn:L1; [|discriminate].
  destruct (length (slice 8 10 header_data) =? 2)%nat eqn:L2; [|discriminate].
  destruct (length (slice 10 12 header_data) =? 2)%nat eqn:L3; [|discriminate].
  cbn [mbind result_bind] in H. injection H as <-. cbn.
  apply Nat.eqb_eq in L1, L2, L3.
  pose proof (le_decode_bound (slice 4 8 header_data)) as B1.
  pose proof (le_decode_bound (slice 8 10 header_data)) as B2.
  pose proof (le_decode_bound (slice 10 12 header_data)) as B3.
  rewrite L1 in B1. rewrite L2 in B2. rewrite L3 in B3.
  pose proof (Byte.to_N_bounded v).
  repeat split; try done; lia.
Qed.

(** The descriptor loop stops on a missing byte or on a name that is not
    ASCII, on nothing else. *)
Lemma read_fields_errors fuel f acc e :
  read_fields fuel f acc = Raise e -> e = IndexError \/ e = UnicodeDecodeError.
Proof.
  revert f acc. induction fuel as [|fuel IH]; intros f acc H.
  { injection H as <-. by left. }
  cbn [read_fields] in H. unfold index in H.
  destruct (take 32 f !! 0%nat); [|injection H as <-; by left].
  cbn [mbind result_bind] in H. destruct (decide (b = x0d)); [discriminate|].
  destruct (decode_ascii (slice 0 11 (take 32 f))) as [nm|e'] eqn:Ed.
  2:{ cbn in H. injection H as <-. right.
      clear -Ed. revert e' Ed. induction (slice 0 11 (take 32 f)) as [|x l IHl];
        intros e' Ed; [discriminate|].
      cbn [decode_ascii] in Ed. destruct (is_ascii (Byte.to_N x)).
      - destruct (decode_ascii l); [discriminate|].
        cbn in Ed. injection Ed as <-. by apply IHl.
      - by injection Ed as <-. }
  cbn [fmap result_fmap mbind result_bind] in H.
  destruct (take 32 f !! 11%nat); [|injection H as <-; by left].
  cbn [mbind result_bind] in H.
  destruct (take 32 f !! 16%nat); [|injection H as <-; by left].
  cbn [mbind result_bind] in H.
  destruct (take 32 f !! 17%nat); [|injection H as <-; by left].
  cbn [mbind result_bind] in H. by apply IH in H.
Qed.

(** The errors of [read_dbf].  A file too short for the first four header
    bytes raises [IndexError], one too short for the three packed fields
    raises [struct.error]; no other error than these two and
    [UnicodeDecodeError] (a descriptor name that is not ASCII) leaves
    [read_dbf]; and a file with no [0x0D] at the start of a 32-byte block
    after the header is never loaded. *)
Theorem read_dbf_rejects path data :
  ((length data < 4)%nat -> read_dbf path data = Raise IndexError)
  /\ ((4 <= length data < 12)%nat -> read_dbf path data = Raise StructError)
  /\ (forall e, read_dbf path data = Raise e ->
        e = IndexError \/ e = StructError \/ e = UnicodeDecodeError)
  /\ ((forall j, data !! (32 * (j + 1))%nat <> Some x0d) ->
      exists e, read_dbf path data = Raise e).
Proof.
  split; [|split; [|split]].
  - intros L. unfold read_dbf, read_header, index.
    destruct data as [|a [|b [|c [|d data]]]]; try done. cbn in L. lia.
  - intros L. unfold read_dbf, read_header, index.
    destruct data as [|a [|b [|c [|d data]]]]; try (cbn in L; lia).
    rewrite !lookup_take_lt by lia. cbn [lookup list_lookup mbind result_bind].
    unfold unpack_I, unpack_H.
    assert (length (slice 4 8 (take 32 (a :: b :: c :: d :: data)))
            = Nat.min 4 (length data)) as L1.
    { rewrite slice_take by lia. unfold slice.
      rewrite length_take, length_drop. cbn [length]. lia. }
    assert (length (slice 8 10 (take 32 (a :: b :: c :: d :: data)))
            = Nat.min 2 (length data - 4)) as L2.
    { rewrite slice_take by lia. unfold slice.
      rewrite length_take, length_drop. cbn [length]. lia. }
    assert (length (slice 10 12 (take 32 (a :: b :: c :: d :: data)))
            = Nat.min 2 (length data - 6)) as L3.
    { rewrite slice_take by lia. unfold slice.
      rewrite length_take, length_drop. cbn [length]. lia. }
    cbn [length] in L.
    destruct (length (slice 4 8 _) =? 4)%nat eqn:E1; [|done].
    cbn [mbind result_bind].
    destruct (length (slice 8 10 _) =? 2)%nat eqn:E2; [|done].
    cbn [mbind result_bind].
    destruct (length (slice 10 12 _) =? 2)%nat eqn:E3; [|done].
    apply Nat.eqb_eq in E1, E2, E3. lia.
  - intros e H. unfold read_dbf in H.
    destruct (read_header (take 32 data)) as [h|e'] eqn:Eh.
    + cbn [mbind result_bind] in H.
      destruct (read_fields _ _ _) as [[fields f]|e'] eqn:Ef; [discriminate|].
      injection H as <-. apply read_fields_errors in Ef. tauto.
    + injection H as <-. unfold read_header, index in Eh.
      repeat match type of Eh with
             | context [match ?o with Some _ => _ | None => _ end] =>
                 destruct o; [cbn [mbind result_bind] in Eh|injection Eh as <-; by left]
             end.
      unfold unpack_I, unpack_H in Eh.
      repeat match type of Eh with
             | context [if ?c then _ else _] =>
                 destruct c; [cbn [mbind result_bind] in Eh
                             |injection Eh as <-; right; by left]
             end.
      discriminate Eh.
  - intros Hno. destruct (read_dbf path data) as [db|e] eqn:H; [|eauto].
    exfalso. unfold read_dbf in H.
    destruct (read_header (take 32 data)) as [h|]; [|discriminate].
    cbn [mbind result_bind] in H.
    destruct (read_fields _ _ _) as [[fields f]|] eqn:Ef; [|discriminate].
    apply read_fields_layout in Ef as (new & _ & Hterm & _).
    rewrite lookup_drop in Hterm.
    apply (Hno (length new)). rewrite <- Hterm. f_equal. lia.
Qed.

(** The bytes behind a loaded table: the header fields decode the first
    twelve bytes, descriptor [j] decodes the block at [32 * (j + 1)], and
    the block after the last descriptor starts with the terminator. *)
Theorem read_dbf_decodes path data db :
  read_dbf path data = Ok db ->
  let n := length (field_descriptors db) in
  dbf_path db = path
  /\ Byte.to_N <$> data !! 0%nat = Some (Header.version (header db))
  /\ unpack_I (slice 4 8 data) = Ok (Header.num_records (header db))
  /\ unpack_H (slice 8 10 data) = Ok (Header.header_length (header db))
  /\ unpack_H (slice 10 12 data) = Ok (Header.record_length (header db))
  /\ data !! (32 * (n + 1))%nat = Some x0d
  /\ forall j field, field_descriptors db !! j = Some field ->
       (exists b, data !! (32 * (j + 1))%nat = Some b /\ b <> x0d)
       /\ Byte.to_N <$> data !! (32 * (j + 1) + 11)%nat = Some (Field.type field)
       /\ Byte.to_N <$> data !! (32 * (j + 1) + 16)%nat = Some (Field.length field)
       /\ Byte.to_N <$> data !! (32 * (j + 1) + 17)%nat = Some (Field.decimal field)
       /\ strip_nul <$> decode_ascii (slice (32 * (j + 1)) (32 * (j + 1) + 11) data)
          = Ok (Field.name field).
Proof.
  intros H n. unfold read_dbf in H.
  destruct (read_header (take 32 data)) as [h|] eqn:Eh; [|discriminate].
  cbn [mbind result_bind] in H.
  destruct (read_fields _ _ _) as [[fields f]|] eqn:Ef; [|discriminate].
  injection H as <-. subst n. cbn [dbf_path header field_descriptors].
  pose proof (read_header_bounds _ _ Eh) as (_ & _ & _ & _ & Hv).
  apply read_header_fields in Eh as (Hc & Hh & Hr).
  rewrite slice_take in Hc, Hh, Hr by lia.
  rewrite lookup_take_lt in Hv by lia.
  apply read_fields_layout in Ef as (new & -> & Hterm & Hnew).
  cbn [app]. rewrite lookup_drop in Hterm.
  repeat (split; [done|]). split.
  - rewrite <- Hterm. f_equal. lia.
  - intros j field Hj. apply Hnew in Hj as ((b & Hb & Hnb) & Ht & Hl & Hd & Hn).
    rewrite !lookup_drop in Hb, Ht, Hl, Hd. rewrite slice_drop in Hn.
    replace (32 * (j + 1))%nat with (32 + 32 * j)%nat by lia.
    replace (32 + 32 * j + 11)%nat with (32 + (32 * j + 11))%nat by lia.
    replace (32 + 32 * j + 16)%nat with (32 + (32 * j + 16))%nat by lia.
    replace (32 + 32 * j + 17)%nat with (32 + (32 * j + 17))%nat by lia.
    split; [eauto|]. done.
Qed.

End Layout.

(** ** What a commit writes, and what reading it back gives *)

Section Commit.
Import AddFertilizers.
Context `{rt : PyRuntime}.

Lemma set_byte_in_range (l : bytes) i v :
  (0 <= v < 256)%Z -> (i < length l)%nat ->
  set_byte l i v = Ok (<[i := byte_of_N (Z.to_N v)]> l).
Proof.
  intros Hv Hi. destruct (set_byte l i v) as [l'|e] eqn:E.
  - by apply set_byte_Ok in E as (_ & _ & ->).
  - exfalso. unfold set_byte in E.
    replace ((0 <=? v)%Z && (v <? 256)%Z) with true in E
      by (symmetry; apply andb_true_iff; split; [apply Z.leb_le|apply Z.ltb_lt]; lia).
    destruct (Byte.of_N (Z.to_N v)) eqn:Eb.
    + apply Nat.ltb_lt in Hi. rewrite Hi in E. discriminate.
    + apply Byte.of_N_None_iff in Eb. lia.
Qed.

(** The header can be built when its numbers fit their fields. *)
Lemma build_header_succeeds h today :
  Header.version h < 256 -> Header.num_records h < 2 ^ 32 ->
  Header.header_length h < 2 ^ 16 -> Header.record_length h < 2 ^ 16 ->
  (1900 <= Date.year today <= 2155)%Z ->
  (0 <= Date.month today < 256)%Z -> (0 <= Date.day today < 256)%Z ->
  exists hdr, build_header h today = Ok hdr.
Proof.
  intros Hv Hn Hh Hr Hy Hm Hd. unfold build_header, bytearray.
  rewrite set_byte_in_range by (cbn; lia). cbn [mbind result_bind].
  rewrite set_byte_in_range by (rewrite ?length_insert; cbn; lia).
  cbn [mbind result_bind].
  rewrite set_byte_in_range by (rewrite ?length_insert; cbn; lia).
  cbn [mbind result_bind].
  rewrite set_byte_in_range by (rewrite ?length_insert; cbn; lia).
  cbn [mbind result_bind]. unfold pack_I, pack_H.
  apply N.ltb_lt in Hn, Hh, Hr. rewrite Hn, Hh, Hr. cbn [mbind result_bind].
  by eexists.
Qed.

(** The copy loop of [write_dbf] over [k] blocks that do not start with the
    terminator and a next one that does: the [k] blocks go out whole, then a
    single [0x0D]. *)
Lemma copy_fields_blocks k : forall (f : bytes) fuel written,
  (forall j, (j < k)%nat -> exists b, f !! (32 * j)%nat = Some b /\ b <> x0d) ->
  f !! (32 * k)%nat = Some x0d ->
  (k < fuel)%nat ->
  copy_fields fuel f written = (written ++ take (32 * k) f ++ [x0d], Ok ()).
Proof.
  induction k as [|k IH]; intros f fuel written Hblocks Hterm Hfuel;
    (destruct fuel as [|fuel]; [lia|]); cbn [copy_fields]; unfold index.
  - rewrite lookup_take_lt by lia. rewrite Nat.mul_0_r in Hterm. rewrite Hterm.
    destruct (decide (x0d = x0d)); done.
  - destruct (Hblocks 0%nat) as (b & Hb & Hnb); [lia|].
    rewrite Nat.mul_0_r in Hb. rewrite lookup_take_lt by lia. rewrite Hb.
    destruct (decide (b = x0d)); [done|].
    rewrite (IH (drop 32 f) fuel).
    + rewrite <- !app_assoc. do 2 f_equal. rewrite (app_assoc (take 32 f)).
      f_equal. rewrite take_take_drop. f_equal. lia.
    + intros j Hj. destruct (Hblocks (S j)) as (b' & Hb' & Hnb'); [lia|].
      exists b'. split; [|done]. rewrite lookup_drop, <- Hb'. f_equal. lia.
    + rewrite lookup_drop, <- Hterm. f_equal. lia.
    + lia.
Qed.

(** [write_dbf] on a table whose file parses, once the header is built. *)
Lemma write_dbf_layout db stamp today w data fields rest hdr :
  files w !! dbf_path db = Some data ->
  read_fields (S (length (drop 32 data))) (drop 32 data) [] = Ok (fields, rest) ->
  build_header (header db) today = Ok hdr ->
  write_dbf db stamp today w
  = (mkWorld
       (<[dbf_path db :=
            hdr ++ slice 32 (32 * (length fields + 1)) data ++ [x0d]
            ++ concat (records db) ++ [x1a]]>
          (<[dbf_path db := []]>
             (<[backup_path_of (dbf_path db) stamp := data]>
                (delete (dbf_path db) (files w)))))
       ((events w ++ [EvRename (dbf_path db) (backup_path_of (dbf_path db) stamp)])
        ++ [EvOpenWrite (dbf_path db)]),
     Ok ()).
Proof.
  intros Hfile Hread Hhdr. rewrite (write_dbf_existing _ _ _ _ _ Hfile), Hhdr.
  pose proof (read_fields_Ok _ _ _ _ _ Hread) as (k & Hk & _ & Hlen).
  cbn in Hk. subst k.
  apply read_fields_layout in Hread as (new & Hnew & Hterm & Hblocks).
  cbn in Hnew. subst new.
  rewrite (copy_fields_blocks (length fields)); [|..|lia].
  - do 3 f_equal. rewrite <- !app_assoc. do 2 f_equal.
    unfold slice. f_equal. lia.
  - intros j Hj. destruct (lookup_lt_is_Some_2 fields j Hj) as [field Hf].
    by apply Hblocks in Hf as (Hb & _).
  - done.
Qed.

Lemma add_new_version fertilizers db added db' added' :
  add_new fertilizers db added = Ok (db', added') ->
  Header.version (header db') = Header.version (header db).
Proof.
  revert db added. induction fertilizers as [|fert rest IH]; intros db added H.
  - by injection H as <- _.
  - cbn [add_new] in H.
    destruct (fert !! str_of "Name"); [|discriminate]. cbn [mbind result_bind] in H.
    destruct (record_exists_value (records db) v) as [[|]|]; [..|discriminate];
      cbn [mbind result_bind] in H.
    + by apply IH in H.
    + destruct (add_record db fert) as [db1|] eqn:E; [|discriminate].
      cbn [mbind result_bind] in H. apply IH in H. rewrite H.
      unfold add_record in E. destruct (new_record db fert); [|discriminate].
      by injection E as <-.
Qed.

(** A commit after a loaded table and a batch: it returns when the date
    fits the header and the count fits 32 bits, and the new file is the
    header, the original descriptor blocks, one [0x0D], every record in
    memory in order, and [0x1A]; the backup holds the original bytes; no
    other file changes. *)
Theorem commit_writes_table
    (fertilizers : list dict) db_path stamp today w data db db' k :
  files w !! db_path = Some data ->
  read_dbf db_path data = Ok db ->
  add_new fertilizers db 0 = Ok (db', k) ->
  (1900 <= Date.year today <= 2155)%Z ->
  (0 <= Date.month today < 256)%Z -> (0 <= Date.day today < 256)%Z ->
  Header.num_records (header db) + N.of_nat k < 2 ^ 32 ->
  exists w' hdr,
    write_dbf db' stamp today w = (w', Ok ())
    /\ length hdr = 32%nat
    /\ files w' !! db_path
       = Some (hdr ++ slice 32 (32 * (length (field_descriptors db) + 1)) data
               ++ [x0d] ++ concat (records db') ++ [x1a])
    /\ files w' !! backup_path_of db_path stamp = Some data
    /\ forall p, p <> db_path -> p <> backup_path_of db_path stamp ->
                 files w' !! p = files w !! p.
Proof.
  intros Hfile Hread Hadd Hy Hm Hd Hcount.
  pose proof (read_dbf_Ok _ _ _ Hread) as (Hpath & Hh & f & Hf & _).
  apply read_header_bounds in Hh as (Hv & _ & Hhl & Hrl & _).
  pose proof (add_new_version _ _ _ _ _ Hadd) as Hv'.
  apply add_new_Ok in Hadd as (Hpath' & _ & Hhl' & Hrl' & _ & Hnum & _).
  rewrite Hpath in Hpath'. rewrite <- Hpath' in *.
  replace (k - 0)%nat with k in Hnum by lia.
  destruct (build_header_succeeds (header db') today) as [hdr Hhdr];
    try lia; try congruence.
  exists (mkWorld
            (<[dbf_path db' :=
                 hdr ++ slice 32 (32 * (length (field_descriptors db) + 1)) data
                 ++ [x0d] ++ concat (records db') ++ [x1a]]>
               (<[dbf_path db' := []]>
                  (<[backup_path_of (dbf_path db') stamp := data]>
                     (delete (dbf_path db') (files w)))))
            ((events w ++ [EvRename (dbf_path db')
                             (backup_path_of (dbf_path db') stamp)])
             ++ [EvOpenWrite (dbf_path db')])), hdr.
  split; [by apply (write_dbf_layout _ _ _ _ _ _ f)|]. cbn [files].
  split; [by apply (build_header_slices _ _ _ []) in Hhdr as (? & _)|].
  split; [apply lookup_insert_eq|]. split.
  - rewrite !lookup_insert_ne by (symmetry; apply backup_path_fresh).
    apply lookup_insert_eq.
  - intros p Hp Hb. rewrite !lookup_insert_ne by done.
    by rewrite lookup_delete_ne.
Qed.

(** The descriptor loop looks at nothing past the terminator byte: two
    files that agree up to it give the same descriptors. *)
Lemma read_fields_prefix fuel f acc fields rest fuel' f' m :
  read_fields fuel f acc = Ok (fields, rest) ->
  take m f' = take m f ->
  (32 * (length fields - length acc) < m)%nat ->
  (length fields - length acc < fuel')%nat ->
  read_fields fuel' f' acc
  = Ok (fields, drop (32 * (length fields - length acc + 1)) f').
Proof.
  revert f acc fuel' f' m. induction fuel as [|fuel IH];
    intros f acc fuel' f' m H Hpre Hm Hfuel; [discriminate|].
  destruct fuel' as [|fuel']; [lia|].
  cbn [read_fields] in H |- *.
  destruct (index (take 32 f) 0) as [b0|e] eqn:E0; [|discriminate].
  cbn [mbind result_bind] in H.
  assert (index (take 32 f') 0 = Ok b0) as ->.
  { unfold index in *. rewrite lookup_take_lt in E0 |- * by lia.
    rewrite <- (lookup_take_lt f' m), Hpre, lookup_take_lt by lia. done. }
  cbn [mbind result_bind].
  destruct (decide (b0 = x0d)).
  { injection H as <- <-. do 2 f_equal.
    replace (length acc - length acc + 1)%nat with 1%nat by lia. done. }
  destruct (strip_nul <$> decode_ascii (slice 0 11 (take 32 f))) as [nm|] eqn:En;
    [|discriminate].
  cbn [mbind result_bind] in H.
  destruct (index (take 32 f) 11) as [ty|] eqn:E11; [|discriminate].
  cbn [mbind result_bind] in H.
  destruct (index (take 32 f) 16) as [ln|] eqn:E16; [|discriminate].
  cbn [mbind result_bind] in H.
  destruct (index (take 32 f) 17) as [dc|] eqn:E17; [|discriminate].
  cbn [mbind result_bind] in H.
  pose proof (read_fields_Ok _ _ _ _ _ H) as (k & Hlen & _ & _).
  rewrite length_app in Hlen. cbn in Hlen.
  assert (take 32 f' = take 32 f) as ->.
  { transitivity (take 32 (take m f')).
    - rewrite take_take. f_equal. lia.
    - rewrite Hpre, take_take. f_equal. lia. }
  rewrite En, E11, E16, E17. cbn [mbind result_bind].
  rewrite (IH _ _ fuel' (drop 32 f') (m - 32)%nat H).
  - do 2 f_equal. rewrite drop_drop, length_app. cbn [length]. f_equal. lia.
  - rewrite <- !skipn_firstn_comm. by rewrite Hpre.
  - rewrite length_app. cbn. lia.
  - rewrite length_app. cbn. lia.
Qed.

(** Reading the header [write_dbf] built gives back the count and the two
    lengths. *)
Lemma read_header_built h today hdr :
  build_header h today = Ok hdr ->
  exists h',
    read_header hdr = Ok h'
    /\ Header.num_records h' = Header.num_records h
    /\ Header.header_length h' = Header.header_length h
    /\ Header.record_length h' = Header.record_length h.
Proof.
  intros H.
  pose proof (build_header_slices _ _ _ [] H) as (L & Hc & Hh & Hr & _).
  rewrite app_nil_r in Hc, Hh, Hr.
  unfold read_header, index.
  destruct (lookup_lt_is_Some_2 hdr 0) as [b0 ->]; [lia|].
  destruct (lookup_lt_is_Some_2 hdr 1) as [b1 ->]; [lia|].
  destruct (lookup_lt_is_Some_2 hdr 2) as [b2 ->]; [lia|].
  destruct (lookup_lt_is_Some_2 hdr 3) as [b3 ->]; [lia|].
  cbn [mbind result_bind]. rewrite Hc, Hh, Hr. cbn [mbind result_bind].
  eexists. split; [reflexivity|]. done.
Qed.

(** Reading back what was committed.  The file [write_dbf] wrote loads
    again with the same descriptors, lengths and the new count, but its
    records are cut from the record area 31 bytes past its start: the read
    of the terminator took a whole 32-byte block where one byte was
    written. *)
Theorem read_back_is_shifted
    (fertilizers : list dict) db_path stamp today w w' data db db' k :
  files w !! db_path = Some data ->
  read_dbf db_path data = Ok db ->
  add_new fertilizers db 0 = Ok (db', k) ->
  write_dbf db' stamp today w = (w', Ok ()) ->
  exists out db2,
    files w' !! db_path = Some out
    /\ read_dbf db_path out = Ok db2
    /\ field_descriptors db2 = field_descriptors db
    /\ Header.num_records (header db2) = Header.num_records (header db) + N.of_nat k
    /\ Header.header_length (header db2) = Header.header_length (header db)
    /\ Header.record_length (header db2) = Header.record_length (header db)
    /\ records db2
       = read_records (N.to_nat (Header.num_records (header db2)))
           (N.to_nat (Header.record_length (header db2)))
           (drop 31 (concat (records db') ++ [x1a])).
Proof.
  intros Hfile Hread Hadd Hwrite.
  pose proof (read_dbf_Ok _ _ _ Hread) as (Hpath & _ & f & Hf & _).
  apply add_new_Ok in Hadd as (Hpath' & _ & Hhl' & Hrl' & _ & Hnum & _).
  rewrite Hpath in Hpath'. rewrite <- Hpath' in *.
  replace (k - 0)%nat with k in Hnum by lia.
  destruct (write_dbf_returns _ _ _ _ _ Hwrite) as (hdr & _ & Hhdr & _).
  pose proof (build_header_slices _ _ _ [] Hhdr) as (Lhdr & _).
  destruct (read_header_built _ _ _ Hhdr) as (h2 & Hh2 & Hn2 & Hl2 & Hr2).
  set (n := length (field_descriptors db)).
  set (body := concat (records db') ++ [x1a]).
  set (descs := take (32 * n) (drop 32 data)).
  pose proof (read_fields_Ok _ _ _ _ _ Hf) as (k' & Hk' & _ & Hlen).
  cbn in Hk'. subst k'. fold n in Hlen.
  pose proof (read_fields_layout _ _ _ _ _ Hf) as (new & Hnew & Hterm & _).
  cbn in Hnew. subst new. fold n in Hterm.
  assert (length descs = (32 * n)%nat) as Ltake.
  { unfold descs. rewrite length_take. lia. }
  assert (files w' !! dbf_path db' = Some (hdr ++ descs ++ [x0d] ++ body)) as Hout.
  { rewrite (write_dbf_layout _ _ _ _ _ _ _ _ Hfile Hf Hhdr) in Hwrite.
    injection Hwrite as <-. unfold files at 1. cbv beta iota.
    rewrite lookup_insert_eq. do 3 f_equal. unfold slice, descs. f_equal.
    unfold n. lia. }
  exists (hdr ++ descs ++ [x0d] ++ body). eexists. split; [exact Hout|].
  assert (read_fields (S (length (descs ++ [x0d] ++ body)))
            (descs ++ [x0d] ++ body) []
          = Ok (field_descriptors db, drop 31 body)) as Hback.
  { rewrite (read_fields_prefix _ _ _ _ _ _ _ (32 * n + 1)%nat Hf).
    - do 2 f_equal. cbn [length]. rewrite Nat.sub_0_r. fold n.
      replace (32 * (n + 1))%nat with (32 * n + 32)%nat by lia.
      rewrite <- drop_drop. rewrite drop_app_length' by done. reflexivity.
    - rewrite take_app_add' by done. rewrite Nat.add_1_r.
      by rewrite (take_S_r _ _ _ Hterm).
    - cbn [length]. fold n. lia.
    - cbn [length]. fold n. rewrite length_app, Ltake. lia. }
  unfold read_dbf.
  rewrite take_app_length' by done. rewrite Hh2.
  rewrite drop_app_length' by done.
  unfold mbind at 1, result_bind at 1. rewrite Hback.
  unfold mbind, result_bind.
  split; [reflexivity|]. cbn [field_descriptors header records].
  rewrite Hn2, Hl2, Hr2, Hnum, Hhl', Hrl'. done.
Qed.

End Commit.

(** ** The batch in memory *)

Section Batch.
Import AddFertilizers.
Context `{rt : PyRuntime}.

Lemma new_record_active (db : DBFWriter) (field_values : dict) (record : bytes) :
  new_record db field_values = Ok record -> head record = Some x20.
Proof.
  unfold new_record, bytearray. intros H.
  destruct (N.to_nat (Header.record_length (header db))) as [|n]; [discriminate|].
  cbn [replicate] in H. rewrite set_byte_first in H. cbn [mbind result_bind] in H.
  apply (fill_fields_prefix _ _ _ _ _ 1%nat) in H; [|lia|cbn; lia].
  destruct record; [discriminate H|]. by injection H as ->.
Qed.

(** The name field of a record built on a table whose first field is the
    80-byte character field [Name]. *)
Lemma new_record_name (db : DBFWriter) (fert : dict) (s : pystr) (dec : N)
    (others : list Field.t) (record : bytes) :
  field_descriptors db = Field.mk (str_of "Name") 67 80 dec :: others ->
  fert !! str_of "Name" = Some (VStr s) ->
  ascii_text s -> (length s <= 80)%nat -> strip s = s ->
  new_record db fert = Ok record ->
  record_name record = s.
Proof.
  intros Hfields Hname Hascii Hlen Hstrip. unfold new_record, bytearray.
  rewrite Hfields. intros H.
  destruct (N.to_nat (Header.record_length (header db))) as [|n]; [discriminate|].
  cbn [replicate] in H. rewrite set_byte_first in H. cbn [mbind result_bind] in H.
  cbn [fill_fields Field.name Field.type Field.length Field.decimal] in H.
  rewrite Hname in H. cbn [default from_option id] in H.
  set (padded := map byte_of_N (s ++ replicate (80 - length s) 32)).
  assert (format_value (VStr s) 67 80 dec = Ok padded) as Hfmt.
  { unfold format_value. destruct (decide (67 = 78)); [done|].
    destruct (decide (67 = 67)); [|done]. cbn [is_None py_str mbind result_bind].
    rewrite encode_ascii_ignore_ascii by done. f_equal.
    rewrite take_ge by (rewrite length_map; lia).
    unfold ljust, padded. by rewrite length_map, map_app, map_replicate. }
  rewrite Hfmt in H. cbn [mbind result_bind] in H.
  assert (length padded = 80%nat) as Lp.
  { unfold padded. rewrite length_map, length_app, length_replicate. lia. }
  apply (fill_fields_prefix _ _ _ _ _ 81%nat) in H.
  - unfold record_name. rewrite <- (slice_take 1 81 81) by lia. rewrite H.
    unfold slice_assign. cbn [length Nat.min take]. rewrite take_0. cbn [app].
    change (slice 1 81 (take 81 (x20 :: padded ++ ?l)))
      with (take 80 (take 80 (padded ++ l))).
    rewrite take_take, take_app_length' by done.
    unfold padded. rewrite decode_encode_ascii.
    + by apply strip_padded.
    + apply Forall_app. split; [done|]. by apply Forall_replicate.
  - cbn. lia.
  - unfold slice_assign. rewrite !length_app, length_take. cbn [length]. lia.
Qed.

Lemma add_new_records (fertilizers : list dict) (db : DBFWriter)
    (added : nat) (db' : DBFWriter) (added' : nat) :
  add_new fertilizers db added = Ok (db', added') ->
  exists new,
    records db' = records db ++ new
    /\ length new = (added' - added)%nat
    /\ (added' - added <= length fertilizers)%nat
    /\ Forall (fun record => head record = Some x20) new
    /\ field_descriptors db' = field_descriptors db.
Proof.
  revert db added. induction fertilizers as [|fert rest IH]; intros db added H.
  - injection H as <- <-. exists []. rewrite app_nil_r, Nat.sub_diag.
    repeat split; [cbn; lia|constructor].
  - cbn [add_new] in H.
    destruct (fert !! str_of "Name"); [|discriminate]. cbn [mbind result_bind] in H.
    destruct (record_exists_value (records db) v) as [[|]|]; [..|discriminate];
      cbn [mbind result_bind] in H.
    + apply IH in H as (new & ? & ? & ? & ? & ?). exists new.
      repeat split; try done. cbn [length]. lia.
    + destruct (add_record db fert) as [db1|] eqn:E; [|discriminate].
      cbn [mbind result_bind] in H.
      pose proof (add_new_Ok _ _ _ _ _ H) as (_ & _ & _ & _ & Hle & _).
      apply IH in H as (new & -> & Hlen & Hmax & Hact & ->).
      apply add_record_Ok in E as (_ & -> & _ & _ & _ & r & Hr & ->).
      exists (r :: new). rewrite <- app_assoc. repeat split; try done.
      * cbn [length]. lia.
      * cbn [length]. lia.
      * constructor; [by apply new_record_active in Hr|done].
Qed.

(** C3.  After a batch that added [k] records to a loaded table, a
    committed rewrite carries the original [header_length] and
    [record_length] and a [record_count] that is the original count plus
    [k], and [k] is the number of records the batch appended: the instance
    holds the loaded records followed by [k] new ones, and the rewritten
    file holds, after the header, the descriptors and the terminator, the
    loaded records, then the [k] new ones, then [0x1A]. *)
Theorem commit_preserves_header_fields
    (fertilizers : list dict) db_path stamp today w w' data db db' k :
  files w !! db_path = Some data ->
  read_dbf db_path data = Ok db ->
  add_new fertilizers db 0 = Ok (db', k) ->
  write_dbf db' stamp today w = (w', Ok ()) ->
  exists out count new front,
    files w' !! db_path = Some out
    /\ unpack_H (slice 8 10 out) = unpack_H (slice 8 10 data)
    /\ unpack_H (slice 10 12 out) = unpack_H (slice 10 12 data)
    /\ unpack_I (slice 4 8 data) = Ok count
    /\ unpack_I (slice 4 8 out) = Ok (count + N.of_nat k)
    /\ records db' = records db ++ new
    /\ length new = k
    /\ length front = (32 * (length (field_descriptors db) + 1) + 1)%nat
    /\ out = front ++ concat (records db) ++ concat new ++ [x1a].
Proof.
  intros Hfile Hread Hadd Hwrite.
  pose proof (read_dbf_Ok _ _ _ Hread) as (Hpath & Hhdr & f & Hf & _).
  apply read_header_fields in Hhdr as (Hc & Hh & Hr).
  rewrite slice_take in Hc, Hh, Hr by lia.
  destruct (add_new_records _ _ _ _ _ Hadd) as (new & Hrec & Hlen & _).
  apply add_new_Ok in Hadd as (Hpath' & _ & Hhl & Hrl & _ & Hnum & _).
  rewrite Hpath in Hpath'. rewrite <- Hpath' in Hfile.
  destruct (write_dbf_returns _ _ _ _ _ Hwrite) as (hdr & _ & Hbuild & _).
  rewrite (write_dbf_layout _ _ _ _ _ _ _ _ Hfile Hf Hbuild) in Hwrite.
  injection Hwrite as <-.
  pose proof (read_fields_Ok _ _ _ _ _ Hf) as (n & Hn & _ & Hsize).
  cbn in Hn. subst n. rewrite length_drop in Hsize.
  set (blocks := slice 32 (32 * (length (field_descriptors db) + 1)) data).
  pose proof (build_header_slices _ _ _
                (blocks ++ [x0d] ++ concat (records db') ++ [x1a]) Hbuild)
    as (Lhdr & Hc' & Hh' & Hr' & _).
  exists (hdr ++ blocks ++ [x0d] ++ concat (records db') ++ [x1a]),
    (Header.num_records (header db)), new, (hdr ++ blocks ++ [x0d]).
  split; [unfold files at 1; rewrite Hpath'; apply lookup_insert_eq|].
  rewrite Hc', Hh', Hr', Hc, Hh, Hr, Hhl, Hrl, Hnum.
  replace (k - 0)%nat with k in * by lia.
  repeat (split; [done|]). split.
  - rewrite !length_app, Lhdr. unfold blocks, slice.
    rewrite length_take, length_drop. cbn [length]. lia.
  - rewrite Hrec, concat_app, <- !app_assoc. reflexivity.
Qed.

(** [add_new] only appends: the records it started from stay first and in
    order, every record it adds is active, as many are added as it counts
    (at most one for each candidate), the count in the header grows by the
    same number, and the field descriptors are untouched. *)
Theorem add_new_appends (fertilizers : list dict) (db : DBFWriter)
    (added : nat) (db' : DBFWriter) (added' : nat) :
  add_new fertilizers db added = Ok (db', added') ->
  exists new,
    records db' = records db ++ new
    /\ (added <= added')%nat
    /\ length new = (added' - added)%nat
    /\ (length new <= length fertilizers)%nat
    /\ Forall (fun record => head record = Some x20) new
    /\ Header.num_records (header db')
       = Header.num_records (header db) + N.of_nat (length new)
    /\ field_descriptors db' = field_descriptors db.
Proof.
  intros H.
  destruct (add_new_records _ _ _ _ _ H) as (new & Hrec & Hlen & Hmax & Hact & Hf).
  destruct (add_new_Ok _ _ _ _ _ H) as (_ & _ & _ & _ & Hle & Hnum & _).
  exists new. rewrite Hlen. by repeat (split; [done|]).
Qed.

Lemma record_exists_value_str records s :
  record_exists_value records (VStr s) = Ok (record_exists records s).
Proof. reflexivity. Qed.

(** After the loop every findable candidate of the batch is found on the
    instance, so a second pass over the same batch adds nothing. *)
Theorem batch_then_all_found (fertilizers : list dict) (db : DBFWriter)
    (added : nat) (db' : DBFWriter) (added' : nat) (dec : N)
    (others : list Field.t) :
  field_descriptors db = Field.mk (str_of "Name") 67 80 dec :: others ->
  Forall findable fertilizers ->
  add_new fertilizers db added = Ok (db', added') ->
  Forall (fun fert : dict =>
            exists s, fert !! str_of "Name" = Some (VStr s)
                      /\ record_exists (records db') s = true) fertilizers
  /\ add_new fertilizers db' 0 = Ok (db', 0%nat).
Proof.
  intros Hfields Hgood Hadd.
  assert (Forall (fun fert : dict =>
            exists s, fert !! str_of "Name" = Some (VStr s)
                      /\ record_exists (records db') s = true) fertilizers)
    as Hfound; [|split; [done|by apply add_new_all_present]].
  revert db added Hfields Hadd.
  induction Hgood as [|fert rest (s & Hname & Hascii & Hlen & Hstrip) _ IH];
    intros db added Hfields Hadd; [constructor|].
  cbn [add_new] in Hadd. rewrite Hname in Hadd.
  cbn [mbind result_bind] in Hadd. rewrite record_exists_value_str in Hadd.
  cbn [mbind result_bind] in Hadd.
  assert (forall db1 c, add_new rest db1 c = Ok (db', added') ->
            record_exists (records db1) s = true ->
            record_exists (records db') s = true) as Hmono.
  { intros db1 c H1 Hs. apply add_new_records in H1 as (new & -> & _).
    rewrite record_exists_app, Hs. done. }
  destruct (record_exists (records db) s) eqn:Hs.
  - constructor; [exists s; eauto|]. by apply (IH db added).
  - destruct (add_record db fert) as [db1|] eqn:E; [|discriminate].
    cbn [mbind result_bind] in Hadd.
    apply add_record_Ok in E as (_ & Hf1 & _ & _ & _ & r & Hr & Hrec).
    constructor.
    + exists s. split; [done|]. apply (Hmono _ _ Hadd).
      rewrite Hrec, record_exists_app, record_exists_cons.
      apply orb_true_iff. right. apply orb_true_iff. left.
      apply bool_decide_eq_true. split.
      * rewrite (new_record_active _ _ _ Hr). discriminate.
      * by rewrite (new_record_name _ _ _ _ _ _ Hfields Hname Hascii Hlen Hstrip Hr).
    + apply (IH db1 (S added)); [by rewrite Hf1|done].
Qed.

(** A candidate without a [Name] stops the batch with an exception before
    anything is renamed or written, whatever else the batch holds. *)
Theorem missing_name_writes_nothing
    (fertilizers : list dict) (fert : dict) (db_path stamp : string)
    (today : Date.t) (w : World) (data : bytes) :
  files w !! db_path = Some data ->
  fert ∈ fertilizers ->
  fert !! str_of "Name" = None ->
  exists e, add_fertilizers fertilizers db_path stamp today w = (w, Raise e).
Proof.
  intros Hfile Hin Hname. unfold add_fertilizers. rewrite Hfile.
  destruct (read_dbf db_path data) as [db|e]; [|by exists e].
  cbn [mbind result_bind].
  assert (forall db c, exists e, add_new fertilizers db c = Raise e) as Hraise.
  { clear -Hin Hname. induction fertilizers as [|other rest IH];
      intros db c; [by apply elem_of_nil in Hin|].
    cbn [add_new]. apply elem_of_cons in Hin as [<-|Hin].
    - rewrite Hname. eexists. reflexivity.
    - specialize (IH Hin).
      destruct (other !! str_of "Name"); cbn [mbind result_bind];
        [|eexists; reflexivity].
      destruct (record_exists_value (records db) v) as [[|]|];
        cbn [mbind result_bind]; [apply IH| |eexists; reflexivity].
      destruct (add_record db other); cbn [mbind result_bind];
        [|eexists; reflexivity].
      apply IH. }
  destruct (Hraise db 0%nat) as [e ->]. by exists e.
Qed.

End Batch.

(** ** Field widths and character fields *)

Section FieldWidth.
Import AddFertilizers.
Context `{rt : PyRuntime}.

(** Whenever [format_value] returns, the field is encoded to exactly its
    width, except a logical field, which is always one byte whatever its
    width. *)
Theorem format_value_width (value : Value) (field_type field_length field_decimal : N)
    (b : bytes) :
  format_value value field_type field_length field_decimal = Ok b ->
  length b = if decide (field_type = 76) then 1%nat else N.to_nat field_length.
Proof.
  unfold format_value, spaces. intros H.
  destruct (decide (field_type = 78)) as [->|].
  - destruct (decide (78 = 76)); [done|].
    destruct (is_None value || eq_empty_str value).
    { injection H as <-. apply length_replicate. }
    match type of H with context [mbind _ ?m] => destruct m as [text|] end;
      cbn [mbind result_bind] in H.
    2:{ injection H as <-. apply length_replicate. }
    destruct (encode_ascii text) as [b0|]; cbn [mbind result_bind] in H;
      injection H as <-.
    + rewrite length_rjust, length_take. lia.
    + apply length_replicate.
  - destruct (decide (field_type = 67)) as [->|].
    { destruct (decide (67 = 76)); [done|].
      destruct (py_str _) as [text|]; [|discriminate].
      cbn [mbind result_bind] in H. injection H as <-.
      rewrite length_ljust, length_take. lia. }
    destruct (decide (field_type = 76)).
    + by destruct (truthy value); injection H as <-.
    + injection H as <-. apply length_replicate.
Qed.

(** A character field: characters that are not ASCII are dropped, the rest
    is cut to the width and padded with spaces on the right; [None] gives
    all spaces.  Text that is ASCII, fits the width and has no surrounding
    whitespace comes back from decoding and stripping the field. *)
Theorem character_field (s : pystr) (field_length field_decimal : N) :
  let width := N.to_nat field_length in
  let kept := take width (filter (fun c => is_ascii c = true) s) in
  format_value (VStr s) 67 field_length field_decimal
  = Ok (map byte_of_N (kept ++ replicate (width - length kept) 32))
  /\ format_value VNone 67 field_length field_decimal = Ok (spaces width)
  /\ (ascii_text s -> (length s <= width)%nat -> strip s = s ->
      forall b, format_value (VStr s) 67 field_length field_decimal = Ok b ->
                strip (decode_ascii_ignore b) = s).
Proof.
  intros width kept.
  assert (format_value (VStr s) 67 field_length field_decimal
          = Ok (map byte_of_N (kept ++ replicate (width - length kept) 32))) as Hs.
  { unfold format_value. destruct (decide (67 = 78)); [done|].
    destruct (decide (67 = 67)); [|done]. cbn [is_None py_str mbind result_bind]. f_equal.
    unfold ljust, encode_ascii_ignore. fold width.
    rewrite map_app, map_replicate. unfold kept.
    rewrite <- !firstn_map, length_take, !length_map, length_take. done. }
  split; [exact Hs|]. split.
  - unfold format_value. destruct (decide (67 = 78)); [done|].
    destruct (decide (67 = 67)); [|done]. cbn [is_None py_str mbind result_bind]. f_equal.
    unfold ljust, encode_ascii_ignore. cbn. by rewrite take_nil, Nat.sub_0_r.
  - intros Hascii Hlen Hstrip b Hb. rewrite Hs in Hb. injection Hb as <-.
    assert (kept = s) as ->.
    { unfold kept. rewrite take_ge.
      - clear -Hascii. induction Hascii as [|c s Hc _ IH]; [done|].
        rewrite filter_cons_True by done. by rewrite IH.
      - transitivity (length s); [apply length_filter|done]. }
    rewrite decode_encode_ascii.
    + by apply strip_padded.
    + apply Forall_app. split; [done|]. by apply Forall_replicate.
Qed.

End FieldWidth.

(** ** The docs variant: encoding a row *)

Section DocsRecord.
Import DocsAddFertilizers.
Context `{rt : PyRuntime}.

Lemma slice_assign_middle {A} (pre mid post v : list A) :
  slice_assign (pre ++ mid ++ post) (length pre) (length pre + length mid) v
  = pre ++ v ++ post.
Proof.
  unfold slice_assign. rewrite !length_app.
  replace (length pre `min` (length pre + (length mid + length post)))%nat
    with (length pre) by lia.
  replace (length pre `max` ((length pre + length mid)
             `min` (length pre + (length mid + length post))))%nat
    with (length pre + length mid)%nat by lia.
  rewrite take_app_length. f_equal. f_equal.
  rewrite drop_app_add' by done. by rewrite drop_app_length.
Qed.

Lemma length_format_string_field value n :
  length (format_string_field value n) = n.
Proof.
  unfold format_string_field, encode_ascii_replace.
  rewrite length_map, length_ljust, length_take. lia.
Qed.

(** [format_string_field] returns exactly [length] bytes, all ASCII: the
    text is cut to [length], padded with spaces, and every character that
    is not ASCII becomes [?].  On ASCII text it agrees with the character
    branch of [format_value] in the main script, which drops such
    characters instead. *)
Theorem format_string_field_spec (value : pystr) (n : nat) :
  length (format_string_field value n) = n
  /\ Forall (fun b => Byte.to_N b < 128) (format_string_field value n)
  /\ format_string_field value n
     = map (fun c => if is_ascii c then byte_of_N c else x3f)
         (take n value ++ replicate (n - length (take n value)) 32)
  /\ (ascii_text value ->
      forall field_decimal,
        AddFertilizers.format_value (VStr value) 67 (N.of_nat n) field_decimal
        = Ok (format_string_field value n)).
Proof.
  split; [apply length_format_string_field|]. split; [|split].
  - unfold format_string_field, encode_ascii_replace.
    apply Forall_map, Forall_forall. intros c _. cbn.
    destruct (is_ascii c) eqn:E; [|done].
    rewrite to_N_byte_of_N. apply N.ltb_lt in E. rewrite N.mod_small; lia.
  - reflexivity.
  - intros Hascii dec. unfold AddFertilizers.format_value.
    destruct (decide (67 = 78)); [done|]. destruct (decide (67 = 67)); [|done].
    cbn [is_None py_str mbind result_bind]. f_equal. rewrite Nat2N.id.
    rewrite encode_ascii_ignore_ascii by done.
    unfold format_string_field, encode_ascii_replace, ljust.
    rewrite map_app, map_replicate, !length_take, length_map.
    change (if is_ascii 32 then byte_of_N 32 else x3f) with x20.
    f_equal. rewrite <- firstn_map. f_equal.
    apply map_ext_Forall. eapply Forall_impl; [exact Hascii|].
    cbn. by intros c ->.
Qed.

Lemma format_numeric_field_fits value :
  fits_numeric value ->
  exists b, format_numeric_field value = Ok b /\ length b = 18%nat.
Proof.
  intros (x & Hx & Hlen). unfold format_numeric_field. rewrite Hx.
  cbn [mbind result_bind]. unfold format_f.
  rewrite encode_ascii_Ok.
  - eexists. split; [reflexivity|]. rewrite length_map, length_rjust. lia.
  - unfold rjust. apply Forall_app. split.
    + by apply Forall_replicate.
    + apply ascii_text_format_fixed.
Qed.

Lemma slice_assign_zeros (pre : bytes) k a m v :
  a = length pre -> (m <= k)%nat ->
  slice_assign (pre ++ replicate k x00) a (a + m) v
  = (pre ++ v) ++ replicate (k - m) x00.
Proof.
  intros -> Hm.
  replace (replicate k x00) with (replicate m x00 ++ replicate (k - m) x00)
    by (rewrite <- replicate_add; f_equal; lia).
  pose proof (slice_assign_middle pre (replicate m x00)
                (replicate (k - m) x00) v) as H.
  rewrite length_replicate in H. rewrite H. by rewrite <- app_assoc.
Qed.

(** The run of numeric stores over a zero-filled stretch of the buffer. *)
Lemma put_numeric_fits values : forall (pre : bytes) k a,
  a = length pre ->
  Forall fits_numeric values ->
  (18 * length values <= k)%nat ->
  exists texts,
    Forall2 (fun v b => format_numeric_field v = Ok b /\ length b = 18%nat)
      values texts
    /\ put_numeric values (pre ++ replicate k x00) a
       = Ok ((pre ++ concat texts) ++ replicate (k - 18 * length values) x00,
             (a + 18 * length values)%nat).
Proof.
  induction values as [|v values IH]; intros pre k a Ha Hfit Hk.
  - exists []. split; [constructor|]. cbn.
    by rewrite Nat.sub_0_r, Nat.add_0_r, app_nil_r.
  - apply Forall_cons in Hfit as [Hv Hfit]. cbn [length] in Hk.
    destruct (format_numeric_field_fits v Hv) as (b & Hb & Lb).
    cbn [put_numeric]. rewrite Hb. cbn [mbind result_bind].
    rewrite slice_assign_zeros by (done || lia).
    destruct (IH (pre ++ b) (k - 18)%nat (a + 18)%nat) as (texts & Htexts & ->);
      [by rewrite length_app, Lb, Ha|done|lia|].
    exists (b :: texts). split; [by constructor|].
    cbn [concat length]. rewrite <- !app_assoc.
    replace (k - 18 - 18 * length values)%nat
      with (k - 18 * S (length values))%nat by lia.
    replace (a + 18 + 18 * length values)%nat
      with (a + 18 * S (length values))%nat by lia.
    done.
Qed.

Lemma length_numeric_values purity nutrients isliquid density cost :
  length (numeric_values purity nutrients isliquid density cost) = 20%nat.
Proof.
  unfold numeric_values, nutrient_keys. rewrite !length_app, length_map.
  reflexivity.
Qed.

Lemma create_fertilizer_record_fits
    (name formula source : pystr) (purity : Value) (nutrients : gmap pystr Value)
    (isliquid density cost : Value) (conctype : pystr) :
  Forall fits_numeric (numeric_values purity nutrients isliquid density cost) ->
  exists texts record,
    Forall2 (fun v b => format_numeric_field v = Ok b /\ length b = 18%nat)
      (numeric_values purity nutrients isliquid density cost) texts
    /\ create_fertilizer_record name formula source purity nutrients
         isliquid density cost conctype = Ok record
    /\ record = [x20] ++ format_string_field name 80
                ++ format_string_field formula 80
                ++ format_string_field source 80
                ++ concat texts ++ format_string_field conctype 80
    /\ length record = 681%nat.
Proof.
  intros Hfit. unfold create_fertilizer_record, bytearray.
  change (replicate 681 x00) with ([x00] ++ replicate 680 x00).
  cbn [app]. rewrite set_byte_first. cbn [mbind result_bind].
  pose proof (length_format_string_field name 80) as Ln.
  pose proof (length_format_string_field formula 80) as Lf.
  pose proof (length_format_string_field source 80) as Ls.
  pose proof (length_format_string_field conctype 80) as Lc.
  pose proof (length_numeric_values purity nutrients isliquid density cost) as Lv.
  change (x20 :: replicate 680 x00) with ([x20] ++ replicate 680 x00).
  rewrite (slice_assign_zeros [x20] 680) by (done || lia).
  rewrite (slice_assign_zeros _ (680 - 80))
    by (rewrite ?length_app, ?Ln; cbn; lia).
  rewrite (slice_assign_zeros _ (680 - 80 - 80))
    by (rewrite ?length_app, ?Ln, ?Lf; cbn; lia).
  match goal with
  | |- context [put_numeric ?l _ _] =>
      change l with (numeric_values purity nutrients isliquid density cost)
  end.
  destruct (put_numeric_fits
              (numeric_values purity nutrients isliquid density cost)
              ((([x20] ++ format_string_field name 80)
                ++ format_string_field formula 80)
               ++ format_string_field source 80)
              (680 - 80 - 80 - 80) (0 + 1 + 80 + 80 + 80))
    as (texts & Htexts & ->);
    [rewrite !length_app, Ln, Lf, Ls; reflexivity|done|rewrite Lv; cbn; lia|].
  assert (length (concat texts) = 360%nat) as Lconcat.
  { assert (length (concat texts) = (18 * length texts)%nat) as ->.
    { clear -Htexts. induction Htexts as [|v b vs bs [_ Lb] _ IH]; [done|].
      cbn [concat length]. rewrite length_app, Lb, IH. lia. }
    rewrite <- (Forall2_length _ _ _ Htexts), Lv. reflexivity. }
  exists texts. eexists. split; [exact Htexts|].
  cbn [mbind result_bind]. rewrite Lv.
  change (681 - (0 + 1 + 80 + 80 + 80 + 18 * 20))%nat with 80%nat.
  change (680 - 80 - 80 - 80 - 18 * 20)%nat with 80%nat.
  rewrite slice_assign_zeros
    by (rewrite ?length_app, ?Ln, ?Lf, ?Ls, ?Lconcat; cbn; lia).
  split; [reflexivity|]. split.
  - cbn [replicate Nat.sub]. rewrite app_nil_r, <- !app_assoc. reflexivity.
  - rewrite !length_app, Ln, Lf, Ls, Lc, Lconcat. reflexivity.
Qed.

End DocsRecord.

(** ** The duplicate check of the docs script *)

Section DocsLookup.
Import AddFertilizers DocsAddFertilizers.
Context `{rt : PyRuntime}.

Lemma scan_records_map data hl rl name (idx : list nat) :
  let recs := map (fun i => slice (hl + i * rl) (hl + i * rl + rl) data) idx in
  (Forall (fun r => r <> []) recs ->
   scan_records data hl rl name idx = Ok (record_exists recs name))
  /\ (forall b, scan_records data hl rl name idx = Ok b ->
            b = record_exists recs name)
  /\ (forall e, scan_records data hl rl name idx = Raise e ->
            e = IndexError /\ [] ∈ recs).
Proof.
  induction idx as [|i idx (IH1 & IH2 & IH3)]; cbn zeta.
  - split; [done|]. split; [by intros b [= <-]|]. intros e [=].
  - cbn [map scan_records]. rewrite record_exists_cons.
    set (r := slice (hl + i * rl) (hl + i * rl + rl) data).
    destruct r as [|b r'] eqn:Hr; cbn [index lookup list_lookup mbind result_bind head].
    + split; [by intros [? _]%Forall_cons|]. split; [intros b [=]|].
      intros e [= <-]. split; [done|left].
    + destruct (decide (b = x2a)) as [->|Hb].
      * rewrite bool_decide_eq_false_2 by (by intros [? _]). cbn [orb].
        split; [intros [_ ?]%Forall_cons; by apply IH1|]. split; [done|].
        intros e He. destruct (IH3 e He) as [-> ?]. split; [done|by right].
      * unfold record_name.
        destruct (decide (lower (strip (decode_ascii_ignore (slice 1 81 (b :: r'))))
                          = lower name)) as [Hn|Hn].
        -- rewrite bool_decide_eq_true_2 by (split; [congruence|done]).
           split; [done|]. split; [by intros ? [= <-]|]. intros e [=].
        -- rewrite bool_decide_eq_false_2 by (by intros [_ ?]). cbn [orb].
           split; [intros [_ ?]%Forall_cons; by apply IH1|]. split; [done|].
           intros e He. destruct (IH3 e He) as [-> ?]. split; [done|by right].
Qed.

Lemma fertilizer_exists_scan (fs : FS) (dbf_path : string) (data : bytes)
    (name : pystr) :
  fs !! dbf_path = Some data ->
  (12 <= length data)%nat ->
  fertilizer_exists fs dbf_path name
  = scan_records data
      (N.to_nat (le_decode (slice 8 10 data)))
      (N.to_nat (le_decode (slice 10 12 data))) name
      (seq 0 (N.to_nat (le_decode (slice 4 8 data)))).
Proof.
  intros Hfile Hlen. unfold fertilizer_exists. rewrite Hfile.
  unfold unpack_H, unpack_I.
  assert (length (slice 8 10 data) = 2%nat) as ->
    by (unfold slice; rewrite length_take, length_drop; lia).
  assert (length (slice 10 12 data) = 2%nat) as ->
    by (unfold slice; rewrite length_take, length_drop; lia).
  assert (length (slice 4 8 data) = 4%nat) as ->
    by (unfold slice; rewrite length_take, length_drop; lia).
  reflexivity.
Qed.

(** The docs script's [fertilizer_exists] and the main script's
    [record_exists] are the same check: on a file of at least 12 bytes the
    docs check reads [header_length], [record_length] and the record count
    from bytes 8..9, 10..11 and 4..7, and whenever it returns its answer is
    [record_exists] on the records located at
    [header_length + i * record_length].  It returns when none of these
    records is empty; the only error it can raise on such a file is the
    [IndexError] of [record[0]] on an empty record (a record count the file
    is too short for, or a record length of 0). *)
Theorem fertilizer_exists_is_record_exists
    (fs : FS) (dbf_path : string) (data : bytes) (name : pystr) :
  fs !! dbf_path = Some data ->
  (12 <= length data)%nat ->
  let recs :=
    located_records data
      (N.to_nat (le_decode (slice 8 10 data)))
      (N.to_nat (le_decode (slice 10 12 data)))
      (N.to_nat (le_decode (slice 4 8 data))) in
  (Forall (fun r => r <> []) recs ->
   fertilizer_exists fs dbf_path name = Ok (record_exists recs name))
  /\ (forall b, fertilizer_exists fs dbf_path name = Ok b ->
            b = record_exists recs name)
  /\ (forall e, fertilizer_exists fs dbf_path name = Raise e ->
            e = IndexError /\ [] ∈ recs).
Proof.
  intros Hfile Hlen recs.
  rewrite (fertilizer_exists_scan _ _ _ _ Hfile Hlen).
  apply scan_records_map.
Qed.

End DocsLookup.

(** ** The update of the docs script *)

Section DocsUpdate.
Import DocsAddFertilizers.
Context `{rt : PyRuntime}.

Lemma format_numeric_field_Ok value x :
  to_float value = Ok x ->
  format_numeric_field value = Ok (map byte_of_N (format_f x 18 8)).
Proof.
  intros Hx. unfold format_numeric_field. rewrite Hx.
  cbn [mbind result_bind]. apply encode_ascii_Ok.
  unfold format_f, rjust. apply Forall_app. split.
  - by apply Forall_replicate.
  - apply ascii_text_format_fixed.
Qed.

Lemma format_numeric_field_wide value b :
  format_numeric_field value = Ok b -> (18 <= length b)%nat.
Proof.
  destruct (to_float value) as [x|e] eqn:Hx.
  - rewrite (format_numeric_field_Ok _ _ Hx). intros [= <-].
    unfold format_f. rewrite length_map, length_rjust. lia.
  - unfold format_numeric_field. by rewrite Hx.
Qed.

Lemma slice_assign_head {A} (l v : list A) a b :
  l <> [] -> (1 <= a)%nat -> head (slice_assign l a b v) = head l.
Proof.
  intros Hl Ha. unfold slice_assign.
  destruct l as [|x l]; [done|]. cbn [length].
  destruct a as [|a]; [lia|]. reflexivity.
Qed.

Lemma put_numeric_grows values : forall (record : bytes) offset record' offset',
  put_numeric values record offset = Ok (record', offset') ->
  record <> [] -> (1 <= offset)%nat ->
  head record' = head record /\ (length record <= length record')%nat
  /\ offset' = (offset + 18 * length values)%nat.
Proof.
  induction values as [|v values IH]; intros record offset record' offset'.
  - intros [= <- <-] _ _. cbn. split; [done|]. split; lia.
  - cbn [put_numeric]. destruct (format_numeric_field v) as [b|e] eqn:Hb; [|done].
    cbn [mbind result_bind]. intros Hput Hne Hoff.
    pose proof (format_numeric_field_wide _ _ Hb) as Lb.
    pose proof (length_slice_assign record offset (offset + 18) b) as Hlen.
    apply IH in Hput as (Hh & Hl & ->); [| |lia].
    + rewrite Hh, slice_assign_head by done. split; [done|].
      cbn [length]. split; lia.
    + intros E. rewrite E in Hlen. cbn [length] in Hlen.
      destruct record; [done|]. cbn [length] in Hlen. lia.
Qed.

Lemma create_fertilizer_record_bounds
    (name formula source : pystr) (purity : Value) (nutrients : gmap pystr Value)
    (isliquid density cost : Value) (conctype : pystr) (record : bytes) :
  create_fertilizer_record name formula source purity nutrients
    isliquid density cost conctype = Ok record ->
  head record = Some x20 /\ (681 <= length record)%nat.
Proof.
  unfold create_fertilizer_record, bytearray.
  change (replicate 681 x00) with (x00 :: replicate 680 x00).
  rewrite set_byte_first. cbn [mbind result_bind].
  set (r3 := slice_assign (slice_assign (slice_assign _ _ _ _) _ _ _) _ _ _).
  assert (head r3 = Some x20 /\ length r3 = 681%nat) as [Hh3 Hl3].
  { subst r3. rewrite !slice_assign_head; first (split; [done|]).
    - rewrite !length_slice_assign, !length_format_string_field by lia.
      cbn [length]. rewrite length_replicate. reflexivity.
    - done.
    - lia.
    - intros E. apply (f_equal length) in E. revert E.
      rewrite length_slice_assign by lia. cbn. lia.
    - lia.
    - intros E. apply (f_equal length) in E. revert E.
      rewrite !length_slice_assign, length_format_string_field by lia.
      cbn. lia.
    - lia. }
  destruct (put_numeric _ r3 _) as [[r4 offset]|e] eqn:Hput; [|done].
  cbn [mbind result_bind]. intros [= <-].
  apply put_numeric_grows in Hput as (Hh4 & Hl4 & ->);
    [| by intros E; rewrite E in Hl3 | lia].
  rewrite slice_assign_head; [|intros E; rewrite E in Hl4; cbn in Hl4; lia|lia].
  split; [congruence|].
  rewrite length_slice_assign, length_format_string_field by lia.
  pose proof (length_numeric_values purity nutrients isliquid density cost) as Lv.
  unfold numeric_values in Lv. rewrite Lv. lia.
Qed.

(** Whenever [create_fertilizer_record] returns, the record starts with
    the status byte [0x20] and has at least 681 bytes.  When every numeric
    argument fits its 18 bytes, it returns, and the record is the status
    byte, the three 80-byte texts, the 20 numbers of 18 bytes each in the
    order purity, the 16 nutrients, isliquid, density, cost, and the 80-byte
    classification: 681 bytes. *)
Theorem create_fertilizer_record_layout
    (name formula source : pystr) (purity : Value) (nutrients : gmap pystr Value)
    (isliquid density cost : Value) (conctype : pystr) :
  (forall record,
     create_fertilizer_record name formula source purity nutrients
       isliquid density cost conctype = Ok record ->
     head record = Some x20 /\ (681 <= length record)%nat)
  /\ (Forall fits_numeric (numeric_values purity nutrients isliquid density cost) ->
      exists texts record,
        Forall2 (fun v b => format_numeric_field v = Ok b /\ length b = 18%nat)
          (numeric_values purity nutrients isliquid density cost) texts
        /\ create_fertilizer_record name formula source purity nutrients
             isliquid density cost conctype = Ok record
        /\ record = [x20] ++ format_string_field name 80
                    ++ format_string_field formula 80
                    ++ format_string_field source 80
                    ++ concat texts ++ format_string_field conctype 80
        /\ length record = 681%nat).
Proof.
  split.
  - apply create_fertilizer_record_bounds.
  - apply create_fertilizer_record_fits.
Qed.

Lemma slice_assign_lookup_out {A} (l v : list A) a b i :
  length v = (b - a)%nat -> (a <= b)%nat -> (b <= length l)%nat ->
  (i < a \/ b <= i)%nat ->
  slice_assign l a b v !! i = l !! i.
Proof.
  intros Lv Hab Hb Hi. unfold slice_assign.
  replace (Nat.min a (length l)) with a by lia.
  replace (Nat.max a (Nat.min b (length l))) with b by lia.
  destruct Hi as [Hi|Hi].
  - rewrite lookup_app_l by (rewrite length_take; lia).
    apply lookup_take_lt. lia.
  - rewrite lookup_app_r by (rewrite length_take; lia).
    rewrite lookup_app_r by (rewrite length_take; lia).
    rewrite length_take, lookup_drop. f_equal. lia.
Qed.

(** What the loop of the docs update does to the image, the record count
    and the counter, whenever it ends. *)
Lemma append_new_inv fs dbf_path fertilizers :
  forall (data : bytes) num_records added_count data' num_records' added_count',
  append_new fs dbf_path fertilizers data num_records added_count
  = Ok (data', num_records', added_count') ->
  added_count'
  = (added_count + length (List.filter (absent fs dbf_path) fertilizers))%nat
  /\ num_records'
     = num_records + N.of_nat (length (List.filter (absent fs dbf_path) fertilizers))
  /\ (forall m, (m <= length data - 1)%nat -> take m data' = take m data)
  /\ (length data - 1 <= length data')%nat.
Proof.
  induction fertilizers as [|fert rest IH];
    intros data n a data' n' a'.
  - intros [= <- <- <-]. cbn. split; [lia|]. split; [lia|]. split; [done|lia].
  - cbn [append_new List.filter].
    destruct (fertilizer_exists fs dbf_path (name fert)) as [[|]|e] eqn:Hex;
      [| |done]; cbn [mbind result_bind].
    + assert (absent fs dbf_path fert = false) as ->
        by (unfold absent; by rewrite Hex).
      apply IH.
    + assert (absent fs dbf_path fert = true) as ->
        by (unfold absent; by rewrite Hex).
      destruct (create_fertilizer_record _ _ _ _ _ _ _ _ _) as [record|e] eqn:Hrec;
        [|done]. cbn [mbind result_bind].
      apply create_fertilizer_record_bounds in Hrec as [_ Lrec].
      destruct (index data (length data - 1)) as [last|e]; [|done].
      cbn [mbind result_bind]. intros Happ.
      apply IH in Happ as (-> & -> & Hpre & Hlen).
      assert (length data - 1
              <= length (if decide (last = x1a)
                         then take (length data - 1) data else data))%nat as Lcut
        by (destruct (decide _); rewrite ?length_take; lia).
      rewrite length_app in Hpre, Hlen.
      cbn [length]. split; [lia|]. split; [lia|]. split; [|lia].
      intros m Hm. rewrite Hpre by lia.
      rewrite take_app_le by lia.
      destruct (decide _); [|done]. rewrite take_take. f_equal. lia.
Qed.

(** The steps of a docs update that gets as far as an image to write. *)
Lemma updated_image_Some fs dbf_path fertilizers today data image :
  updated_image fs dbf_path fertilizers today data = Ok (Some image) ->
  exists data1 k count d1 d2 d3,
    (12 <= length data)%nat
    /\ append_new fs dbf_path fertilizers data (le_decode (slice 4 8 data)) 0
       = Ok (data1, le_decode (slice 4 8 data) + N.of_nat k, k)
    /\ k = length (List.filter (absent fs dbf_path) fertilizers)
    /\ (0 < k)%nat
    /\ pack_I (le_decode (slice 4 8 data) + N.of_nat k) = Ok count
    /\ set_byte (slice_assign data1 4 8 count) 1 (Date.year today - 1900) = Ok d1
    /\ set_byte d1 2 (Date.month today) = Ok d2
    /\ set_byte d2 3 (Date.day today) = Ok d3
    /\ image = d3 ++ [x1a].
Proof.
  unfold updated_image, unpack_I, unpack_H.
  destruct (length (slice 4 8 data) =? 4)%nat eqn:L4; [|done].
  destruct (length (slice 8 10 data) =? 2)%nat eqn:L8; [|done].
  destruct (length (slice 10 12 data) =? 2)%nat eqn:L10; [|done].
  cbn [mbind result_bind].
  destruct (append_new _ _ _ _ _ _) as [[[data1 n1] k]|e] eqn:Happ; [|done].
  cbn [mbind result_bind].
  destruct (0 <? k)%nat eqn:Hk; [|done]. apply Nat.ltb_lt in Hk.
  pose proof (append_new_inv _ _ _ _ _ _ _ _ _ Happ) as (Hk' & Hn1 & _).
  cbn [Nat.add] in Hk'. subst n1. rewrite <- Hk' in *.
  destruct (pack_I _) as [count|e] eqn:Hcount; [|done]. cbn [mbind result_bind].
  destruct (set_byte _ 1 _) as [d1|e] eqn:H1; [|done]. cbn [mbind result_bind].
  destruct (set_byte _ 2 _) as [d2|e] eqn:H2; [|done]. cbn [mbind result_bind].
  destruct (set_byte _ 3 _) as [d3|e] eqn:H3; [|done]. cbn [mbind result_bind].
  intros [= <-]. exists data1, k, count, d1, d2, d3.
  apply Nat.eqb_eq in L10. unfold slice in L10.
  rewrite length_take, length_drop in L10.
  repeat (split; [first [done|lia]|]). done.
Qed.

(** The world after a docs update that reports success. *)
Lemma docs_update_true dbf_path fertilizers stamp today w w' :
  add_fertilizers_to_db dbf_path fertilizers stamp today w = (w', true) ->
  exists data image,
    files w !! dbf_path = Some data
    /\ updated_image (files w) dbf_path fertilizers today data = Ok (Some image)
    /\ w' = mkWorld
              (<[dbf_path := image]>
                 (<[backup_path_of dbf_path stamp := data]>
                    (delete dbf_path (files w))))
              (events w ++ [EvRename dbf_path (backup_path_of dbf_path stamp);
                            EvOpenWrite dbf_path]).
Proof.
  unfold add_fertilizers_to_db.
  destruct (files w !! dbf_path) as [data|]; [|done].
  destruct (bool_decide _); [done|].
  destruct (updated_image _ _ _ _ _) as [[image|]|e] eqn:Himage; [|done|done].
  intros [= <-]. by exists data, image.
Qed.

(** The image a docs update writes: byte 0 of the file, the three date
    bytes, the packed count, then everything the loop left from byte 8 on,
    then the end-of-file marker. *)
Lemma updated_image_bytes fs dbf_path fertilizers today data image :
  updated_image fs dbf_path fertilizers today data = Ok (Some image) ->
  exists data1 k version,
    (12 <= length data)%nat
    /\ append_new fs dbf_path fertilizers data (le_decode (slice 4 8 data)) 0
       = Ok (data1, le_decode (slice 4 8 data) + N.of_nat k, k)
    /\ k = length (List.filter (absent fs dbf_path) fertilizers)
    /\ (0 < k)%nat
    /\ le_decode (slice 4 8 data) + N.of_nat k < 2 ^ 32
    /\ (0 <= Date.year today - 1900 < 256)%Z
    /\ (0 <= Date.month today < 256)%Z
    /\ (0 <= Date.day today < 256)%Z
    /\ data !! 0%nat = Some version
    /\ (forall m, (m <= length data - 1)%nat -> take m data1 = take m data)
    /\ (length data - 1 <= length data1)%nat
    /\ image
       = [version;
          byte_of_N (Z.to_N (Date.year today - 1900));
          byte_of_N (Z.to_N (Date.month today));
          byte_of_N (Z.to_N (Date.day today))]
         ++ le_encode 4 (le_decode (slice 4 8 data) + N.of_nat k)
         ++ drop 8 data1 ++ [x1a].
Proof.
  intros Himage.
  apply updated_image_Some in Himage
    as (data1 & k & count & d1 & d2 & d3 & Hlen & Happ & Hk & Hpos & Hcount
        & H1 & H2 & H3 & ->).
  pose proof (append_new_inv _ _ _ _ _ _ _ _ _ Happ) as (_ & _ & Hpre & Hlen1).
  apply set_byte_Ok in H1 as (Hy & _ & ->).
  apply set_byte_Ok in H2 as (Hm & _ & ->).
  apply set_byte_Ok in H3 as (Hd & _ & ->).
  unfold pack_I in Hcount.
  destruct (_ <? 2 ^ 32) eqn:Hlt in Hcount; [|done].
  apply N.ltb_lt in Hlt. injection Hcount as <-.
  assert (data1 !! 0%nat = data !! 0%nat) as H0.
  { rewrite <- (lookup_take_lt data1 1 0), <- (lookup_take_lt data 1 0) by lia.
    by rewrite Hpre by lia. }
  destruct (data !! 0%nat) as [version|] eqn:Hv;
    [|apply lookup_ge_None in Hv; lia].
  exists data1, k, version.
  repeat (split; [first [done|lia]|]).
  unfold slice_assign.
  replace (Nat.min 4 (length data1)) with 4%nat by lia.
  replace (Nat.max 4 (Nat.min 8 (length data1))) with 8%nat by lia.
  remember (drop 8 data1) as tl eqn:Htl. clear Htl.
  destruct data1 as [|a0 [|a1 [|a2 [|a3 rest]]]];
    try (cbn [length] in Hlen1; lia).
  injection H0 as ->. reflexivity.
Qed.

(** A docs update that reports success is append-only on the file: the
    table is renamed to the backup, which holds the original bytes, and the
    new table has the original's byte 0 and every original byte from byte 8
    up to (not including) the last one, at the same offsets, and ends with
    [0x1A]; no other path is touched.  Header bytes 12..31, the field
    descriptors and the existing records are therefore written back as they
    were read. *)
Theorem docs_update_keeps_existing_bytes
    (dbf_path : string) (fertilizers : list Fertilizer) (stamp : string)
    (today : Date.t) (w w' : World) :
  add_fertilizers_to_db dbf_path fertilizers stamp today w = (w', true) ->
  exists data image,
    files w !! dbf_path = Some data
    /\ files w' !! dbf_path = Some image
    /\ files w' !! backup_path_of dbf_path stamp = Some data
    /\ (forall p, p <> dbf_path -> p <> backup_path_of dbf_path stamp ->
                  files w' !! p = files w !! p)
    /\ events w'
       = events w ++ [EvRename dbf_path (backup_path_of dbf_path stamp);
                      EvOpenWrite dbf_path]
    /\ (12 <= length data)%nat
    /\ image !! 0%nat = data !! 0%nat
    /\ (forall i, (8 <= i < length data - 1)%nat -> image !! i = data !! i)
    /\ last image = Some x1a.
Proof.
  intros Hrun.
  apply docs_update_true in Hrun as (data & image & Hfile & Himage & ->).
  apply updated_image_bytes in Himage
    as (data1 & k & version & Hlen & _ & _ & _ & _ & _ & _ & _ & Hv & Hpre
        & Hlen1 & ->).
  exists data. eexists. split; [done|].
  split; [unfold files at 1; apply lookup_insert_eq|]. split.
  { unfold files at 1.
    rewrite lookup_insert_ne by (symmetry; apply backup_path_fresh).
    apply lookup_insert_eq. }
  split.
  { intros p Hp Hb. unfold files at 1. rewrite !lookup_insert_ne by done.
    by rewrite lookup_delete_ne. }
  split; [done|]. split; [done|]. split; [by rewrite Hv|]. split.
  - intros i Hi.
    change ([version; ?y; ?m; ?d] ++ ?c ++ ?r)
      with (([version; y; m; d] ++ c) ++ r).
    rewrite app_assoc.
    rewrite lookup_app_l
      by (rewrite !length_app, length_le_encode, length_drop; cbn; lia).
    rewrite lookup_app_r by (rewrite length_app, length_le_encode; cbn; lia).
    rewrite length_app, length_le_encode, lookup_drop. cbn [length].
    replace (8 + (i - (4 + 4)))%nat with i by lia.
    rewrite <- (lookup_take_lt data1 (length data - 1) i),
            <- (lookup_take_lt data (length data - 1) i) by lia.
    by rewrite Hpre.
  - rewrite !app_assoc. apply last_snoc.
Qed.

(** A docs update that reports success has counted every row whose name
    the duplicate check did not find in the file as it was before the run,
    rows repeated in the batch included: that number is positive, the new
    count field is the old one plus that number, and header bytes 1..3 are
    the year minus 1900, the month and the day, each of which fits a byte. *)
Theorem docs_update_header
    (dbf_path : string) (fertilizers : list Fertilizer) (stamp : string)
    (today : Date.t) (w w' : World) :
  add_fertilizers_to_db dbf_path fertilizers stamp today w = (w', true) ->
  exists data image,
    files w !! dbf_path = Some data
    /\ files w' !! dbf_path = Some image
    /\ let k := length (List.filter (absent (files w) dbf_path) fertilizers) in
       (0 < k)%nat
       /\ unpack_I (slice 4 8 image)
          = Ok (le_decode (slice 4 8 data) + N.of_nat k)
       /\ (0 <= Date.year today - 1900 < 256)%Z
       /\ (0 <= Date.month today < 256)%Z
       /\ (0 <= Date.day today < 256)%Z
       /\ slice 1 4 image
          = [byte_of_N (Z.to_N (Date.year today - 1900));
             byte_of_N (Z.to_N (Date.month today));
             byte_of_N (Z.to_N (Date.day today))].
Proof.
  intros Hrun.
  apply docs_update_true in Hrun as (data & image & Hfile & Himage & ->).
  apply updated_image_bytes in Himage
    as (data1 & k & version & Hlen & _ & Hk & Hpos & Hlt & Hy & Hm & Hd & _ & _
        & _ & ->).
  exists data. eexists. split; [done|]. unfold files at 1.
  split; [apply lookup_insert_eq|]. cbv zeta. rewrite <- Hk.
  split; [done|]. split; [|by repeat (split; [assumption|])].
  change (slice 4 8 ([version; ?y; ?m; ?d] ++ ?c ++ ?r))
    with (take 4 (c ++ r)).
  rewrite take_app_length' by (symmetry; apply length_le_encode).
  unfold unpack_I. rewrite length_le_encode. cbn [Nat.eqb]. f_equal.
  rewrite le_decode_encode. apply N.mod_small. exact Hlt.
Qed.

Lemma put_numeric_raises values : forall (record : bytes) offset,
  Exists (fun v => exists e, to_float v = Raise e) values ->
  exists e, put_numeric values record offset = Raise e.
Proof.
  induction values as [|v values IH]; intros record offset Hbad.
  - by apply Exists_nil in Hbad.
  - cbn [put_numeric].
    destruct (format_numeric_field v) as [b|e] eqn:Hb; [|by exists e].
    cbn [mbind result_bind]. apply Exists_cons in Hbad as [[e He]|Hbad].
    + unfold format_numeric_field in Hb. by rewrite He in Hb.
    + by apply IH.
Qed.

Lemma create_fertilizer_record_raises
    (name formula source : pystr) (purity : Value) (nutrients : gmap pystr Value)
    (isliquid density cost : Value) (conctype : pystr) :
  Exists (fun v => exists e, to_float v = Raise e)
    (numeric_values purity nutrients isliquid density cost) ->
  exists e,
    create_fertilizer_record name formula source purity nutrients
      isliquid density cost conctype = Raise e.
Proof.
  intros Hbad. unfold create_fertilizer_record, bytearray.
  change (replicate 681 x00) with (x00 :: replicate 680 x00).
  rewrite set_byte_first. cbn [mbind result_bind].
  match goal with
  | |- context [put_numeric ?l ?r ?o] =>
      destruct (put_numeric_raises l r o Hbad) as [e ->]
  end.
  by exists e.
Qed.

Lemma append_new_raises fs dbf_path fertilizers :
  forall (data : bytes) num_records added_count,
  Exists (fun fert =>
            absent fs dbf_path fert = true
            /\ Exists (fun v => exists e, to_float v = Raise e)
                 (numeric_values (purity fert) (nutrients fert)
                    (isliquid fert) (density fert) (cost fert)))
    fertilizers ->
  exists e,
    append_new fs dbf_path fertilizers data num_records added_count = Raise e.
Proof.
  induction fertilizers as [|fert rest IH]; intros data n a Hbad.
  - by apply Exists_nil in Hbad.
  - cbn [append_new].
    destruct (fertilizer_exists fs dbf_path (name fert)) as [[|]|e] eqn:Hex;
      [| |by exists e]; cbn [mbind result_bind];
      apply Exists_cons in Hbad as [[Habs Hnum]|Hbad].
    + unfold absent in Habs. by rewrite Hex in Habs.
    + by apply IH.
    + destruct (create_fertilizer_record_raises (name fert) (formula fert)
                  (source fert) (purity fert) (nutrients fert) (isliquid fert)
                  (density fert) (cost fert) (conctype fert) Hnum) as [e ->].
      by exists e.
    + destruct (create_fertilizer_record _ _ _ _ _ _ _ _ _) as [record|e];
        [|by exists e]. cbn [mbind result_bind].
      destruct (index data (length data - 1)) as [last|e]; [|by exists e].
      cbn [mbind result_bind]. by apply IH.
Qed.

(** Errors of the docs update that come before the rename leave everything
    as it was.  When the year minus 1900, the month or the day does not fit
    a byte, when the table file has fewer than 12 bytes, or when the batch
    holds a row whose name is not found and one of whose 20 numbers
    [float] rejects, the update returns [False] and the world is the one it
    was given: no rename, no backup, no write, whatever the other rows
    are. *)
Theorem docs_errors_before_rename_change_nothing
    (dbf_path : string) (fertilizers : list Fertilizer) (stamp : string)
    (today : Date.t) (w : World) :
  (~ (0 <= Date.year today - 1900 < 256)%Z
   \/ ~ (0 <= Date.month today < 256)%Z
   \/ ~ (0 <= Date.day today < 256)%Z ->
   add_fertilizers_to_db dbf_path fertilizers stamp today w = (w, false))
  /\ (forall data,
        files w !! dbf_path = Some data -> (length data < 12)%nat ->
        add_fertilizers_to_db dbf_path fertilizers stamp today w = (w, false))
  /\ (Exists (fun fert =>
                absent (files w) dbf_path fert = true
                /\ Exists (fun v => exists e, to_float v = Raise e)
                     (numeric_values (purity fert) (nutrients fert)
                        (isliquid fert) (density fert) (cost fert)))
        fertilizers ->
      add_fertilizers_to_db dbf_path fertilizers stamp today w = (w, false)).
Proof.
  assert (forall P : Prop,
            (forall data image,
               files w !! dbf_path = Some data ->
               updated_image (files w) dbf_path fertilizers today data
               = Ok (Some image) -> P -> False) ->
            P ->
            add_fertilizers_to_db dbf_path fertilizers stamp today w
            = (w, false)) as Hearly.
  { intros P Hno HP. unfold add_fertilizers_to_db.
    destruct (files w !! dbf_path) as [data|] eqn:Hfile; [|done].
    destruct (bool_decide _); [done|].
    destruct (updated_image _ _ _ _ _) as [[image|]|e] eqn:Himage; [|done|done].
    destruct (Hno data image eq_refl Himage HP). }
  split; [|split].
  - apply Hearly. intros data image _ Himage Hdate.
    apply updated_image_bytes in Himage
      as (? & ? & ? & _ & _ & _ & _ & _ & Hy & Hm & Hd & _).
    lia.
  - intros data Hfile Hshort.
    apply (Hearly (length data < 12)%nat); [|done].
    intros data' image Hfile' Himage _.
    rewrite Hfile in Hfile'. injection Hfile' as <-.
    apply updated_image_bytes in Himage as (? & ? & ? & Hlen & _). lia.
  - apply Hearly. intros data image _ Himage Hbad.
    apply updated_image_Some in Himage as (? & ? & ? & ? & ? & ? & _ & Happ & _).
    destruct (append_new_raises _ _ _ data (le_decode (slice 4 8 data)) 0 Hbad)
      as [e He].
    by rewrite He in Happ.
Qed.

(** The number encoders of the two scripts.  The docs script's
    [format_numeric_field] raises exactly when [float(value)] does;
    otherwise it returns the ASCII bytes of the fixed-point text with 8
    decimals, right-justified in 18 columns and never cut, so the result has
    18 bytes when the text fits and more when it does not.  For a value that
    is neither [None] nor the empty string the main script's [format_value]
    on an 18.8 numeric field returns the first 18 of these bytes. *)
Theorem format_numeric_field_spec (value : Value) :
  (forall e, to_float value = Raise e -> format_numeric_field value = Raise e)
  /\ (forall x, to_float value = Ok x ->
      exists b,
        format_numeric_field value = Ok b
        /\ b = map byte_of_N (rjust 32 18 (format_fixed x 8))
        /\ length b = Nat.max 18 (length (format_fixed x 8))
        /\ (is_None value || eq_empty_str value = false ->
            AddFertilizers.format_value value 78 18 8 = Ok (take 18 b))).
Proof.
  split.
  - intros e He. unfold format_numeric_field. by rewrite He.
  - intros x Hx. eexists. split; [by apply format_numeric_field_Ok|].
    split; [done|]. split.
    + unfold format_f. by rewrite length_map, length_rjust.
    + intros Hnone. unfold AddFertilizers.format_value.
      destruct (decide (78 = 78)); [|done]. rewrite Hnone, Hx.
      change (0 <? 8) with true. cbn [mbind result_bind].
      change (N.to_nat 18) with 18%nat. change (N.to_nat 8) with 8%nat.
      pose proof (format_numeric_field_Ok _ _ Hx) as Hb.
      unfold format_numeric_field in Hb. rewrite Hx in Hb.
      cbn [mbind result_bind] in Hb. rewrite Hb. cbn [mbind result_bind].
      f_equal. apply rjust_id.
      rewrite length_take, length_map. unfold format_f.
      rewrite length_rjust. lia.
Qed.


End DocsUpdate.

(** ** Running the docs script twice *)

Section DocsTwice.
Import AddFertilizers DocsAddFertilizers.
Context `{rt : PyRuntime}.

Lemma slice_app_r {A} a b (l v : list A) :
  (length l <= a)%nat ->
  slice a b (l ++ v) = slice (a - length l) (b - length l) v.
Proof.
  intros Ha. unfold slice. rewrite drop_app_ge by done. f_equal. lia.
Qed.

Lemma slice_concat_uniform {A} m (recs : list (list A)) (rest : list A) :
  Forall (fun r => length r = m) recs ->
  map (fun j => slice (j * m) (j * m + m) (concat recs ++ rest))
    (seq 0 (length recs))
  = recs.
Proof.
  induction 1 as [|r recs Lr _ IH]; [done|].
  cbn [length seq map concat]. f_equal.
  - unfold slice. cbn [Nat.mul Nat.add drop].
    rewrite Nat.sub_0_r, <- app_assoc. by apply take_app_length'.
  - rewrite <- seq_shift, map_map. rewrite <- IH at 2.
    apply map_ext. intros j. rewrite <- app_assoc.
    rewrite slice_app_r by lia. f_equal; lia.
Qed.

Lemma last_format_string_field (s : pystr) n :
  26 ∉ s -> last (format_string_field s (S n)) <> Some x1a.
Proof.
  intros Hs Hlast. unfold format_string_field, encode_ascii_replace in Hlast.
  rewrite last_lookup, length_map in Hlast.
  rewrite list_lookup_fmap in Hlast.
  change (@fmap list _ N byte) with (@map N byte) in Hlast.
  destruct (ljust 32 (S n) (take (S n) s) !! _) as [c|] eqn:Hc; [|done].
  cbn in Hlast. injection Hlast as Hlast.
  assert (c ∈ ljust 32 (S n) (take (S n) s)) as Hin
    by (eapply list_elem_of_lookup_2; exact Hc).
  unfold ljust in Hin. apply elem_of_app in Hin.
  destruct (is_ascii c) eqn:Ea; [|done].
  assert (c = 26) as ->.
  { apply N.ltb_lt in Ea. apply (f_equal Byte.to_N) in Hlast.
    rewrite to_N_byte_of_N, N.mod_small in Hlast by lia. exact Hlast. }
  destruct Hin as [Hin|Hin].
  - apply Hs. apply elem_of_take in Hin as (i & Hi & _).
    eapply list_elem_of_lookup_2. exact Hi.
  - by apply elem_of_replicate_inv in Hin.
Qed.

(** An ASCII name of at most [n] characters without surrounding whitespace
    is read back from its field. *)
Lemma format_string_field_name (s : pystr) n :
  ascii_text s -> (length s <= n)%nat -> strip s = s ->
  strip (decode_ascii_ignore (format_string_field s n)) = s.
Proof.
  intros Hascii Hlen Hstrip. unfold format_string_field, encode_ascii_replace.
  rewrite take_ge by done. unfold ljust.
  assert (ascii_text (s ++ replicate (n - length s) 32)) as Hpad
    by (apply Forall_app; split; [done|by apply Forall_replicate]).
  rewrite (map_ext_Forall _ byte_of_N).
  - rewrite decode_encode_ascii by done. by apply strip_padded.
  - eapply Forall_impl; [exact Hpad|]. cbn. by intros c ->.
Qed.



(** The record of a storable row. *)
Lemma created_record_shape (fert : Fertilizer) (record : bytes) :
  storable fert ->
  create_fertilizer_record (name fert) (formula fert) (source fert)
    (purity fert) (nutrients fert) (isliquid fert) (density fert) (cost fert)
    (conctype fert) = Ok record ->
  create_fertilizer_record (name fert) (formula fert) (source fert)
    (purity fert) (nutrients fert) (isliquid fert) (density fert) (cost fert)
    (conctype fert) = Ok record
  /\ length record = 681%nat /\ head record = Some x20
  /\ record_name record = name fert /\ last record <> Some x1a.
Proof.
  intros (Hfit & Hascii & Hlen & Hstrip & Hconc) Hrec. split; [exact Hrec|].
  destruct (create_fertilizer_record_fits (name fert) (formula fert)
              (source fert) (purity fert) (nutrients fert) (isliquid fert)
              (density fert) (cost fert) (conctype fert) Hfit)
    as (texts & record' & _ & Hrec' & Hshape & Hl).
  rewrite Hrec in Hrec'. injection Hrec' as <-.
  split; [done|]. rewrite Hshape. split; [done|]. split.
  - unfold record_name.
    change (slice 1 81 ([x20] ++ ?l)) with (take 80 l).
    rewrite take_app_length' by (by rewrite length_format_string_field).
    by apply format_string_field_name.
  - rewrite !app_assoc, last_app.
    pose proof (last_format_string_field (conctype fert) 79 Hconc) as Hlast.
    destruct (last (format_string_field (conctype fert) 80)) as [b|] eqn:Hb.
    + exact Hlast.
    + apply last_None in Hb. apply (f_equal length) in Hb.
      by rewrite length_format_string_field in Hb.
Qed.

Lemma append_new_layout fs dbf_path fertilizers :
  forall (data : bytes) num_records added_count data' num_records' added_count',
  append_new fs dbf_path fertilizers data num_records added_count
  = Ok (data', num_records', added_count') ->
  Forall storable fertilizers ->
  exists recs,
    Forall2 (fun fert record =>
               create_fertilizer_record (name fert) (formula fert)
                 (source fert) (purity fert) (nutrients fert) (isliquid fert)
                 (density fert) (cost fert) (conctype fert) = Ok record
               /\ length record = 681%nat /\ head record = Some x20
               /\ record_name record = name fert /\ last record <> Some x1a)
      (List.filter (absent fs dbf_path) fertilizers) recs
    /\ (recs = [] -> data' = data)
    /\ (recs <> [] ->
        data' = (if decide (last data = Some x1a)
                 then take (length data - 1) data else data) ++ concat recs).
Proof.
  induction fertilizers as [|fert rest IH]; intros data n a data' n' a'.
  - intros [= <- <- <-] _. exists []. split; [constructor|]. by split.
  - cbn [append_new List.filter]. intros Happ [Hst Hrest]%Forall_cons.
    destruct (fertilizer_exists fs dbf_path (name fert)) as [[|]|e] eqn:Hex;
      [| |done]; cbn [mbind result_bind] in Happ.
    + assert (absent fs dbf_path fert = false) as ->
        by (unfold absent; by rewrite Hex).
      by apply (IH _ _ _ _ _ _ Happ).
    + assert (absent fs dbf_path fert = true) as ->
        by (unfold absent; by rewrite Hex).
      destruct (create_fertilizer_record _ _ _ _ _ _ _ _ _) as [record|e] eqn:Hrec;
        [|done]. cbn [mbind result_bind] in Happ.
      pose proof (created_record_shape _ _ Hst Hrec) as Hshape.
      destruct (index data (length data - 1)) as [b|e] eqn:Hlast; [|done].
      cbn [mbind result_bind] in Happ.
      assert (last data = Some b) as Hb.
      { rewrite last_lookup, <- Nat.sub_1_r. unfold index in Hlast.
        destruct (data !! (length data - 1)%nat); [|done]. by injection Hlast as ->. }
      set (cut := if decide (last data = Some x1a)
                  then take (length data - 1) data else data).
      assert ((if decide (b = x1a) then take (length data - 1) data else data)
              = cut) as Hcut.
      { unfold cut. rewrite Hb.
        destruct (decide (b = x1a)) as [->|Hne].
        - by rewrite decide_True.
        - rewrite decide_False; [done|]. by intros [= ?]. }
      rewrite Hcut in Happ.
      destruct (IH _ _ _ _ _ _ Happ Hrest) as (recs & Hrecs & Hnil & Hcons).
      exists (record :: recs). split; [by constructor|]. split; [done|].
      intros _. cbn [concat]. rewrite app_assoc.
      assert (last (cut ++ record) <> Some x1a) as Hl.
      { destruct Hshape as (_ & Lr & _ & _ & Hl). rewrite last_app.
        destruct (last record) eqn:E; [done|].
        apply last_None in E. by rewrite E in Lr. }
      destruct recs as [|r recs].
      * rewrite Hnil by done. by rewrite app_nil_r.
      * rewrite Hcons by done. by rewrite decide_False.
Qed.

Lemma append_new_present fs dbf_path fertilizers (data : bytes)
    num_records added_count :
  Forall (fun fert => fertilizer_exists fs dbf_path (name fert) = Ok true)
    fertilizers ->
  append_new fs dbf_path fertilizers data num_records added_count
  = Ok (data, num_records, added_count).
Proof.
  induction 1 as [|fert rest Hf _ IH]; [done|].
  cbn [append_new]. by rewrite Hf.
Qed.


Lemma slice_patched {A} (hd base rest : list A) a b :
  length hd = 8%nat -> (8 <= a)%nat -> (b <= length base)%nat ->
  slice a b (hd ++ drop 8 base ++ rest) = slice a b base.
Proof.
  intros Lh Ha Hb. rewrite slice_app_r by lia. rewrite Lh.
  rewrite slice_app_l by (rewrite length_drop; lia).
  unfold slice. rewrite drop_drop. f_equal; [lia|]. f_equal. lia.
Qed.

Lemma map_seq_from {B} (f : nat -> B) k : forall n,
  map f (seq n k) = map (fun j => f (n + j)%nat) (seq 0 k).
Proof.
  induction k as [|k IH]; intros n; [done|].
  cbn [seq map]. f_equal; [f_equal; lia|].
  rewrite IH, <- seq_shift, map_map. apply map_ext. intros j. f_equal. lia.
Qed.

(** The header fields and the records of an image made of 8 new bytes, the
    bytes 8.. of a sized table and new 681-byte records. *)
Lemma sized_image_records (data hd : bytes) (recs : list bytes) hl n image :
  length hd = 8%nat -> (12 <= hl)%nat -> (hl + n * 681 <= length data)%nat ->
  Forall (fun r => length r = 681%nat) recs ->
  image = hd ++ drop 8 (take (hl + n * 681) data) ++ concat recs ++ [x1a] ->
  (12 <= length image)%nat
  /\ slice 8 10 image = slice 8 10 data
  /\ slice 10 12 image = slice 10 12 data
  /\ located_records image hl 681 (n + length recs)
     = located_records data hl 681 n ++ recs.
Proof.
  intros Lh Hhl Hsize Hrecs ->.
  assert (length (take (hl + n * 681) data) = (hl + n * 681)%nat) as Lbase
    by (rewrite length_take; lia).
  split; [rewrite !length_app, length_drop, Lbase; lia|].
  split; [rewrite slice_patched, slice_take by lia; done|].
  split; [rewrite slice_patched, slice_take by lia; done|].
  unfold located_records. rewrite seq_app, map_app. f_equal.
  - apply map_ext_Forall, Forall_seq. intros i Hi. cbn beta.
    rewrite slice_patched, slice_take by lia. done.
  - cbn [Nat.add]. rewrite map_seq_from.
    rewrite <- (slice_concat_uniform 681 recs [x1a] Hrecs) at 2.
    apply map_ext. intros j. rewrite (app_assoc hd).
    rewrite slice_app_r by (rewrite length_app, length_drop, Lbase; lia).
    rewrite length_app, length_drop, Lbase, Lh. f_equal; lia.
Qed.

(** The image a docs update writes for storable rows on a sized table. *)
Lemma updated_image_sized fs dbf_path fertilizers today (data image : bytes) :
  sized data -> Forall storable fertilizers ->
  updated_image fs dbf_path fertilizers today data = Ok (Some image) ->
  exists recs version,
    Forall2 (fun fert record =>
               create_fertilizer_record (name fert) (formula fert)
                 (source fert) (purity fert) (nutrients fert) (isliquid fert)
                 (density fert) (cost fert) (conctype fert) = Ok record
               /\ length record = 681%nat /\ head record = Some x20
               /\ record_name record = name fert /\ last record <> Some x1a)
      (List.filter (absent fs dbf_path) fertilizers) recs
    /\ recs <> []
    /\ data !! 0%nat = Some version
    /\ le_decode (slice 4 8 data) + N.of_nat (length recs) < 2 ^ 32
    /\ (0 <= Date.year today - 1900 < 256)%Z
    /\ (0 <= Date.month today < 256)%Z
    /\ (0 <= Date.day today < 256)%Z
    /\ image
       = ([version;
           byte_of_N (Z.to_N (Date.year today - 1900));
           byte_of_N (Z.to_N (Date.month today));
           byte_of_N (Z.to_N (Date.day today))]
          ++ le_encode 4 (le_decode (slice 4 8 data) + N.of_nat (length recs)))
         ++ drop 8 (take (N.to_nat (le_decode (slice 8 10 data))
                          + N.to_nat (le_decode (slice 4 8 data)) * 681) data)
         ++ concat recs ++ [x1a].
Proof.
  intros (Hhl & Hrl & Hsize) Hst Himage.
  apply updated_image_bytes in Himage
    as (data1 & k & version & Hlen & Happ & Hk & Hpos & Hlt & Hy & Hm & Hd & Hv
        & _ & _ & ->).
  destruct (append_new_layout _ _ _ _ _ _ _ _ _ Happ Hst)
    as (recs & Hrecs & _ & Hdata1).
  pose proof (Forall2_length _ _ _ Hrecs) as Lrecs. rewrite Lrecs in Hk.
  subst k. exists recs, version.
  assert (recs <> []) as Hne by (intros ->; cbn in Hpos; lia).
  repeat (split; [done|]).
  rewrite (Hdata1 Hne).
  set (L := (N.to_nat (le_decode (slice 8 10 data))
             + N.to_nat (le_decode (slice 4 8 data)) * 681)%nat) in *.
  assert ((if decide (last data = Some x1a)
           then take (length data - 1) data else data) = take L data) as ->.
  { destruct Hsize as [[Hl Hlast]|[Hl Hlast]].
    - rewrite decide_False by done. rewrite take_ge by lia. done.
    - rewrite decide_True by done. f_equal. lia. }
  rewrite drop_app_le by (rewrite length_take; lia).
  by rewrite <- !app_assoc.
Qed.


Lemma record_exists_elem (records : list bytes) (record : bytes) (name : pystr) :
  record ∈ records -> head record <> Some x2a ->
  lower (record_name record) = lower name ->
  record_exists records name = true.
Proof.
  intros (before & after & ->)%list_elem_of_split Hhead Hname.
  rewrite record_exists_app, record_exists_cons.
  rewrite bool_decide_eq_true_2 by done. apply orb_true_r.
Qed.

Lemma append_new_checked fs dbf_path fertilizers :
  forall (data : bytes) num_records added_count r,
  append_new fs dbf_path fertilizers data num_records added_count = Ok r ->
  Forall (fun fert => exists b, fertilizer_exists fs dbf_path (name fert) = Ok b)
    fertilizers.
Proof.
  induction fertilizers as [|fert rest IH]; intros data n a r; [constructor|].
  cbn [append_new].
  destruct (fertilizer_exists fs dbf_path (name fert)) as [[|]|e] eqn:Hex;
    [| |done]; cbn [mbind result_bind]; intros Happ.
  - constructor; [by eexists|]. by eapply IH.
  - constructor; [by eexists|].
    destruct (create_fertilizer_record _ _ _ _ _ _ _ _ _); [|done].
    destruct (index data (length data - 1)); [|done].
    cbn [mbind result_bind] in Happ. by eapply IH.
Qed.

Lemma updated_image_present fs dbf_path fertilizers today (data : bytes) :
  (12 <= length data)%nat ->
  Forall (fun fert => fertilizer_exists fs dbf_path (name fert) = Ok true)
    fertilizers ->
  updated_image fs dbf_path fertilizers today data = Ok None.
Proof.
  intros Hlen Hall. unfold updated_image, unpack_I, unpack_H.
  assert (length (slice 8 10 data) = 2%nat) as ->
    by (unfold slice; rewrite length_take, length_drop; lia).
  assert (length (slice 10 12 data) = 2%nat) as ->
    by (unfold slice; rewrite length_take, length_drop; lia).
  assert (length (slice 4 8 data) = 4%nat) as ->
    by (unfold slice; rewrite length_take, length_drop; lia).
  cbn [Nat.eqb mbind result_bind].
  by rewrite append_new_present.
Qed.

(** The docs update is idempotent on a well-formed table.  When the table
    has the size its header declares, with records of 681 bytes, and every
    row of the batch is storable (numbers that fit 18 bytes, an ASCII name
    of at most 80 characters without surrounding whitespace, no [0x1A] in
    the classification), then after a run that reports success a second run
    with the same batch, at any later time, finds every row, reports
    [False] and leaves the world as the first run left it. *)
Theorem docs_second_run_adds_nothing
    (dbf_path : string) (fertilizers : list Fertilizer) (stamp : string)
    (today : Date.t) (w w' : World) (data : bytes) :
  files w !! dbf_path = Some data ->
  sized data ->
  Forall storable fertilizers ->
  add_fertilizers_to_db dbf_path fertilizers stamp today w = (w', true) ->
  Forall (fun fert =>
            fertilizer_exists (files w') dbf_path (name fert) = Ok true)
    fertilizers
  /\ forall stamp' today',
       add_fertilizers_to_db dbf_path fertilizers stamp' today' w' = (w', false).
Proof.
  intros Hfile Hsized Hst Hrun.
  apply docs_update_true in Hrun as (data' & image & Hfile' & Himage & ->).
  rewrite Hfile in Hfile'. injection Hfile' as <-.
  pose proof Himage as Hsteps.
  apply updated_image_Some in Hsteps as (? & ? & ? & ? & ? & ? & Hlen & Happ & _).
  apply append_new_checked in Happ. rename Happ into Hchecked.
  destruct (updated_image_sized _ _ _ _ _ _ Hsized Hst Himage)
    as (recs & version & Hrecs & Hne & _ & Hlt & _ & _ & _ & Himg).
  destruct Hsized as (Hhl & Hrl & Hsize).
  set (hl := N.to_nat (le_decode (slice 8 10 data))) in *.
  set (n := N.to_nat (le_decode (slice 4 8 data))) in *.
  assert (Forall (fun r : bytes => length r = 681%nat) recs) as Lrecs.
  { clear -Hrecs. induction Hrecs as [|? ? ? ? (_ & ? & _) _ IH]; by constructor. }
  match type of Himg with
  | _ = ?hd ++ _ =>
      destruct (sized_image_records data hd recs hl n image)
        as (Hlen' & H8 & H10 & Hlocated);
        [by rewrite length_app, length_le_encode|done|lia|done|done|]
  end.
  assert (le_decode (slice 4 8 image)
          = le_decode (slice 4 8 data) + N.of_nat (length recs)) as H4.
  { rewrite Himg. rewrite slice_app_l by (by rewrite length_app, length_le_encode).
    change (slice 4 8 ([?a; ?b; ?c; ?d] ++ ?l)) with (take 4 l).
    rewrite take_ge by (by rewrite length_le_encode).
    rewrite le_decode_encode. by apply N.mod_small. }
  set (fs' := <[dbf_path := image]> _).
  assert (fs' !! dbf_path = Some image) as Hfile' by apply lookup_insert_eq.
  assert (Forall (fun fert =>
                    fertilizer_exists fs' dbf_path (name fert) = Ok true)
            fertilizers) as Hall.
  { apply Forall_forall. intros fert Hin.
    rewrite (fertilizer_exists_scan _ _ _ _ Hfile' Hlen').
    rewrite H8, H10, H4, Hrl, N2Nat.inj_add, Nat2N.id.
    change (N.to_nat 681) with 681%nat. fold hl n.
    destruct (scan_records_map image hl 681 (name fert)
                (seq 0 (n + length recs))) as (Hscan & _).
    fold (located_records image hl 681 (n + length recs)) in Hscan.
    rewrite Hlocated in Hscan. rewrite Hscan.
    - f_equal. rewrite record_exists_app. apply orb_true_iff.
      rewrite Forall_forall in Hchecked.
      destruct (Hchecked fert Hin) as [[|] Hb].
      + left. rewrite (fertilizer_exists_scan _ _ _ _ Hfile Hlen) in Hb.
        rewrite Hrl in Hb. change (N.to_nat 681) with 681%nat in Hb.
        fold hl n in Hb.
        destruct (scan_records_map data hl 681 (name fert) (seq 0 n))
          as (_ & Hagree & _).
        symmetry. by apply Hagree.
      + right.
        assert (fert ∈ List.filter (absent (files w) dbf_path) fertilizers)
          as Hf.
        { apply list_elem_of_In, filter_In. split; [by apply list_elem_of_In|].
          unfold absent. by rewrite Hb. }
        apply list_elem_of_lookup_1 in Hf as (i & Hi).
        destruct (Forall2_lookup_l _ _ _ _ _ Hrecs Hi)
          as (r & Hr & _ & _ & Hhead & Hname & _).
        apply (record_exists_elem _ r).
        * eapply list_elem_of_lookup_2. exact Hr.
        * by rewrite Hhead.
        * by rewrite Hname.
    - apply Forall_app. split.
      + unfold located_records. apply Forall_map, Forall_seq.
        intros i Hi E. apply (f_equal length) in E. revert E.
        unfold slice. rewrite length_take, length_drop. cbn [length]. lia.
      + eapply Forall_impl; [exact Lrecs|]. cbn. intros r Lr ->. done. }
  split; [exact Hall|].
  intros stamp' today'. unfold add_fertilizers_to_db.
  unfold files at 1. fold fs'. rewrite Hfile'.
  rewrite bool_decide_eq_false_2.
  - unfold files at 1. fold fs'. by rewrite updated_image_present.
  - intros ->. apply Forall2_nil_inv_l in Hrecs. done.
Qed.


(** On a sized table the duplicate check returns. *)
Lemma sized_lookup_returns fs dbf_path (data : bytes) (name : pystr) :
  fs !! dbf_path = Some data -> sized data ->
  exists b, fertilizer_exists fs dbf_path name = Ok b.
Proof.
  intros Hfile (Hhl & Hrl & Hsize).
  rewrite (fertilizer_exists_scan _ _ _ _ Hfile) by lia.
  rewrite Hrl. change (N.to_nat 681) with 681%nat.
  destruct (scan_records_map data (N.to_nat (le_decode (slice 8 10 data))) 681
              name (seq 0 (N.to_nat (le_decode (slice 4 8 data)))))
    as (Hscan & _).
  rewrite Hscan; [by eexists|].
  apply Forall_map, Forall_seq.
  set (hl := N.to_nat (le_decode (slice 8 10 data))) in *.
  set (n := N.to_nat (le_decode (slice 4 8 data))) in *.
  intros i Hi E. apply (f_equal length) in E. revert E.
  unfold slice. rewrite length_take, length_drop. cbn [length]. lia.
Qed.

Lemma append_new_returns fs dbf_path fertilizers :
  forall (data : bytes) num_records added_count,
  Forall (fun fert => exists b, fertilizer_exists fs dbf_path (name fert) = Ok b)
    fertilizers ->
  Forall storable fertilizers ->
  data <> [] ->
  exists r, append_new fs dbf_path fertilizers data num_records added_count = Ok r.
Proof.
  induction fertilizers as [|fert rest IH]; intros data n a; [by eexists|].
  intros [[b Hb] Hchecked]%Forall_cons [Hst Hrest]%Forall_cons Hne.
  cbn [append_new]. rewrite Hb. cbn [mbind result_bind].
  destruct b; [by apply IH|].
  destruct Hst as (Hfit & _).
  destruct (create_fertilizer_record_fits (name fert) (formula fert)
              (source fert) (purity fert) (nutrients fert) (isliquid fert)
              (density fert) (cost fert) (conctype fert) Hfit)
    as (texts & record & _ & -> & _ & Lr).
  cbn [mbind result_bind]. unfold index.
  destruct (data !! (length data - 1)%nat) as [last|] eqn:Hlast.
  - cbn [mbind result_bind]. apply IH; [done|done|].
    intros E. apply (f_equal length) in E. rewrite length_app, Lr in E.
    cbn in E. lia.
  - apply lookup_ge_None in Hlast. destruct data; [done|]. cbn in Hlast. lia.
Qed.

(** A docs update of a well-formed table with storable rows succeeds and
    appends.  When the table has the size its header declares, every row
    is storable, at least one row's name is not found, the date fits its
    three bytes and the new count fits 32 bits, the update reports success
    and the table it writes is: the original byte 0, the date, the old count
    plus the number of rows not found, the original bytes from 8 to the end
    of the last record, one 681-byte record for each row not found, in batch
    order, and [0x1A]. *)
Theorem docs_update_appends_records
    (dbf_path : string) (fertilizers : list Fertilizer) (stamp : string)
    (today : Date.t) (w : World) (data : bytes) :
  files w !! dbf_path = Some data ->
  sized data ->
  Forall storable fertilizers ->
  List.filter (absent (files w) dbf_path) fertilizers <> [] ->
  (0 <= Date.year today - 1900 < 256)%Z ->
  (0 <= Date.month today < 256)%Z ->
  (0 <= Date.day today < 256)%Z ->
  le_decode (slice 4 8 data)
  + N.of_nat (length (List.filter (absent (files w) dbf_path) fertilizers))
  < 2 ^ 32 ->
  exists w' recs version,
    add_fertilizers_to_db dbf_path fertilizers stamp today w = (w', true)
    /\ Forall2 (fun fert record =>
                  create_fertilizer_record (name fert) (formula fert)
                    (source fert) (purity fert) (nutrients fert)
                    (isliquid fert) (density fert) (cost fert) (conctype fert)
                  = Ok record
                  /\ length record = 681%nat)
         (List.filter (absent (files w) dbf_path) fertilizers) recs
    /\ data !! 0%nat = Some version
    /\ files w' !! dbf_path
       = Some ([version;
                byte_of_N (Z.to_N (Date.year today - 1900));
                byte_of_N (Z.to_N (Date.month today));
                byte_of_N (Z.to_N (Date.day today))]
               ++ le_encode 4 (le_decode (slice 4 8 data)
                               + N.of_nat (length recs))
               ++ slice 8 (N.to_nat (le_decode (slice 8 10 data))
                           + N.to_nat (le_decode (slice 4 8 data)) * 681) data
               ++ concat recs ++ [x1a])
    /\ files w' !! backup_path_of dbf_path stamp = Some data.
Proof.
  intros Hfile Hsized Hst Hnew Hy Hm Hd Hlt.
  assert (12 <= length data)%nat as Hlen
    by (destruct Hsized as (? & _ & [[? _]|[? _]]); lia).
  assert (exists image,
             updated_image (files w) dbf_path fertilizers today data
             = Ok (Some image)) as [image Himage].
  { unfold updated_image, unpack_I, unpack_H.
    assert (length (slice 8 10 data) = 2%nat) as ->
      by (unfold slice; rewrite length_take, length_drop; lia).
    assert (length (slice 10 12 data) = 2%nat) as ->
      by (unfold slice; rewrite length_take, length_drop; lia).
    assert (length (slice 4 8 data) = 4%nat) as ->
      by (unfold slice; rewrite length_take, length_drop; lia).
    cbn [Nat.eqb mbind result_bind].
    destruct (append_new_returns (files w) dbf_path fertilizers data
                (le_decode (slice 4 8 data)) 0) as [[[data1 n1] k] Happ].
    - apply Forall_forall. intros fert _. by eapply sized_lookup_returns.
    - done.
    - intros ->. cbn in Hlen. lia.
    - rewrite Happ. cbn [mbind result_bind].
      apply append_new_inv in Happ as (-> & -> & _ & Hlen1).
      cbn [Nat.add].
      destruct (length (List.filter _ _)) as [|k] eqn:Hk;
        [by apply length_zero_iff_nil in Hk|].
      destruct (Nat.ltb_spec 0 (S k)) as [_|?]; [|lia].
      unfold pack_I. replace (_ <? 2 ^ 32) with true
        by (symmetry; by apply N.ltb_lt).
      cbn [mbind result_bind].
      rewrite set_byte_in_range;
        [|done|rewrite length_slice_assign, length_le_encode by lia; lia].
      cbn [mbind result_bind].
      rewrite set_byte_in_range;
        [|done
         |rewrite length_insert, length_slice_assign, length_le_encode by lia;
          lia].
      cbn [mbind result_bind].
      rewrite set_byte_in_range;
        [|done
         |rewrite !length_insert, length_slice_assign, length_le_encode by lia;
          lia].
      cbn [mbind result_bind]. by eexists. }
  destruct (updated_image_sized _ _ _ _ _ _ Hsized Hst Himage)
    as (recs & version & Hrecs & Hne & Hv & _ & _ & _ & _ & Himg).
  eexists. exists recs, version. split.
  { unfold add_fertilizers_to_db. rewrite Hfile.
    rewrite bool_decide_eq_false_2 by (by intros ->).
    rewrite Himage. reflexivity. }
  split.
  { eapply Forall2_impl; [exact Hrecs|]. intros ? ? (? & ? & _). by split. }
  split; [done|]. split.
  - unfold files at 1. rewrite lookup_insert_eq, Himg. f_equal.
    rewrite <- !app_assoc. do 2 f_equal. f_equal.
    unfold slice. rewrite skipn_firstn_comm. done.
  - unfold files at 1.
    rewrite lookup_insert_ne by (symmetry; apply backup_path_fresh).
    apply lookup_insert_eq.
Qed.


End DocsTwice.

(** ** Closed instances of the further properties *)

Section MoreInstances.
Import AddFertilizers Fixture.

(** [read_dbf_decodes], at the empty substances table: 24 descriptors, the
    terminator at byte 800. *)
Lemma read_dbf_decodes_witness :
  exists db,
    read_dbf db_path empty_substances = Ok db
    /\ length (field_descriptors db) = 24%nat
    /\ empty_substances !! (32 * (length (field_descriptors db) + 1))%nat
       = Some x0d
    /\ unpack_H (slice 8 10 empty_substances)
       = Ok (Header.header_length (header db)).
Proof.
  eassert (read_dbf db_path empty_substances = Ok _) as Hdb
    by (vm_compute; reflexivity).
  match type of Hdb with _ = Ok ?db => exists db end.
  pose proof (read_dbf_decodes _ _ _ Hdb) as H. cbv zeta in H.
  destruct H as (_ & _ & _ & Hhl & _ & Hterm & _).
  split; [exact Hdb|]. split; [reflexivity|]. split; [exact Hterm|exact Hhl].
Defined.

(** [commit_writes_table], at the empty substances table and the literal
    batch. *)
Lemma commit_writes_table_witness :
  exists db db' w',
    read_dbf db_path empty_substances = Ok db
    /\ @add_new example_runtime fertilizers db 0 = Ok (db', 4%nat)
    /\ write_dbf db' "20250615-120000" a_day (world_of empty_substances)
       = (w', Ok ())
    /\ files w' !! backup_path_of db_path "20250615-120000"
       = Some empty_substances.
Proof.
  eassert (read_dbf db_path empty_substances = Ok _) as Hdb
    by (vm_compute; reflexivity).
  match type of Hdb with _ = Ok ?db =>
    exists db;
    eassert (@add_new example_runtime fertilizers db 0 = Ok (_, 4%nat)) as Hadd
      by (vm_compute; reflexivity)
  end.
  match type of Hadd with _ = Ok (?db', _) => exists db' end.
  destruct (@commit_writes_table example_runtime fertilizers db_path
              "20250615-120000" a_day (world_of empty_substances)
              empty_substances _ _ _ eq_refl Hdb Hadd)
    as (w' & hdr & Hwrite & _ & _ & Hbackup & _).
  - vm_compute. split; discriminate.
  - vm_compute. split; [discriminate|reflexivity].
  - vm_compute. split; [discriminate|reflexivity].
  - vm_compute. reflexivity.
  - exists w'. split; [exact Hdb|]. split; [exact Hadd|].
    split; [exact Hwrite|exact Hbackup].
Defined.

(** [read_back_is_shifted], at the same run: the four records read back
    start 31 bytes into the record area. *)
Lemma read_back_is_shifted_witness :
  exists db db' out db2,
    read_dbf db_path empty_substances = Ok db
    /\ @add_new example_runtime fertilizers db 0 = Ok (db', 4%nat)
    /\ files (fst (write_dbf db' "20250615-120000" a_day
                     (world_of empty_substances))) !! db_path = Some out
    /\ read_dbf db_path out = Ok db2
    /\ records db2
       = read_records (N.to_nat (Header.num_records (header db2)))
           (N.to_nat (Header.record_length (header db2)))
           (drop 31 (concat (records db') ++ [x1a])).
Proof.
  eassert (read_dbf db_path empty_substances = Ok _) as Hdb
    by (vm_compute; reflexivity).
  match type of Hdb with _ = Ok ?db =>
    exists db;
    eassert (@add_new example_runtime fertilizers db 0 = Ok (_, 4%nat)) as Hadd
      by (vm_compute; reflexivity)
  end.
  match type of Hadd with _ = Ok (?db', _) =>
    exists db';
    destruct (@read_back_is_shifted example_runtime fertilizers db_path
                "20250615-120000" a_day (world_of empty_substances)
                (fst (write_dbf db' "20250615-120000" a_day
                        (world_of empty_substances)))
                empty_substances _ _ _ eq_refl Hdb Hadd)
      as (out & db2 & Hout & Hread & _ & _ & _ & _ & Hrecords)
  end.
  - vm_compute. reflexivity.
  - exists out, db2. split; [exact Hdb|]. split; [exact Hadd|].
    split; [exact Hout|]. split; [exact Hread|exact Hrecords].
Defined.

(** [add_new_appends], at the padded one-column table, which already
    holds [calcium sulfate]: three of the four candidates are added. *)
Lemma add_new_appends_witness :
  exists db db' new,
    read_dbf db_path padded_names = Ok db
    /\ @add_new example_runtime fertilizers db 0 = Ok (db', 3%nat)
    /\ records db' = records db ++ new
    /\ length new = 3%nat
    /\ Forall (fun record => head record = Some x20) new.
Proof.
  eassert (read_dbf db_path padded_names = Ok _) as Hdb
    by (vm_compute; reflexivity).
  match type of Hdb with _ = Ok ?db =>
    exists db;
    eassert (@add_new example_runtime fertilizers db 0 = Ok (_, 3%nat)) as Hadd
      by (vm_compute; reflexivity)
  end.
  match type of Hadd with _ = Ok (?db', _) => exists db' end.
  destruct (@add_new_appends example_runtime _ _ _ _ _ Hadd)
    as (new & Hrec & _ & Hlen & _ & Hact & _).
  exists new. split; [exact Hdb|]. split; [exact Hadd|].
  split; [exact Hrec|]. split; [exact Hlen|exact Hact].
Defined.

(** C3, at the padded one-column table: the literal batch adds three
    records to the one on file, in memory and in the rewritten file. *)
Lemma commit_preserves_header_fields_witness :
  exists db db' out count new front,
    read_dbf db_path padded_names = Ok db
    /\ @add_new example_runtime fertilizers db 0 = Ok (db', 3%nat)
    /\ files (fst (write_dbf db' "20250615-120000" a_day
                     (world_of padded_names))) !! db_path = Some out
    /\ unpack_H (slice 8 10 out) = unpack_H (slice 8 10 padded_names)
    /\ unpack_H (slice 10 12 out) = unpack_H (slice 10 12 padded_names)
    /\ unpack_I (slice 4 8 padded_names) = Ok count
    /\ unpack_I (slice 4 8 out) = Ok (count + N.of_nat 3)
    /\ records db' = records db ++ new
    /\ length new = 3%nat
    /\ out = front ++ concat (records db) ++ concat new ++ [x1a].
Proof.
  eassert (read_dbf db_path padded_names = Ok _) as Hdb
    by (vm_compute; reflexivity).
  match type of Hdb with _ = Ok ?db =>
    exists db;
    eassert (@add_new example_runtime fertilizers db 0 = Ok (_, 3%nat)) as Hadd
      by (vm_compute; reflexivity)
  end.
  match type of Hadd with _ = Ok (?db', _) =>
    exists db';
    destruct (@commit_preserves_header_fields example_runtime fertilizers
                db_path "20250615-120000" a_day (world_of padded_names)
                (fst (write_dbf db' "20250615-120000" a_day
                        (world_of padded_names)))
                padded_names _ _ _ eq_refl Hdb Hadd)
      as (out & count & new & front & Hout & Hhl & Hrl & Hc & Hc' & Hrec & Hlen
          & _ & Hfile)
  end.
  - vm_compute. reflexivity.
  - exists out, count, new, front.
    split; [exact Hdb|]. split; [exact Hadd|]. split; [exact Hout|].
    split; [exact Hhl|]. split; [exact Hrl|]. split; [exact Hc|].
    split; [exact Hc'|]. split; [exact Hrec|]. split; [exact Hlen|exact Hfile].
Defined.

(** [format_value_width], at the literal [21.58] in an 18.2 numeric
    field. *)
Lemma format_value_width_witness :
  exists b,
    @format_value example_runtime (VFloat (dbl 1518557499353989 46)) 78 18 2
    = Ok b
    /\ length b = 18%nat.
Proof.
  eexists. split; [exact encode_21_58|].
  exact (@format_value_width example_runtime
           (VFloat (dbl 1518557499353989 46)) 78 18 2 _ encode_21_58).
Defined.


Lemma fertilizers_findable : Forall findable fertilizers.
Proof.
  unfold fertilizers.
  repeat (apply Forall_cons; split;
          [eexists; split; [vm_compute; reflexivity|];
           split; [repeat constructor|];
           split; [vm_compute; lia|vm_compute; reflexivity]|]).
  by apply Forall_nil.
Qed.

(** [batch_then_all_found], at the empty substances table and the literal
    batch: a second pass over the same instance adds nothing. *)
Lemma batch_then_all_found_witness :
  exists db db',
    read_dbf db_path empty_substances = Ok db
    /\ @add_new example_runtime fertilizers db 0 = Ok (db', 4%nat)
    /\ @add_new example_runtime fertilizers db' 0 = Ok (db', 0%nat).
Proof.
  eassert (read_dbf db_path empty_substances = Ok _) as Hdb
    by (vm_compute; reflexivity).
  match type of Hdb with _ = Ok ?db =>
    exists db;
    eassert (@add_new example_runtime fertilizers db 0 = Ok (_, 4%nat)) as Hadd
      by (vm_compute; reflexivity)
  end.
  match type of Hadd with _ = Ok (?db', _) => exists db' end.
  split; [exact Hdb|]. split; [exact Hadd|].
  refine (proj2 (@batch_then_all_found example_runtime fertilizers _ 0 _ 4 0 _
                   _ fertilizers_findable Hadd)).
  reflexivity.
Defined.

(** [missing_name_writes_nothing], at a batch whose second candidate has no
    [Name]. *)
Lemma missing_name_writes_nothing_witness :
  exists e,
    @add_fertilizers example_runtime [calcium_sulfate; ∅] db_path
      "20250615-120000" a_day (world_of empty_substances)
    = (world_of empty_substances, Raise e).
Proof.
  apply (@missing_name_writes_nothing example_runtime [calcium_sulfate; ∅] ∅
           db_path "20250615-120000" a_day (world_of empty_substances)
           empty_substances).
  - reflexivity.
  - apply elem_of_cons. right. apply elem_of_cons. by left.
  - reflexivity.
Defined.

Lemma empty_substances_sized : DocsAddFertilizers.sized empty_substances.
Proof.
  unfold DocsAddFertilizers.sized. cbv zeta.
  split; [vm_compute; lia|]. split; [reflexivity|].
  right. split; vm_compute; reflexivity.
Qed.

Lemma plain_row_storable :
  Forall (@DocsAddFertilizers.storable example_runtime) [plain_row].
Proof.
  apply Forall_cons. split; [|by apply Forall_nil].
  unfold DocsAddFertilizers.storable. split.
  - eassert (DocsAddFertilizers.numeric_values _ _ _ _ _ = _) as ->
      by (vm_compute; reflexivity).
    repeat (apply Forall_cons; split;
            [eexists; split; [reflexivity|vm_compute; lia]|]).
    by apply Forall_nil.
  - split; [repeat constructor|]. split; [vm_compute; lia|].
    split; [vm_compute; reflexivity|]. apply not_elem_of_nil.
Qed.

(** [fertilizer_exists_is_record_exists], at the padded one-column table:
    the docs check finds [Calcium Sulfate] in the record at byte 96. *)
Lemma fertilizer_exists_is_record_exists_witness :
  @DocsAddFertilizers.fertilizer_exists example_runtime
    {[ db_path := padded_names ]} db_path (str_of "Calcium Sulfate")
  = Ok (@record_exists example_runtime
          (DocsAddFertilizers.located_records padded_names 96 81 1)
          (str_of "Calcium Sulfate"))
  /\ @record_exists example_runtime
       (DocsAddFertilizers.located_records padded_names 96 81 1)
       (str_of "Calcium Sulfate") = true.
Proof.
  split; [|vm_compute; reflexivity].
  refine (proj1 (@fertilizer_exists_is_record_exists example_runtime
                   {[ db_path := padded_names ]} db_path padded_names
                   (str_of "Calcium Sulfate") _ _) _).
  - reflexivity.
  - vm_compute. lia.
  - repeat constructor. discriminate.
Defined.

(** [docs_update_keeps_existing_bytes], at the empty substances table and
    one row: the language driver id at byte 29 is written back. *)
Lemma docs_update_keeps_existing_bytes_witness :
  exists image,
    files (fst (@DocsAddFertilizers.add_fertilizers_to_db example_runtime
                  db_path [plain_row] "20250615-120000" a_day
                  (world_of empty_substances))) !! db_path = Some image
    /\ image !! 29%nat = Some x57
    /\ last image = Some x1a.
Proof.
  destruct (@docs_update_keeps_existing_bytes example_runtime db_path
              [plain_row] "20250615-120000" a_day (world_of empty_substances)
              (fst (@DocsAddFertilizers.add_fertilizers_to_db example_runtime
                      db_path [plain_row] "20250615-120000" a_day
                      (world_of empty_substances))))
    as (data & image & Hdata & Himage & _ & _ & _ & _ & _ & Hkeep & Hlast).
  - vm_compute. reflexivity.
  - exists image. split; [exact Himage|]. split; [|exact Hlast].
    injection Hdata as <-. rewrite Hkeep by (vm_compute; lia). reflexivity.
Defined.

(** [docs_update_header], at the same table and a batch that gives one row
    twice: both are counted, and the date bytes are 125, 6, 15. *)
Lemma docs_update_header_witness :
  exists image,
    files (fst (@DocsAddFertilizers.add_fertilizers_to_db example_runtime
                  db_path [plain_row; plain_row] "20250615-120000" a_day
                  (world_of empty_substances))) !! db_path = Some image
    /\ unpack_I (slice 4 8 image) = Ok 2
    /\ slice 1 4 image = [x7d; x06; x0f].
Proof.
  destruct (@docs_update_header example_runtime db_path
              [plain_row; plain_row] "20250615-120000" a_day
              (world_of empty_substances)
              (fst (@DocsAddFertilizers.add_fertilizers_to_db example_runtime
                      db_path [plain_row; plain_row] "20250615-120000" a_day
                      (world_of empty_substances))))
    as (data & image & Hdata & Himage & _ & Hcount & _ & _ & _ & Hdate).
  - vm_compute. reflexivity.
  - exists image. split; [exact Himage|]. injection Hdata as <-.
    split; [exact Hcount|exact Hdate].
Defined.

(** [docs_second_run_adds_nothing], at the empty substances table and one
    row: the run of the next day reports [False]. *)
Lemma docs_second_run_adds_nothing_witness :
  let w' := fst (@DocsAddFertilizers.add_fertilizers_to_db example_runtime
                   db_path [plain_row] "20250615-120000" a_day
                   (world_of empty_substances)) in
  @DocsAddFertilizers.add_fertilizers_to_db example_runtime
    db_path [plain_row] "20250616-120000" (Date.mk 2025 6 16) w'
  = (w', false).
Proof.
  intros w'.
  refine (proj2 (@docs_second_run_adds_nothing example_runtime db_path
                   [plain_row] "20250615-120000" a_day
                   (world_of empty_substances) w' empty_substances
                   _ empty_substances_sized plain_row_storable _) _ _).
  - reflexivity.
  - vm_compute. reflexivity.
Defined.

(** [docs_update_appends_records], at the same table and row. *)
Lemma docs_update_appends_records_witness :
  exists w' recs,
    @DocsAddFertilizers.add_fertilizers_to_db example_runtime
      db_path [plain_row] "20250615-120000" a_day (world_of empty_substances)
    = (w', true)
    /\ length recs = 1%nat
    /\ files w' !! db_path
       = Some ([x03; x7d; x06; x0f] ++ le_encode 4 1
               ++ slice 8 801 empty_substances ++ concat recs ++ [x1a]).
Proof.
  destruct (@docs_update_appends_records example_runtime db_path
              [plain_row] "20250615-120000" a_day (world_of empty_substances)
              empty_substances eq_refl empty_substances_sized
              plain_row_storable)
    as (w' & recs & version & Hrun & Hrecs & Hv & Himage & _).
  - vm_compute. discriminate.
  - vm_compute. split; [discriminate|reflexivity].
  - vm_compute. split; [discriminate|reflexivity].
  - vm_compute. split; [discriminate|reflexivity].
  - vm_compute. reflexivity.
  - exists w', recs. split; [exact Hrun|].
    pose proof (Forall2_length _ _ _ Hrecs) as Lrecs.
    split; [by rewrite <- Lrecs|].
    injection Hv as <-. rewrite Himage, <- Lrecs. reflexivity.
Defined.


End MoreInstances.
